(** * Product Counter: the counting session, its persistence, the CSV import
      and export, and the migration of legacy archive records

    A shallow embedding of [src/App.tsx].  Every definition below is the
    transcription of the source function (or inline expression) named in its
    comment.

    Conventions of the embedding.

    - A JavaScript [number] is modelled by the type [number]: [NaN], the two
      infinities, and the finite values as rationals kept in lowest terms (so
      that equal numbers are equal terms).  The operations that round in
      JavaScript round here: [+], [*], [/], [parseInt] and [parseFloat] give
      the double (IEEE-754 binary64) nearest to the exact result, a tie going
      to the even significand and a result of [2 ^ 1024] or more to an
      infinity.  [Math.floor], [Math.max], [%] and the negation are exact on
      doubles and are exact here; the subtraction is kept exact for the
      reason given at its definition.  The sign of zero is not modelled: the
      program never observes it.
    - A JavaScript string is a [string]; the white space removed by [trim],
      [parseFloat] and [parseInt] is the ASCII white space.
    - React state is a record, every handler is a function on it, and the
      effect that mirrors the session into [localStorage] runs after every
      handler that sets [currentForm] or [currentCounts].
    - [localStorage] is a finite map from keys to texts; [JSON.stringify] and
      [JSON.parse] are taken as given. *)

From Stdlib Require Import ZArith QArith Qround Qminmax Lia Lqa.
From Stdlib Require Import Ascii String DecimalString.
From Stdlib Require DecimalPos.
From Stdlib Require Import List Permutation Sorted.
From stdpp Require Import base strings gmap.
Import ListNotations.

Local Open Scope string_scope.
Local Open Scope list_scope.

(** ** Numbers *)

Inductive number : Type :=
| NaN
| Inf (negative : bool)
| Fin (q : Q).

Definition Infinity : number := Inf false.

(** A finite value, in lowest terms. *)
Definition fin (q : Q) : number := Fin (Qred q).

Definition ofZ (z : Z) : number := Fin (inject_Z z).

Definition isNaN (n : number) : bool :=
  match n with NaN => true | _ => false end.

Definition isFinite (n : number) : bool :=
  match n with Fin _ => true | _ => false end.

(** [a < b]; false as soon as one side is [NaN]. *)
Definition ltb (a b : number) : bool :=
  match a, b with
  | NaN, _ | _, NaN => false
  | Inf true, Inf true => false
  | Inf true, _ => true
  | _, Inf true => false
  | Inf false, _ => false
  | Fin _, Inf false => true
  | Fin x, Fin y => if Qlt_le_dec x y then true else false
  end.

(** [a === b] on numbers: [NaN] is different from itself. *)
Definition strictEq (a b : number) : bool :=
  match a, b with
  | Inf s, Inf t => Bool.eqb s t
  | Fin x, Fin y => Qeq_bool x y
  | _, _ => false
  end.

(** ToBoolean on a number: [0] and [NaN] are falsy. *)
Definition truthy (n : number) : bool :=
  match n with
  | NaN => false
  | Inf _ => true
  | Fin q => negb (Qeq_bool q 0)
  end.

Definition isNegative (q : Q) : bool :=
  if Qlt_le_dec q 0 then true else false.

Definition neg (a : number) : number :=
  match a with
  | NaN => NaN
  | Inf s => Inf (negb s)
  | Fin x => fin (- x)
  end.

(** *** Rounding to a double

    A double is [m * 2 ^ e] with [m < 2 ^ 53] and [-1074 <= e <= 971].  A
    positive rational [n / d] in the binade [2 ^ b <= n / d < 2 ^ (b + 1)] is
    rounded on the grid of exponent [e = max (-1074) (b - 52)]. *)

(** [n / d] rounded to the nearest integer, a tie to the even one. *)
Definition nearestEven (n d : Z) : Z :=
  let q := (n / d)%Z in
  match (2 * (n mod d) ?= d)%Z with
  | Lt => q
  | Gt => (q + 1)%Z
  | Eq => if Z.even q then q else (q + 1)%Z
  end.

(** [n / d] divided by [2 ^ e], as a fraction of two integers. *)
Definition scaledNum (n e : Z) : Z := (n * 2 ^ Z.max 0 (- e))%Z.
Definition scaledDen (d e : Z) : Z := (d * 2 ^ Z.max 0 e)%Z.

(** The exponent [b] with [2 ^ b <= n / d < 2 ^ (b + 1)]. *)
Definition binade (n d : Z) : Z :=
  let k := (Z.log2 n - Z.log2 d)%Z in
  if (scaledDen d k <=? scaledNum n k)%Z then k else (k - 1)%Z.

(** [m * 2 ^ e], in lowest terms. *)
Definition dyadic (m e : Z) : Q :=
  Qred (Qmake (m * 2 ^ Z.max 0 e) (Z.to_pos (2 ^ Z.max 0 (- e)))).

(** The double nearest to [n / d], for positive [n] and [d]. *)
Definition roundPositive (n d : Z) : number :=
  let e := Z.max (-1074) (binade n d - 52) in
  let m := nearestEven (scaledNum n e) (scaledDen d e) in
  if (2 ^ 1024 <=? m * 2 ^ Z.max 0 e)%Z then Inf false else Fin (dyadic m e).

(** The double nearest to a rational. *)
Definition double (q : Q) : number :=
  match Qnum (Qred q) with
  | Z0 => Fin 0
  | Zpos n => roundPositive (Zpos n) (Zpos (Qden (Qred q)))
  | Zneg n => neg (roundPositive (Zpos n) (Zpos (Qden (Qred q))))
  end.
Arguments double : simpl never.

(** *** Arithmetic *)

Definition add (a b : number) : number :=
  match a, b with
  | NaN, _ | _, NaN => NaN
  | Inf s, Inf t => if Bool.eqb s t then Inf s else NaN
  | Inf s, Fin _ => Inf s
  | Fin _, Inf t => Inf t
  | Fin x, Fin y => double (x + y)
  end.

(** [a - b].  The program subtracts in two places only: in the comparators
    of the two sorts, which use the sign of the difference and nothing else,
    and on two readings of the clock.  The rounded difference of two doubles
    has the sign of their exact difference, and the difference of two clock
    readings (integers below [2 ^ 53]) is exact, so the difference is kept
    exact. *)
Definition sub (a b : number) : number :=
  match a, b with
  | NaN, _ | _, NaN => NaN
  | Inf s, Inf t => if Bool.eqb s (negb t) then Inf s else NaN
  | Inf s, Fin _ => Inf s
  | Fin _, Inf t => Inf (negb t)
  | Fin x, Fin y => fin (x + - y)
  end.

Definition mul (a b : number) : number :=
  match a, b with
  | NaN, _ | _, NaN => NaN
  | Inf s, Inf t => Inf (xorb s t)
  | Inf s, Fin y => if Qeq_bool y 0 then NaN else Inf (xorb s (isNegative y))
  | Fin x, Inf t => if Qeq_bool x 0 then NaN else Inf (xorb (isNegative x) t)
  | Fin x, Fin y => double (x * y)
  end.

Definition div (a b : number) : number :=
  match a, b with
  | NaN, _ | _, NaN => NaN
  | Inf _, Inf _ => NaN
  | Inf s, Fin y => Inf (xorb s (isNegative y))
  | Fin _, Inf _ => Fin 0
  | Fin x, Fin y =>
      if Qeq_bool y 0
      then (if Qeq_bool x 0 then NaN else Inf (isNegative x))
      else double (x / y)
  end.

(** Rounding toward zero. *)
Definition Qtrunc (q : Q) : Z :=
  if isNegative q then Qceiling q else Qfloor q.

(** [a % b]: the remainder has the sign of the dividend. *)
Definition rem (a b : number) : number :=
  match a, b with
  | NaN, _ | _, NaN => NaN
  | Inf _, _ => NaN
  | Fin x, Inf _ => Fin x
  | Fin x, Fin y =>
      if Qeq_bool y 0 then NaN
      else fin (x - y * inject_Z (Qtrunc (x / y)))
  end.

(** [Math.floor]. *)
Definition floor (a : number) : number :=
  match a with
  | Fin x => ofZ (Qfloor x)
  | _ => a
  end.

(** [Math.max(a, b)]. *)
Definition max (a b : number) : number :=
  match a, b with
  | NaN, _ | _, NaN => NaN
  | _, _ => if ltb a b then b else a
  end.

(** A finite number that is not below zero. *)
Definition nonNegative (n : number) : Prop :=
  match n with
  | Fin q => (0 <= q)%Q
  | _ => False
  end.

(** ** Strings *)

Definition LF : ascii := "010"%char.
Definition CR : ascii := "013"%char.
Definition DQUOTE : ascii := "034"%char.
Definition COMMA : ascii := ","%char.

(** White space and line terminators removed by [trim]. *)
Definition isWhiteSpace (c : ascii) : bool :=
  let n := nat_of_ascii c in
  ((9 <=? n)%nat && (n <=? 13)%nat) || (n =? 32)%nat.

Fixpoint trimStart (s : string) : string :=
  match s with
  | EmptyString => EmptyString
  | String c r => if isWhiteSpace c then trimStart r else s
  end.

Fixpoint trimEnd (s : string) : string :=
  match s with
  | EmptyString => EmptyString
  | String c r =>
      match trimEnd r with
      | EmptyString => if isWhiteSpace c then EmptyString else String c EmptyString
      | r' => String c r'
      end
  end.

(** [s.trim()]. *)
Definition trim (s : string) : string := trimEnd (trimStart s).

(** ToBoolean on a string: only the empty string is falsy. *)
Definition nonEmpty (s : string) : bool :=
  match s with EmptyString => false | _ => true end.

(** [text.split(/\r?\n/)]. *)
Fixpoint splitLines (text : string) : list string :=
  match text with
  | EmptyString => [EmptyString]
  | String c rest =>
      let continue :=
        match splitLines rest with
        | cur :: more => String c cur :: more
        | [] => [String c EmptyString]
        end in
      if Ascii.eqb c LF then EmptyString :: splitLines rest
      else if Ascii.eqb c CR then
        match rest with
        | String c' rest' =>
            if Ascii.eqb c' LF then EmptyString :: splitLines rest' else continue
        | EmptyString => continue
        end
      else continue
  end.

(** The [replace] of [parseCSV], with the pattern [^QUOTE|QUOTE$] and the
    flag [g]: one quote off the front, one off the end. *)
Fixpoint dropLastQuote (s : string) : string :=
  match s with
  | EmptyString => EmptyString
  | String c EmptyString => if Ascii.eqb c DQUOTE then EmptyString else s
  | String c r => String c (dropLastQuote r)
  end.

Definition stripQuotes (s : string) : string :=
  match s with
  | String c r => if Ascii.eqb c DQUOTE then dropLastQuote r else dropLastQuote s
  | EmptyString => EmptyString
  end.

(** The value of a character as a digit of some radix up to 36. *)
Definition digitValue (c : ascii) : option Z :=
  let n := nat_of_ascii c in
  if (48 <=? n)%nat && (n <=? 57)%nat then Some (Z.of_nat n - 48)%Z
  else if (97 <=? n)%nat && (n <=? 122)%nat then Some (Z.of_nat n - 87)%Z
  else if (65 <=? n)%nat && (n <=? 90)%nat then Some (Z.of_nat n - 55)%Z
  else None.

(** The longest prefix of radix-[R] digits of [s]: the number of digits read
    and their value continuing from [acc]. *)
Fixpoint readDigits (R : Z) (s : string) (count : nat) (acc : Z) : nat * Z * string :=
  match s with
  | EmptyString => (count, acc, s)
  | String c r =>
      match digitValue c with
      | Some d => if (d <? R)%Z then readDigits R r (S count) (acc * R + d)%Z
                  else (count, acc, s)
      | None => (count, acc, s)
      end
  end.

(** An optional sign in front of a numeric literal. *)
Definition readSign (s : string) : bool * string :=
  match s with
  | String "+"%char r => (false, r)
  | String "-"%char r => (true, r)
  | _ => (false, s)
  end.

Definition applySign (negative : bool) (z : Z) : Z :=
  if negative then (- z)%Z else z.

(** [parseInt(s, radix)]; [None] is a call without radix. *)
Definition parseInt (s : string) (radix : option Z) : number :=
  let '(negative, s1) := readSign (trimStart s) in
  let R := match radix with None => 10%Z | Some r => r end in
  let stripPrefix := match radix with None => true | Some r => (r =? 16)%Z end in
  if ((R <? 2) || (36 <? R))%Z then NaN
  else
    let '(R, s2) :=
      match s1 with
      | String "0"%char (String x r) =>
          if stripPrefix && (Ascii.eqb x "x" || Ascii.eqb x "X")
          then (16%Z, r) else (R, s1)
      | _ => (R, s1)
      end in
    let '(count, value, _) := readDigits R s2 0 0%Z in
    match count with
    | O => NaN
    | _ => double (inject_Z (applySign negative value))
    end.

Fixpoint startsWith (p s : string) : bool :=
  match p, s with
  | EmptyString, _ => true
  | String a p', String b s' => Ascii.eqb a b && startsWith p' s'
  | _, _ => false
  end.

(** The exponent part of a decimal literal, [0] when there is none. *)
Definition readExponent (s : string) : Z :=
  match s with
  | String e r =>
      if Ascii.eqb e "e" || Ascii.eqb e "E" then
        let '(negative, r1) := readSign r in
        let '(count, value, _) := readDigits 10 r1 0 0%Z in
        match count with
        | O => 0%Z
        | _ => applySign negative value
        end
      else 0%Z
  | EmptyString => 0%Z
  end.

(** [parseFloat(s)]: the longest prefix that is a decimal literal. *)
Definition parseFloat (s : string) : number :=
  let '(negative, s1) := readSign (trimStart s) in
  if startsWith "Infinity" s1 then Inf negative
  else
    let '(icount, ivalue, r1) := readDigits 10 s1 0 0%Z in
    let '(fcount, mantissa, r2) :=
      match r1 with
      | String "."%char r => readDigits 10 r 0 ivalue
      | _ => (O, ivalue, r1)
      end in
    match (icount + fcount)%nat with
    | O => NaN
    | _ =>
        let exponent := (readExponent r2 - Z.of_nat fcount)%Z in
        double (inject_Z (applySign negative mantissa) * Qpower 10 exponent)
    end.

(** Decimal digits of an integer, as in a template literal. *)
Definition Z_to_string (z : Z) : string :=
  NilZero.string_of_int (Z.to_int z).

(** ** Data model (the interfaces at the top of [App.tsx]) *)

Module Product.
Record t : Type := mk {
  id : string;
  name : string;
  packagingSize : number;
  sortIndex : option number
}.
End Product.
Abbreviation Product := Product.t.

Module CountItem.
Record t : Type := mk {
  productId : string;
  productName : string;
  packagingSize : number;
  packageCount : number;
  singleCount : number
}.
End CountItem.
Abbreviation CountItem := CountItem.t.

Module SavedCount.
Record t : Type := mk {
  id : string;
  formName : string;
  timestamp : string;
  items : list CountItem
}.
End SavedCount.
Abbreviation SavedCount := SavedCount.t.

Module FormTemplate.
Record t : Type := mk {
  id : string;
  name : string;
  products : list Product;
  createdAt : string
}.
End FormTemplate.
Abbreviation FormTemplate := FormTemplate.t.

Inductive View : Type :=
| ViewStart | ViewImport | ViewCreateTemplate | ViewCount | ViewViewCounts.

(** How a call completes: it returns, or it throws [new Error(message)]. *)
Inductive completion (A : Type) : Type :=
| Normal (value : A)
| Throw (message : string).
Arguments Normal {A} value.
Arguments Throw {A} message.

(** ** [Array.prototype.sort] with a comparator

    The comparator's result is used through its sign, [NaN] counting as
    zero.  The sort is stable: an element stays in front of the later
    elements that do not compare below it. *)

Section ArraySort.
Context {A : Type} (comparefn : A -> A -> number).

(** [comparefn(a, b) < 0]. *)
Definition before (a b : A) : bool := ltb (comparefn a b) (ofZ 0).

Fixpoint insertSorted (x : A) (sorted : list A) : list A :=
  match sorted with
  | [] => [x]
  | y :: rest => if before y x then y :: insertSorted x rest else x :: y :: rest
  end.

Definition sort (l : list A) : list A := fold_right insertSorted [] l.
End ArraySort.

(** [a.sortIndex ?? Infinity]. *)
Definition indexOrInfinity (p : Product) : number :=
  match Product.sortIndex p with
  | Some i => i
  | None => Infinity
  end.

(** The comparator of [parseCSV] and of [saveTemplate]. *)
Definition bySortIndex (a b : Product) : number :=
  let aIndex := indexOrInfinity a in
  let bIndex := indexOrInfinity b in
  sub aIndex bIndex.

Definition sortProducts (products : list Product) : list Product :=
  sort bySortIndex products.

(** ** [parseCSV] *)

(** The inner loop over the characters of a line. *)
Fixpoint scanLine (line : string) (values : list string) (current : string)
    (inQuotes : bool) : list string :=
  match line with
  | EmptyString => values ++ [current]
  | String char rest =>
      if Ascii.eqb char DQUOTE then scanLine rest values current (negb inQuotes)
      else if Ascii.eqb char COMMA && negb inQuotes
      then scanLine rest (values ++ [current]) EmptyString inQuotes
      else scanLine rest values (current ++ String char EmptyString) inQuotes
  end.

Definition cleanValuesOf (line : string) : list string :=
  map (fun v => stripQuotes (trim v)) (scanLine line [] EmptyString false).

(** [text.split(/\r?\n/).filter(line => line.trim())]. *)
Definition linesOf (text : string) : list string :=
  List.filter (fun line => nonEmpty (trim line)) (splitLines text).

(** [cleanValues[k]], the empty string standing for [undefined] where the
    source only converts the value to text. *)
Definition field (k : nat) (cleanValues : list string) : string :=
  nth k cleanValues EmptyString.

Definition invalidPackagingSize (i : nat) (value : string) : string :=
  "Invalid packaging size at row " ++ Z_to_string (Z.of_nat (i + 1))
    ++ ": " ++ String DQUOTE (value ++ String DQUOTE EmptyString).

(** [cleanValues[3] ? parseInt(cleanValues[3]) : undefined]. *)
Definition sortIndexOf (cleanValues : list string) : option number :=
  match nth_error cleanValues 3 with
  | Some v => if nonEmpty v then Some (parseInt v None) else None
  | None => None
  end.

Definition productOf (cleanValues : list string) (packagingSize : number) : Product :=
  {| Product.id := field 0 cleanValues;
     Product.name := field 1 cleanValues;
     Product.packagingSize := packagingSize;
     Product.sortIndex := sortIndexOf cleanValues |}.

(** The outer loop, from row [i] on, [products] holding the rows pushed so far. *)
Fixpoint parseRows (i : nat) (lines : list string) (products : list Product)
    : completion (list Product) :=
  match lines with
  | [] => Normal products
  | line :: rest =>
      let cleanValues := cleanValuesOf line in
      if (3 <=? List.length cleanValues)%nat then
        let packagingSize := parseFloat (field 2 cleanValues) in
        if isNaN packagingSize
        then Throw (invalidPackagingSize i (field 2 cleanValues))
        else parseRows (S i) rest (products ++ [productOf cleanValues packagingSize])
      else parseRows (S i) rest products
  end.

Definition parseCSV (text : string) : completion (list Product) :=
  match parseRows 0 (linesOf text) [] with
  | Normal products => Normal (sortProducts products)
  | Throw message => Throw message
  end.

(** ** Migration of the stored archive (the load effect, lines 66-93)

    A stored item is what [JSON.parse] returns for one element of [items]: an
    object in which any of the fields may be missing ([None] is
    [undefined]). *)

Module StoredItem.
Record t : Type := mk {
  productId : option string;
  productName : option string;
  packagingSize : option number;
  packageCount : option number;
  singleCount : option number;
  count : option number
}.
End StoredItem.
Abbreviation StoredItem := StoredItem.t.

Module StoredCount.
Record t : Type := mk {
  id : string;
  formName : string;
  timestamp : string;
  items : list StoredItem
}.
End StoredCount.
Abbreviation StoredCount := StoredCount.t.

(** [anyIt.packagingSize || 1]. *)
Definition packagingSizeOr1 (it : StoredItem) : number :=
  match StoredItem.packagingSize it with
  | Some size => if truthy size then size else ofZ 1
  | None => ofZ 1
  end.

(** [Number(anyIt.count ?? 0)]. *)
Definition legacyTotal (it : StoredItem) : number :=
  match StoredItem.count it with
  | Some c => c
  | None => ofZ 0
  end.

(** The callback of [sc.items.map]. *)
Definition migrateItem (it : StoredItem) : StoredItem :=
  match StoredItem.packageCount it, StoredItem.singleCount it with
  | Some _, Some _ => it
  | _, _ =>
      let packagingSize := packagingSizeOr1 it in
      let total := legacyTotal it in
      let packageCount := floor (div total packagingSize) in
      let singleCount := rem total packagingSize in
      {| StoredItem.productId := StoredItem.productId it;
         StoredItem.productName := StoredItem.productName it;
         StoredItem.packagingSize := Some packagingSize;
         StoredItem.packageCount := Some packageCount;
         StoredItem.singleCount := Some singleCount;
         StoredItem.count := None |}
  end.

(** The callback of [parsed.map]. *)
Definition migrateCount (sc : StoredCount) : StoredCount :=
  {| StoredCount.id := StoredCount.id sc;
     StoredCount.formName := StoredCount.formName sc;
     StoredCount.timestamp := StoredCount.timestamp sc;
     StoredCount.items := map migrateItem (StoredCount.items sc) |}.

Definition migrateLegacy (parsed : list StoredCount) : list StoredCount :=
  map migrateCount parsed.

(** The migrated records read at the type [SavedCount[]] that the state
    gives them: a missing text reads as the empty text and a missing number
    as [NaN]. *)
Definition asCountItem (it : StoredItem) : CountItem :=
  {| CountItem.productId := default EmptyString (StoredItem.productId it);
     CountItem.productName := default EmptyString (StoredItem.productName it);
     CountItem.packagingSize := default NaN (StoredItem.packagingSize it);
     CountItem.packageCount := default NaN (StoredItem.packageCount it);
     CountItem.singleCount := default NaN (StoredItem.singleCount it) |}.

Definition asSavedCount (sc : StoredCount) : SavedCount :=
  {| SavedCount.id := StoredCount.id sc;
     SavedCount.formName := StoredCount.formName sc;
     SavedCount.timestamp := StoredCount.timestamp sc;
     SavedCount.items := map asCountItem (StoredCount.items sc) |}.

(** ** The state of the component *)

Inductive Field : Type := FieldSingle | FieldPackage.

(** The type [1 | -1]. *)
Inductive Sign : Type := Plus | Minus.

Definition signValue (s : Sign) : number :=
  match s with Plus => ofZ 1 | Minus => ofZ (-1) end.

Module DialogTarget.
Record t : Type := mk {
  productId : string;
  field : Field;
  sign : Sign
}.
End DialogTarget.
Abbreviation DialogTarget := DialogTarget.t.

Record AppState : Type := mkApp {
  view : View;
  templates : list FormTemplate;
  savedCounts : list SavedCount;
  currentForm : option FormTemplate;
  currentCounts : list CountItem;
  importError : string;
  newTemplateName : string;
  newTemplateProducts : list Product;
  selectedTemplateId : string;
  successMessage : string;
  resumeSessionDialogOpen : bool;
  sessionRecovered : bool;
  longPressStart : option number;
  numberDialogOpen : bool;
  numberDialogProduct : option DialogTarget;
  numberDialogValue : string
}.

(** The values given to [useState] and [useRef]. *)
Definition initialState : AppState :=
  {| view := ViewStart; templates := []; savedCounts := [];
     currentForm := None; currentCounts := [];
     importError := EmptyString; newTemplateName := EmptyString;
     newTemplateProducts := []; selectedTemplateId := EmptyString;
     successMessage := EmptyString;
     resumeSessionDialogOpen := false; sessionRecovered := false;
     longPressStart := None;
     numberDialogOpen := false; numberDialogProduct := None;
     numberDialogValue := EmptyString |}.

(** A handler at work: the state its setters have produced so far, the
    storage, the messages it has passed to [alert], and which of the three
    persisted pieces of state it has set (their effects run when the handler
    is done). *)
Record Draft : Type := mkDraft {
  state : AppState;
  storage : gmap string string;
  alerts : list string;
  templatesSet : bool;
  savedCountsSet : bool;
  sessionSet : bool
}.

Definition begin (s : AppState) (ls : gmap string string) : Draft :=
  {| state := s; storage := ls; alerts := [];
     templatesSet := false; savedCountsSet := false; sessionSet := false |}.

Definition onApp (f : AppState -> AppState) (d : Draft) : Draft :=
  {| state := f (state d); storage := storage d; alerts := alerts d;
     templatesSet := templatesSet d; savedCountsSet := savedCountsSet d;
     sessionSet := sessionSet d |}.

Definition onStorage (f : gmap string string -> gmap string string) (d : Draft) : Draft :=
  {| state := state d; storage := f (storage d); alerts := alerts d;
     templatesSet := templatesSet d; savedCountsSet := savedCountsSet d;
     sessionSet := sessionSet d |}.

Definition alert (message : string) (d : Draft) : Draft :=
  {| state := state d; storage := storage d; alerts := alerts d ++ [message];
     templatesSet := templatesSet d; savedCountsSet := savedCountsSet d;
     sessionSet := sessionSet d |}.

Definition setView (v : View) : Draft -> Draft :=
  onApp (fun '(mkApp _ b c d e f g h i j k l m n o p) => mkApp v b c d e f g h i j k l m n o p).

Definition setTemplates (update : list FormTemplate -> list FormTemplate) (dr : Draft) : Draft :=
  let 'mkDraft (mkApp a b c d e f g h i j k l m n o p) ls al _ y z := dr in
  mkDraft (mkApp a (update b) c d e f g h i j k l m n o p) ls al true y z.

Definition setSavedCounts (update : list SavedCount -> list SavedCount) (dr : Draft) : Draft :=
  let 'mkDraft (mkApp a b c d e f g h i j k l m n o p) ls al x _ z := dr in
  mkDraft (mkApp a b (update c) d e f g h i j k l m n o p) ls al x true z.

Definition setCurrentForm (form : option FormTemplate) (dr : Draft) : Draft :=
  let 'mkDraft (mkApp a b c _ e f g h i j k l m n o p) ls al x y _ := dr in
  mkDraft (mkApp a b c form e f g h i j k l m n o p) ls al x y true.

Definition setCurrentCounts (update : list CountItem -> list CountItem) (dr : Draft) : Draft :=
  let 'mkDraft (mkApp a b c d e f g h i j k l m n o p) ls al x y _ := dr in
  mkDraft (mkApp a b c d (update e) f g h i j k l m n o p) ls al x y true.

Definition setImportError (v : string) : Draft -> Draft :=
  onApp (fun '(mkApp a b c d e _ g h i j k l m n o p) => mkApp a b c d e v g h i j k l m n o p).

Definition setNewTemplateName (v : string) : Draft -> Draft :=
  onApp (fun '(mkApp a b c d e f _ h i j k l m n o p) => mkApp a b c d e f v h i j k l m n o p).

Definition setNewTemplateProducts (update : list Product -> list Product) : Draft -> Draft :=
  onApp (fun '(mkApp a b c d e f g h i j k l m n o p) => mkApp a b c d e f g (update h) i j k l m n o p).

Definition setSelectedTemplateId (v : string) : Draft -> Draft :=
  onApp (fun '(mkApp a b c d e f g h _ j k l m n o p) => mkApp a b c d e f g h v j k l m n o p).

Definition setSuccessMessage (v : string) : Draft -> Draft :=
  onApp (fun '(mkApp a b c d e f g h i _ k l m n o p) => mkApp a b c d e f g h i v k l m n o p).

Definition setResumeSessionDialogOpen (v : bool) : Draft -> Draft :=
  onApp (fun '(mkApp a b c d e f g h i j _ l m n o p) => mkApp a b c d e f g h i j v l m n o p).

Definition setSessionRecovered (v : bool) : Draft -> Draft :=
  onApp (fun '(mkApp a b c d e f g h i j k _ m n o p) => mkApp a b c d e f g h i j k v m n o p).

Definition setLongPressStart (v : option number) : Draft -> Draft :=
  onApp (fun '(mkApp a b c d e f g h i j k l _ n o p) => mkApp a b c d e f g h i j k l v n o p).

Definition setNumberDialogOpen (v : bool) : Draft -> Draft :=
  onApp (fun '(mkApp a b c d e f g h i j k l m _ o p) => mkApp a b c d e f g h i j k l m v o p).

Definition setNumberDialogProduct (v : option DialogTarget) : Draft -> Draft :=
  onApp (fun '(mkApp a b c d e f g h i j k l m n _ p) => mkApp a b c d e f g h i j k l m n v p).

Definition setNumberDialogValue (v : string) : Draft -> Draft :=
  onApp (fun '(mkApp a b c d e f g h i j k l m n o _) => mkApp a b c d e f g h i j k l m n o v).

(** ** What the browser provides

    [JSON.stringify] and [JSON.parse] at the three types stored (a parse
    that throws is [None]), [Date.prototype.toISOString] on the clock value,
    and the decimal rendering of a number that is not an integer below
    [10^21]. *)

Record Platform : Type := mkPlatform {
  stringifyTemplates : list FormTemplate -> string;
  parseTemplates : string -> option (list FormTemplate);
  stringifySavedCounts : list SavedCount -> string;
  parseSavedCounts : string -> option (list StoredCount);
  stringifySession : FormTemplate -> list CountItem -> string;
  parseSession : string -> option (FormTemplate * list CountItem);
  toISOString : Z -> string;
  shortestDecimal : Q -> string
}.

Definition templatesKey : string := "productCounter_templates".
Definition countsKey : string := "productCounter_counts".
Definition sessionKey : string := "productCounter_session".

(** [localStorage.getItem(key)] used as a condition: a missing entry and an
    empty text are both falsy. *)
Definition getItem (key : string) (ls : gmap string string) : option string :=
  match ls !! key with
  | Some text => if nonEmpty text then Some text else None
  | None => None
  end.

(** [a <= b] and [a >= b]. *)
Definition leb (a b : number) : bool := ltb a b || strictEq a b.
Definition geb (a b : number) : bool := ltb b a || strictEq a b.

Section App.
Variable platform : Platform.

(** Number to text, as in a template literal: an integer up to [2 ^ 53] is
    printed with all its digits, and every other finite number with the
    shortest decimal text that reads back as it. *)
Definition numberToString (n : number) : string :=
  match n with
  | NaN => "NaN"
  | Inf false => "Infinity"
  | Inf true => "-Infinity"
  | Fin q =>
      let r := Qred q in
      if (Qden r =? 1)%positive && (Z.abs (Qnum r) <=? 2 ^ 53)%Z
      then Z_to_string (Qnum r)
      else shortestDecimal platform r
  end.

(** *** The persistence effects (lines 111-127) *)

Definition templatesEffect (s : AppState) (ls : gmap string string) : gmap string string :=
  <[templatesKey := stringifyTemplates platform (templates s)]> ls.

Definition savedCountsEffect (s : AppState) (ls : gmap string string) : gmap string string :=
  <[countsKey := stringifySavedCounts platform (savedCounts s)]> ls.

Definition sessionEffect (s : AppState) (ls : gmap string string) : gmap string string :=
  match currentForm s with
  | Some form =>
      if (0 <? List.length (currentCounts s))%nat
      then <[sessionKey := stringifySession platform form (currentCounts s)]> ls
      else delete sessionKey ls
  | None => delete sessionKey ls
  end.

(** The effects whose dependencies the handler has set, in source order. *)
Definition commit (d : Draft) : AppState * gmap string string :=
  let ls1 := if templatesSet d then templatesEffect (state d) (storage d) else storage d in
  let ls2 := if savedCountsSet d then savedCountsEffect (state d) ls1 else ls1 in
  let ls3 := if sessionSet d then sessionEffect (state d) ls2 else ls2 in
  (state d, ls3).

(** *** The load effect (lines 57-108) and the first two commits *)

Definition loadEffect (d : Draft) : completion Draft :=
  let savedTemplates := getItem templatesKey (storage d) in
  let savedCountsData := getItem countsKey (storage d) in
  let savedSession := getItem sessionKey (storage d) in
  let afterTemplates :=
    match savedTemplates with
    | Some text =>
        match parseTemplates platform text with
        | Some ts => Normal (setTemplates (fun _ => ts) d)
        | None => Throw "SyntaxError"
        end
    | None => Normal d
    end in
  match afterTemplates with
  | Throw message => Throw message
  | Normal d1 =>
      let d2 :=
        match savedCountsData with
        | Some text =>
            match parseSavedCounts platform text with
            | Some parsed =>
                let migrated := migrateLegacy parsed in
                setSavedCounts (fun _ => map asSavedCount migrated) d1
            | None => setSavedCounts (fun _ => []) d1
            end
        | None => d1
        end in
      let d3 :=
        match savedSession with
        | Some text =>
            if negb (sessionRecovered (state d)) then
              match parseSession platform text with
              | Some (form, counts) =>
                  setSessionRecovered true
                    (setResumeSessionDialogOpen true
                      (setCurrentCounts (fun _ => counts)
                        (setCurrentForm (Some form) d2)))
              | None => onStorage (delete sessionKey) d2
              end
            else d2
        | None => d2
        end in
      Normal d3
  end.

(** Mounting the component on a storage: the load effect, then the three
    persistence effects on the initial state (every effect runs after the
    first render), then the commit of the state the load effect has set. *)
Definition mount (ls : gmap string string) : completion (AppState * gmap string string) :=
  match loadEffect (begin initialState ls) with
  | Throw message => Throw message
  | Normal d =>
      let first :=
        sessionEffect initialState
          (savedCountsEffect initialState
            (templatesEffect initialState (storage d))) in
      Normal (commit (onStorage (fun _ => first) d))
  end.

(** *** Templates (lines 182-267, 443-447) *)

(** [name.replace(/\.[^/.]+$/, EMPTY)]: the extension, if any. *)
Fixpoint isExtension (s : string) : bool :=
  match s with
  | EmptyString => false
  | String c EmptyString => negb (Ascii.eqb c "/" || Ascii.eqb c ".")
  | String c r => negb (Ascii.eqb c "/" || Ascii.eqb c ".") && isExtension r
  end.

Fixpoint removeExtension (name : string) : string :=
  match name with
  | EmptyString => EmptyString
  | String c r =>
      if Ascii.eqb c "." && isExtension r then EmptyString
      else String c (removeExtension r)
  end.

Definition importedMessage (count : nat) (fileName : string) : string :=
  "Successfully imported " ++ Z_to_string (Z.of_nat count) ++ " products from "
    ++ String DQUOTE (fileName ++ String DQUOTE EmptyString).

(** [file] is the chosen file, as its name and its text. *)
Definition handleFileImport (file : option (string * string)) (now : Z) (d : Draft) : Draft :=
  match file with
  | None => d
  | Some (fileName, text) =>
      match parseCSV text with
      | Normal products =>
          match products with
          | [] => setImportError "No valid products found in the CSV file" d
          | _ :: _ =>
              let template :=
                {| FormTemplate.id := Z_to_string now;
                   FormTemplate.name := removeExtension fileName;
                   FormTemplate.products := products;
                   FormTemplate.createdAt := toISOString platform now |} in
              setSuccessMessage (importedMessage (List.length products) fileName)
                (setImportError EmptyString
                  (setTemplates (fun prev => prev ++ [template]) d))
          end
      | Throw message => setImportError message d
      end
  end.

(** The four answers to [prompt], [None] for a cancelled one. *)
Definition addProductToTemplate (id name packagingSizeStr sortIndexStr : option string)
    (d : Draft) : Draft :=
  match id with
  | None | Some EmptyString => d
  | Some id =>
      match name with
      | None | Some EmptyString => d
      | Some name =>
          match packagingSizeStr with
          | None | Some EmptyString => d
          | Some packagingSizeStr =>
              let packagingSize := parseFloat packagingSizeStr in
              if isNaN packagingSize || leb packagingSize (ofZ 0)
              then alert "Invalid packaging size" d
              else
                let sortIndex :=
                  match sortIndexStr with
                  | None | Some EmptyString => None
                  | Some text => Some (parseInt text None)
                  end in
                setNewTemplateProducts
                  (fun prev => prev ++ [Product.mk id name packagingSize sortIndex]) d
          end
      end
  end.

Definition savedMessage (name : string) : string :=
  "Template " ++ String DQUOTE (name ++ String DQUOTE " saved successfully").

Definition saveTemplate (now : Z) (d : Draft) : Draft :=
  let s := state d in
  if negb (nonEmpty (trim (newTemplateName s)))
  then alert "Please enter a template name" d
  else if (List.length (newTemplateProducts s) =? 0)%nat
  then alert "Please add at least one product" d
  else
    let template :=
      {| FormTemplate.id := Z_to_string now;
         FormTemplate.name := trim (newTemplateName s);
         FormTemplate.products := sort bySortIndex (newTemplateProducts s);
         FormTemplate.createdAt := toISOString platform now |} in
    setView ViewStart
      (setSuccessMessage (savedMessage (FormTemplate.name template))
        (setNewTemplateProducts (fun _ => [])
          (setNewTemplateName EmptyString
            (setTemplates (fun prev => prev ++ [template]) d)))).

Definition deleteTemplate (id : string) (confirmed : bool) (d : Draft) : Draft :=
  if confirmed
  then setTemplates (List.filter (fun t => negb (String.eqb (FormTemplate.id t) id))) d
  else d.

Definition deleteSavedCount (id : string) (confirmed : bool) (d : Draft) : Draft :=
  if confirmed
  then setSavedCounts (List.filter (fun c => negb (String.eqb (SavedCount.id c) id))) d
  else d.

(** *** Counting (lines 270-377) *)

Definition zeroCount (p : Product) : CountItem :=
  {| CountItem.productId := Product.id p;
     CountItem.productName := Product.name p;
     CountItem.packagingSize := Product.packagingSize p;
     CountItem.packageCount := ofZ 0;
     CountItem.singleCount := ofZ 0 |}.

Definition startCounting (d : Draft) : Draft :=
  let s := state d in
  match List.find (fun t => String.eqb (FormTemplate.id t) (selectedTemplateId s)) (templates s) with
  | None => d
  | Some template =>
      setView ViewCount
        (setCurrentCounts (fun _ => map zeroCount (FormTemplate.products template))
          (setCurrentForm (Some template) d))
  end.

Definition withSingleCount (item : CountItem) (v : number) : CountItem :=
  {| CountItem.productId := CountItem.productId item;
     CountItem.productName := CountItem.productName item;
     CountItem.packagingSize := CountItem.packagingSize item;
     CountItem.packageCount := CountItem.packageCount item;
     CountItem.singleCount := v |}.

Definition withPackageCount (item : CountItem) (v : number) : CountItem :=
  {| CountItem.productId := CountItem.productId item;
     CountItem.productName := CountItem.productName item;
     CountItem.packagingSize := CountItem.packagingSize item;
     CountItem.packageCount := v;
     CountItem.singleCount := CountItem.singleCount item |}.

Definition updateSingleCount (productId : string) (delta : number) : Draft -> Draft :=
  setCurrentCounts (fun prev =>
    map (fun item =>
      if String.eqb (CountItem.productId item) productId then
        let newSingle := max (ofZ 0) (add (CountItem.singleCount item) delta) in
        withSingleCount item newSingle
      else item) prev).

Definition updatePackageCount (productId : string) (delta : number) : Draft -> Draft :=
  setCurrentCounts (fun prev =>
    map (fun item =>
      if String.eqb (CountItem.productId item) productId then
        let newPackages := max (ofZ 0) (add (CountItem.packageCount item) delta) in
        withPackageCount item newPackages
      else item) prev).

Definition openNumberDialogFor (productId : string) (field : Field) (sign : Sign) (d : Draft) : Draft :=
  setNumberDialogOpen true
    (setNumberDialogValue EmptyString
      (setNumberDialogProduct (Some (DialogTarget.mk productId field sign)) d)).

(** The [onChange] of the dialog's input: everything but digits and the
    minus sign is removed from what was typed. *)
Fixpoint keepDigitsAndMinus (s : string) : string :=
  match s with
  | EmptyString => EmptyString
  | String c r =>
      if (match digitValue c with Some d => (d <? 10)%Z | None => false end)
         || Ascii.eqb c "-"
      then String c (keepDigitsAndMinus r)
      else keepDigitsAndMinus r
  end.

Definition changeNumberDialogValue (typed : string) : Draft -> Draft :=
  setNumberDialogValue (keepDigitsAndMinus typed).

Definition handleNumberDialogSubmit (d : Draft) : Draft :=
  let s := state d in
  match numberDialogProduct s with
  | None => d
  | Some target =>
      let n := parseInt (if nonEmpty (numberDialogValue s) then numberDialogValue s else "0")
                        (Some 10%Z) in
      if isNaN n || strictEq n (ofZ 0) then setNumberDialogOpen false d
      else
        let delta := mul (signValue (DialogTarget.sign target)) n in
        setNumberDialogOpen false
          (match DialogTarget.field target with
           | FieldSingle => updateSingleCount (DialogTarget.productId target) delta d
           | FieldPackage => updatePackageCount (DialogTarget.productId target) delta d
           end)
  end.

Definition handleCountButtonDown (now : Z) : Draft -> Draft :=
  setLongPressStart (Some (ofZ now)).

Definition handleCountButtonUp (productId : string) (field : Field) (sign : Sign)
    (now : Z) (d : Draft) : Draft :=
  match longPressStart (state d) with
  | None => d
  | Some start =>
      if negb (truthy start) then d
      else
        let duration := sub (ofZ now) start in
        let d1 := setLongPressStart None d in
        if geb duration (ofZ 600) then openNumberDialogFor productId field sign d1
        else
          match field with
          | FieldSingle => updateSingleCount productId (signValue sign) d1
          | FieldPackage => updatePackageCount productId (signValue sign) d1
          end
  end.

Definition getTotal (item : CountItem) : number :=
  add (mul (CountItem.packageCount item) (CountItem.packagingSize item))
      (CountItem.singleCount item).

Definition submitCount (now : Z) (d : Draft) : Draft :=
  let s := state d in
  match currentForm s with
  | None => d
  | Some form =>
      let savedCount :=
        {| SavedCount.id := Z_to_string now;
           SavedCount.formName := FormTemplate.name form;
           SavedCount.timestamp := toISOString platform now;
           SavedCount.items := currentCounts s |} in
      setCurrentCounts (fun _ => [])
        (setCurrentForm None
          (setView ViewStart
            (setSuccessMessage "Count submitted successfully!"
              (setSavedCounts (fun prev => savedCount :: prev) d))))
  end.

(** The Cancel button of the count screen (lines 807-810). *)
Definition cancelCount (d : Draft) : Draft :=
  setCurrentCounts (fun _ => []) (setCurrentForm None d).

Definition handleResumeSession (resume : bool) (d : Draft) : Draft :=
  let d1 := setResumeSessionDialogOpen false d in
  if resume then setView ViewCount d1
  else
    onStorage (delete sessionKey)
      (setView ViewStart
        (setCurrentCounts (fun _ => [])
          (setCurrentForm None d1))).

(** *** Export (lines 380-403): the text handed to the download *)

Definition exportHeader : string :=
  "Product ID,Product Name,Packaging Size,Package Count,Single Count,Total"
    ++ String LF EmptyString.

Definition exportRow (item : CountItem) : string :=
  let total := getTotal item in
  CountItem.productId item ++ "," ++ CountItem.productName item ++ ","
    ++ numberToString (CountItem.packagingSize item) ++ ","
    ++ numberToString (CountItem.packageCount item) ++ ","
    ++ numberToString (CountItem.singleCount item) ++ ","
    ++ numberToString total ++ String LF EmptyString.

Definition exportCount (count : SavedCount) : string :=
  fold_left (fun (csv : string) item => (csv ++ exportRow item)%string)
    (SavedCount.items count) exportHeader.

(** *** Events and steps *)

(** [prev.filter((_, i) => i !== idx)]. *)
Fixpoint removeAt {A : Type} (idx : nat) (l : list A) : list A :=
  match l, idx with
  | [], _ => []
  | _ :: rest, O => rest
  | x :: rest, S k => x :: removeAt k rest
  end.

(** What the user or a timer can make happen; [now] is the clock read by
    the handler. *)
Inductive Event : Type :=
| ShowView (v : View)
| OpenCountScreen
| FileImport (file : option (string * string)) (now : Z)
| AddProduct (id name packagingSizeStr sortIndexStr : option string)
| TypeTemplateName (v : string)
| RemoveDraftProduct (idx : nat)
| CancelTemplate
| SaveTemplate (now : Z)
| DeleteTemplate (id : string) (confirmed : bool)
| DeleteSavedCount (id : string) (confirmed : bool)
| SelectTemplate (id : string)
| StartCounting
| ButtonDown (now : Z)
| ButtonUp (productId : string) (field : Field) (sign : Sign) (now : Z)
| TypeNumber (typed : string)
| CloseNumberDialog
| SubmitNumber
| CancelCount
| SubmitCount (now : Z)
| ResumeSession (resume : bool)
| ClearSuccessMessage.

Definition handle (e : Event) (d : Draft) : Draft :=
  match e with
  | ShowView v => setView v d
  | OpenCountScreen =>
      if (List.length (templates (state d)) =? 0)%nat
      then alert "No templates available. Please import a CSV or create a template first." d
      else setView ViewCount d
  | FileImport file now => handleFileImport file now d
  | AddProduct id name size sortIndex => addProductToTemplate id name size sortIndex d
  | TypeTemplateName v => setNewTemplateName v d
  | RemoveDraftProduct idx => setNewTemplateProducts (removeAt idx) d
  | CancelTemplate =>
      setView ViewStart (setNewTemplateProducts (fun _ => []) (setNewTemplateName EmptyString d))
  | SaveTemplate now => saveTemplate now d
  | DeleteTemplate id confirmed => deleteTemplate id confirmed d
  | DeleteSavedCount id confirmed => deleteSavedCount id confirmed d
  | SelectTemplate id => setSelectedTemplateId id d
  | StartCounting => startCounting d
  | ButtonDown now => handleCountButtonDown now d
  | ButtonUp productId field sign now => handleCountButtonUp productId field sign now d
  | TypeNumber typed => changeNumberDialogValue typed d
  | CloseNumberDialog => setNumberDialogOpen false d
  | SubmitNumber => handleNumberDialogSubmit d
  | CancelCount => cancelCount d
  | SubmitCount now => submitCount now d
  | ResumeSession resume => handleResumeSession resume d
  | ClearSuccessMessage => setSuccessMessage EmptyString d
  end.

(** One event: the handler, then the effects of what it has set. *)
Definition step (e : Event) (w : AppState * gmap string string) : AppState * gmap string string :=
  commit (handle e (begin (fst w) (snd w))).

Definition run (events : list Event) (w : AppState * gmap string string)
    : AppState * gmap string string :=
  fold_left (fun w e => step e w) events w.

(** The states the component goes through from a mount. *)
Inductive reachable : AppState * gmap string string -> Prop :=
| reachable_mount ls w : mount ls = Normal w -> reachable w
| reachable_step e w : reachable w -> reachable (step e w).

End App.

(** ** Data for the examples *)

(** A platform whose texts are fixed words and in which nothing stored
    parses; 2.5 is the only number with a fraction in the examples. *)
Definition examplePlatform : Platform :=
  {| stringifyTemplates := fun _ => "templates";
     parseTemplates := fun _ => None;
     stringifySavedCounts := fun _ => "counts";
     parseSavedCounts := fun _ => None;
     stringifySession := fun _ _ => "session";
     parseSession := fun _ => None;
     toISOString := fun _ => "2024-01-01T00:00:00.000Z";
     shortestDecimal := fun _ => "2.5" |}.

(** A legacy record: packaging size 12, total 29. *)
Definition legacyDozen : StoredItem :=
  {| StoredItem.productId := Some "SKU001";
     StoredItem.productName := Some "Widget A";
     StoredItem.packagingSize := Some (ofZ 12);
     StoredItem.packageCount := None;
     StoredItem.singleCount := None;
     StoredItem.count := Some (ofZ 29) |}.

(** A legacy record sold by the half: packaging size 0.5, total 3. *)
Definition legacyHalf : StoredItem :=
  {| StoredItem.productId := Some "SKU002";
     StoredItem.productName := Some "Widget B";
     StoredItem.packagingSize := Some (Fin (1 # 2));
     StoredItem.packageCount := None;
     StoredItem.singleCount := None;
     StoredItem.count := Some (ofZ 3) |}.

(** A legacy record with a negative packaging size, as an import accepts. *)
Definition legacyNegative : StoredItem :=
  {| StoredItem.productId := Some "SKU003";
     StoredItem.productName := Some "Widget C";
     StoredItem.packagingSize := Some (ofZ (-3));
     StoredItem.packageCount := None;
     StoredItem.singleCount := None;
     StoredItem.count := Some (ofZ 7) |}.

(** A legacy record sold by the tenth: packaging size 0.1, total 1. *)
Definition legacyTenth : StoredItem :=
  {| StoredItem.productId := Some "SKU004";
     StoredItem.productName := Some "Widget D";
     StoredItem.packagingSize := Some (parseFloat "0.1");
     StoredItem.packageCount := None;
     StoredItem.singleCount := None;
     StoredItem.count := Some (ofZ 1) |}.



(** The state and the storage after a mount on an empty storage. *)
Definition mountedEmpty : AppState * gmap string string :=
  (initialState,
   delete sessionKey (<[countsKey := "counts"]> (<[templatesKey := "templates"]> ∅))).

(** A file of one product with packaging size 12. *)
Definition oneProductFile : string := "A,Widget,12".

(** Importing the file, starting a count, then a long press on the plus
    button of the singles and the entry of 7. *)
Definition enterSeven : list Event :=
  [ FileImport (Some ("list.csv", oneProductFile)) 1000;
    SelectTemplate "1000";
    StartCounting;
    ButtonDown 2000;
    ButtonUp "A" FieldSingle Plus 2700;
    TypeNumber "7";
    SubmitNumber ].

(** A second long press on the same plus button, up to the Apply. *)
Definition typeMinusFive : list Event :=
  [ ButtonDown 3000;
    ButtonUp "A" FieldSingle Plus 3700;
    TypeNumber "-5" ].

(** A file of three rows, the second with a packaging size that is no
    number. *)
Definition badSecondRow : string :=
  "A,Widget,12,2" ++ String LF ("B,Gadget,dozen,1" ++ String LF "C,Gizmo,6").

(** A file of four rows: one is too short to be a product, one has a
    packaging size with a fraction, one a quoted name with a comma. *)
Definition goodFile : string :=
  "A,Widget,12,2" ++ String LF
    ("B,Gadget,2.5,1" ++ String CR (String LF
      ("only,two" ++ String LF
        ("C," ++ String DQUOTE ("Gizmo, large" ++ String DQUOTE ",6"))))).

(** A file of one row, with a quoted name that holds a comma. *)
Definition quotedNameFile : string :=
  "C," ++ String DQUOTE ("Gizmo, large" ++ String DQUOTE ",6").


(** A text of [n] nines. *)
Fixpoint nines (n : nat) : string :=
  match n with
  | O => EmptyString
  | S k => String "9" (nines k)
  end.

(** Importing the file, starting a count, then a long press on the plus
    button of the singles and the entry of 400 nines. *)
Definition enterHugeOnPlus : list Event :=
  [ FileImport (Some ("list.csv", oneProductFile)) 1000;
    SelectTemplate "1000";
    StartCounting;
    ButtonDown 2000;
    ButtonUp "A" FieldSingle Plus 2700;
    TypeNumber (nines 400);
    SubmitNumber ].

(** A long press on the minus button of the singles and the same entry. *)
Definition enterHugeOnMinus : list Event :=
  [ ButtonDown 3000;
    ButtonUp "A" FieldSingle Minus 3700;
    TypeNumber (nines 400);
    SubmitNumber ].

(** ** Predicates of the properties *)

(** A number without fraction: [NaN], an infinity or an integer. *)
Definition integral (n : number) : Prop :=
  n = NaN \/ (exists s, n = Inf s) \/ exists z, n = ofZ z.

Ltac open_draft d :=
  let s := fresh "s" in
  destruct d as [s ? ? ? ? ?]; destruct s.

(** What the session key holds for a state. *)
Definition expectedSession (platform : Platform) (s : AppState) : option string :=
  match currentForm s with
  | Some form =>
      match currentCounts s with
      | _ :: _ => Some (stringifySession platform form (currentCounts s))
      | [] => None
      end
  | None => None
  end.

Definition sessionMirrored (platform : Platform) (w : AppState * gmap string string) : Prop :=
  snd w !! sessionKey = expectedSession platform (fst w).

(** A handler either sets the session, or leaves the session and its stored
    entry as they are. *)
Definition sessionUntouched (d0 d : Draft) : Prop :=
  sessionSet d = false
  /\ currentForm (state d) = currentForm (state d0)
  /\ currentCounts (state d) = currentCounts (state d0)
  /\ storage d !! sessionKey = storage d0 !! sessionKey.

(** The number read from the dialog: [parseInt(numberDialogValue || ZERO, 10)]. *)
Definition enteredNumber (s : AppState) : number :=
  parseInt (if nonEmpty (numberDialogValue s) then numberDialogValue s else "0") (Some 10%Z).

Definition signed (sign : Sign) (z : Z) : Z :=
  match sign with Plus => z | Minus => (- z)%Z end.

(** A row with at least three fields whose third field is not a number. *)
Definition offending (line : string) : bool :=
  (3 <=? List.length (cleanValuesOf line))%nat
  && isNaN (parseFloat (field 2 (cleanValuesOf line))).

(** The product a row contributes, if any. *)
Definition rowProducts (line : string) : list Product :=
  if (3 <=? List.length (cleanValuesOf line))%nat
  then [productOf (cleanValuesOf line) (parseFloat (field 2 (cleanValuesOf line)))]
  else [].







(** The rows one after the other. *)
Definition joinRows (rows : list string) : string :=
  fold_right String.append EmptyString rows.

(** Import a file, select the template it gives, start, submit. *)
Definition importCountSubmit (fileName text : string) (now later : Z) : list Event :=
  [ FileImport (Some (fileName, text)) now;
    SelectTemplate (Z_to_string now);
    StartCounting;
    SubmitCount later ].

(** ** Further predicates *)

(** A count that is a natural number. *)
Definition naturalCount (n : number) : Prop :=
  exists z, (0 <= z)%Z /\ n = ofZ z.

Definition itemNatural (item : CountItem) : Prop :=
  naturalCount (CountItem.packageCount item) /\ naturalCount (CountItem.singleCount item).

(** A count that is a natural number below [2 ^ 53]. *)
Definition safeCount (n : number) : Prop :=
  exists z, (0 <= z < 2 ^ 53)%Z /\ n = ofZ z.

Definition itemSafe (item : CountItem) : Prop :=
  safeCount (CountItem.packageCount item) /\ safeCount (CountItem.singleCount item).

(** A count at zero or above: [Infinity] or a natural number. *)
Definition atLeastZero (n : number) : Prop :=
  n = Infinity \/ naturalCount n.

(** A count that is not negative and has no fraction. *)
Definition wholeCount (n : number) : Prop :=
  n = NaN \/ atLeastZero n.

Definition itemAtLeastZero (item : CountItem) : Prop :=
  atLeastZero (CountItem.packageCount item) /\ atLeastZero (CountItem.singleCount item).

Definition itemWhole (item : CountItem) : Prop :=
  wholeCount (CountItem.packageCount item) /\ wholeCount (CountItem.singleCount item).

(** What is typed in the number dialog has at most 15 characters. *)
Definition shortEntry (e : Event) : Prop :=
  match e with
  | TypeNumber typed => (String.length typed <= 15)%nat
  | _ => True
  end.

(** The session found in the storage at mount, if it parses, has counts that
    are natural numbers. *)
Definition storedSessionNatural (platform : Platform) (ls : gmap string string) : Prop :=
  forall text form counts,
    getItem sessionKey ls = Some text ->
    parseSession platform text = Some (form, counts) ->
    Forall itemNatural counts.

(** What a count record takes from its product. *)
Definition recordIdentity (item : CountItem) : string * string * number :=
  (CountItem.productId item, CountItem.productName item, CountItem.packagingSize item).

Definition productIdentity (p : Product) : string * string * number :=
  (Product.id p, Product.name p, Product.packagingSize p).

(** The records of a session follow the products of its template, one record
    per product and in the same order; without template there is no record. *)
Definition recordsFollow (form : option FormTemplate) (counts : list CountItem) : Prop :=
  match form with
  | Some template =>
      map recordIdentity counts = map productIdentity (FormTemplate.products template)
  | None => counts = []
  end.

Definition storedSessionFollows (platform : Platform) (ls : gmap string string) : Prop :=
  forall text form counts,
    getItem sessionKey ls = Some text ->
    parseSession platform text = Some (form, counts) ->
    recordsFollow (Some form) counts.

(** A line without its double quotes. *)
Fixpoint dropQuotes (line : string) : string :=
  match line with
  | EmptyString => EmptyString
  | String c rest =>
      if Ascii.eqb c DQUOTE then dropQuotes rest else String c (dropQuotes rest)
  end.

Fixpoint hasQuote (s : string) : bool :=
  match s with
  | EmptyString => false
  | String c rest => Ascii.eqb c DQUOTE || hasQuote rest
  end.

(** A text made of digits and minus signs only. *)
Fixpoint digitsAndMinus (s : string) : bool :=
  match s with
  | EmptyString => true
  | String c rest =>
      ((match digitValue c with Some d => (d <? 10)%Z | None => false end)
       || Ascii.eqb c "-") && digitsAndMinus rest
  end.

(** A packaging size above zero. *)
Definition positiveSize (p : Product) : Prop :=
  ltb (ofZ 0) (Product.packagingSize p) = true.

(** ** The name of an exported file (lines 381-388 and 407-414) *)

(** [iso.replace(/[:.]/g, MINUS)]. *)
Fixpoint replaceColonsAndDots (s : string) : string :=
  match s with
  | EmptyString => EmptyString
  | String c r =>
      String (if Ascii.eqb c ":" || Ascii.eqb c "." then "-"%char else c)
        (replaceColonsAndDots r)
  end.

(** [s.replace(T, UNDERSCORE)], with a text as pattern: the first T only. *)
Fixpoint replaceFirstT (s : string) : string :=
  match s with
  | EmptyString => EmptyString
  | String c r => if Ascii.eqb c "T" then String "_" r else String c (replaceFirstT r)
  end.

(** [dateStr], from the text [iso] that [date.toISOString()] gives. *)
Definition dateStr (iso : string) : string :=
  substring 0 19 (replaceFirstT (replaceColonsAndDots iso)).

(** [filename]. *)
Definition exportFileName (formName iso : string) : string :=
  formName ++ "_" ++ dateStr iso ++ ".csv".

(** A text without colon, dot and capital T. *)
Fixpoint plainText (s : string) : bool :=
  match s with
  | EmptyString => true
  | String c r =>
      negb (Ascii.eqb c ":" || Ascii.eqb c "." || Ascii.eqb c "T") && plainText r
  end.

Fixpoint hasColonOrDot (s : string) : bool :=
  match s with
  | EmptyString => false
  | String c r => Ascii.eqb c ":" || Ascii.eqb c "." || hasColonOrDot r
  end.

(** A text without dot. *)
Fixpoint hasDot (s : string) : bool :=
  match s with
  | EmptyString => false
  | String c r => Ascii.eqb c "." || hasDot r
  end.

(** The templates found in the storage at mount, if they parse, have at
    least one product each. *)
Definition storedTemplatesFilled (platform : Platform) (ls : gmap string string) : Prop :=
  forall text ts,
    getItem templatesKey ls = Some text ->
    parseTemplates platform text = Some ts ->
    Forall (fun t => FormTemplate.products t <> []) ts.

(** ** A stored session for the examples *)

(** A template of one product, and a session on it with 2 packages and 3
    singles. *)
Definition widgetTemplate : FormTemplate :=
  {| FormTemplate.id := "1000";
     FormTemplate.name := "list";
     FormTemplate.products := [Product.mk "A" "Widget" (ofZ 12) None];
     FormTemplate.createdAt := "2024-01-01T00:00:00.000Z" |}.

Definition widgetSession : list CountItem :=
  [CountItem.mk "A" "Widget" (ofZ 12) (ofZ 2) (ofZ 3)].

(** A platform in which the stored templates and the stored session parse
    to the template and the session above. *)
Definition restoringPlatform : Platform :=
  {| stringifyTemplates := fun _ => "templates";
     parseTemplates := fun _ => Some [widgetTemplate];
     stringifySavedCounts := fun _ => "counts";
     parseSavedCounts := fun _ => None;
     stringifySession := fun _ _ => "session";
     parseSession := fun _ => Some (widgetTemplate, widgetSession);
     toISOString := fun _ => "2024-01-01T00:00:00.000Z";
     shortestDecimal := fun _ => "2.5" |}.

(** A storage left by an interrupted session, and the state and the storage
    after a mount on it. *)
Definition storedSession : gmap string string :=
  <[sessionKey := "session"]> (<[templatesKey := "templates"]> ∅).

Definition mountedStored : AppState * gmap string string :=
  match mount restoringPlatform storedSession with
  | Normal w => w
  | Throw _ => mountedEmpty
  end.

(** Resume, then a short press on the minus button of the singles. *)
Definition resumeAndPress : list Event :=
  [ ResumeSession true; ButtonDown 2000; ButtonUp "A" FieldSingle Minus 2100 ].

(** * Properties *)

(** ** Numbers *)

Lemma isNegative_spec (q : Q) : isNegative q = true <-> (q < 0)%Q.
Proof.
  unfold isNegative. destruct (Qlt_le_dec q 0) as [H | H]; split; intros; try easy.
  exfalso. apply (Qlt_not_le _ _ H0 H).
Qed.

Lemma ltb_Fin (x y : Q) : ltb (Fin x) (Fin y) = true <-> (x < y)%Q.
Proof.
  simpl. destruct (Qlt_le_dec x y) as [H | H]; split; intros; try easy.
  exfalso. apply (Qlt_not_le _ _ H0 H).
Qed.

Lemma Qred_inject_Z (z : Z) : Qred (inject_Z z) = inject_Z z.
Proof.
  unfold inject_Z, Qred. simpl. destruct (Z.ggcd z 1) as [g [a b]] eqn:E.
  pose proof (Z.ggcd_correct_divisors z 1) as H. rewrite E in H.
  pose proof (Z.ggcd_gcd z 1) as G. rewrite E in G. simpl in G.
  rewrite Z.gcd_1_r in G. subst g. destruct H as [H1 H2].
  rewrite Z.mul_1_l in H1, H2. subst. reflexivity.
Qed.

(** A value equal to an integer is that integer. *)
Lemma fin_integer (q : Q) (z : Z) : (q == inject_Z z)%Q -> fin q = ofZ z.
Proof.
  intros H. unfold fin, ofZ. f_equal. rewrite <- (Qred_inject_Z z).
  apply Qred_complete. exact H.
Qed.

(** ** Rounding *)

Section Rounding.
Local Open Scope Z_scope.

Lemma nearestEven_bounds (n d : Z) :
  (0 < d)%Z ->
  (n / d <= nearestEven n d <= n / d + 1)%Z
  /\ (nearestEven n d = n / d + 1 -> d <= 2 * (n mod d))%Z
  /\ (n mod d = 0 -> nearestEven n d = n / d)%Z.
Proof.
  intros Hd. unfold nearestEven.
  pose proof (Z.mod_pos_bound n d Hd) as B.
  destruct (Z.compare_spec (2 * (n mod d)) d) as [E | L | G].
  - destruct (Z.even (n / d)); repeat split; lia.
  - repeat split; lia.
  - repeat split; lia.
Qed.

Lemma pow2_pos (e : Z) : (0 <= e -> 0 < 2 ^ e)%Z.
Proof. intros H. apply Z.pow_pos_nonneg; lia. Qed.


Lemma scaledNum_low (n e : Z) : (e <= 0)%Z -> scaledNum n e = (n * 2 ^ (- e))%Z.
Proof. intros H. unfold scaledNum. now rewrite Z.max_r by lia. Qed.

Lemma scaledNum_high (n e : Z) : (0 <= e)%Z -> scaledNum n e = n.
Proof. intros H. unfold scaledNum. rewrite Z.max_l by lia. simpl. lia. Qed.

Lemma scaledDen_low (d e : Z) : (e <= 0)%Z -> scaledDen d e = d.
Proof. intros H. unfold scaledDen. rewrite Z.max_l by lia. simpl. lia. Qed.

Lemma scaledDen_high (d e : Z) : (0 <= e)%Z -> scaledDen d e = (d * 2 ^ e)%Z.
Proof. intros H. unfold scaledDen. now rewrite Z.max_r by lia. Qed.

Lemma pow2_succ (e : Z) : (0 <= e)%Z -> (2 ^ (e + 1) = 2 * 2 ^ e)%Z.
Proof. intros H. rewrite Z.pow_add_r by lia. change (2 ^ 1)%Z with 2%Z. ring. Qed.

Lemma scaled_pos (n d e : Z) :
  (0 < n)%Z -> (0 < d)%Z -> (0 < scaledNum n e /\ 0 < scaledDen d e)%Z.
Proof.
  intros Hn Hd. unfold scaledNum, scaledDen. split; apply Z.mul_pos_pos; try assumption;
    apply pow2_pos; lia.
Qed.

(** Ratios against powers of two: with [2 ^ a <= n] and [d < 2 ^ (b + 1)] the
    ratio reaches [2 ^ (a - b - 1)]; with [n < 2 ^ (a + 1)] and [2 ^ b <= d]
    it stays below [2 ^ (a - b + 1)]. *)
Lemma scaled_lower (n d a b : Z) :
  (0 <= a)%Z -> (0 <= b)%Z -> (2 ^ a <= n)%Z -> (0 < d < 2 * 2 ^ b)%Z ->
  (scaledDen d (a - b - 1) <= scaledNum n (a - b - 1))%Z.
Proof.
  intros Ha Hb Hn Hd.
  assert (0 < 2 ^ a)%Z by (apply pow2_pos; lia).
  assert (0 < 2 ^ b)%Z by (apply pow2_pos; lia).
  destruct (Z_lt_le_dec (a - b - 1) 0) as [H1 | H1].
  - rewrite scaledNum_low, scaledDen_low by lia.
    replace (- (a - b - 1))%Z with (b - a + 1)%Z by lia.
    rewrite pow2_succ by lia.
    assert (2 ^ b = 2 ^ a * 2 ^ (b - a))%Z as E
      by (rewrite <- Z.pow_add_r by lia; f_equal; lia).
    assert (0 < 2 ^ (b - a))%Z by (apply pow2_pos; lia). nia.
  - rewrite scaledNum_high, scaledDen_high by lia.
    assert (2 ^ a = 2 * 2 ^ b * 2 ^ (a - b - 1))%Z as E.
    { rewrite <- pow2_succ by lia. rewrite <- Z.pow_add_r by lia. f_equal. lia. }
    assert (0 < 2 ^ (a - b - 1))%Z by (apply pow2_pos; lia). nia.
Qed.

Lemma scaled_upper (n d a b : Z) :
  (0 <= a)%Z -> (0 <= b)%Z -> (0 < n < 2 * 2 ^ a)%Z -> (2 ^ b <= d)%Z ->
  (scaledNum n (a - b + 1) < scaledDen d (a - b + 1))%Z.
Proof.
  intros Ha Hb Hn Hd.
  assert (0 < 2 ^ a)%Z by (apply pow2_pos; lia).
  assert (0 < 2 ^ b)%Z by (apply pow2_pos; lia).
  destruct (Z_lt_le_dec (a - b + 1) 0) as [H1 | H1].
  - rewrite scaledNum_low, scaledDen_low by lia.
    replace (- (a - b + 1))%Z with (b - a - 1)%Z by lia.
    assert (2 ^ b = 2 * 2 ^ a * 2 ^ (b - a - 1))%Z as E.
    { rewrite <- pow2_succ by lia. rewrite <- Z.pow_add_r by lia. f_equal. lia. }
    assert (0 < 2 ^ (b - a - 1))%Z by (apply pow2_pos; lia). nia.
  - rewrite scaledNum_high, scaledDen_high by lia.
    assert (2 * 2 ^ a = 2 ^ b * 2 ^ (a - b + 1))%Z as E.
    { rewrite <- pow2_succ by lia. rewrite <- Z.pow_add_r by lia. f_equal. lia. }
    assert (0 < 2 ^ (a - b + 1))%Z by (apply pow2_pos; lia). nia.
Qed.

Lemma binade_spec (n d : Z) :
  (0 < n)%Z -> (0 < d)%Z ->
  (scaledDen d (binade n d) <= scaledNum n (binade n d))%Z
  /\ (scaledNum n (binade n d + 1) < scaledDen d (binade n d + 1))%Z.
Proof.
  intros Hn Hd. unfold binade.
  pose proof (Z.log2_spec n Hn) as [Ln Un].
  pose proof (Z.log2_spec d Hd) as [Ld Ud].
  pose proof (Z.log2_nonneg n) as Nn. pose proof (Z.log2_nonneg d) as Nd.
  rewrite Z.pow_succ_r in Un, Ud by assumption.
  destruct (Z.leb_spec (scaledDen d (Z.log2 n - Z.log2 d))
              (scaledNum n (Z.log2 n - Z.log2 d))) as [L | L].
  - split; [exact L |]. apply scaled_upper; lia.
  - split; [apply scaled_lower; lia |].
    now replace (Z.log2 n - Z.log2 d - 1 + 1)%Z with (Z.log2 n - Z.log2 d)%Z by lia.
Qed.

Lemma scaled_shift (n d e k : Z) :
  (0 <= k)%Z ->
  (scaledNum n e * scaledDen d (e + k) = 2 ^ k * (scaledNum n (e + k) * scaledDen d e))%Z.
Proof.
  intros Hk.
  destruct (Z_lt_le_dec 0 (e + k)) as [H1 | H1]; [destruct (Z_lt_le_dec e 0) as [H0 | H0] |].
  - rewrite (scaledNum_low n e), (scaledNum_high n (e + k)), (scaledDen_low d e),
      (scaledDen_high d (e + k)) by lia.
    assert (2 ^ k = 2 ^ (- e) * 2 ^ (e + k))%Z as ->
      by (rewrite <- Z.pow_add_r by lia; f_equal; lia).
    ring.
  - rewrite !scaledNum_high, (scaledDen_high d e), (scaledDen_high d (e + k)) by lia.
    rewrite Z.pow_add_r by lia. ring.
  - rewrite (scaledNum_low n e), (scaledNum_low n (e + k)), !scaledDen_low by lia.
    assert (2 ^ (- e) = 2 ^ k * 2 ^ (- (e + k)))%Z as ->
      by (rewrite <- Z.pow_add_r by lia; f_equal; lia).
    ring.
Qed.

Lemma dyadic_high (m e : Z) : (0 <= e)%Z -> dyadic m e = inject_Z (m * 2 ^ e).
Proof.
  intros H. unfold dyadic. rewrite Z.max_r, Z.max_l by lia. simpl.
  apply Qred_inject_Z.
Qed.

Lemma dyadic_exact (z e : Z) :
  (e <= 0)%Z -> dyadic (z * 2 ^ (- e)) e = inject_Z z.
Proof.
  intros H. unfold dyadic. rewrite Z.max_l, Z.max_r by lia.
  rewrite <- (Qred_inject_Z z). apply Qred_complete.
  assert (0 < 2 ^ (- e))%Z as P by (apply pow2_pos; lia).
  unfold Qeq. cbn [Qnum Qden inject_Z]. rewrite Z2Pos.id by exact P.
  rewrite Z.pow_0_r. ring.
Qed.

Lemma dyadic_nonneg (m e : Z) : (0 <= m)%Z -> (0 <= dyadic m e)%Q.
Proof.
  intros H. unfold dyadic. rewrite Qred_correct. unfold Qle. cbn [Qnum Qden].
  assert (0 < 2 ^ Z.max 0 e)%Z by (apply pow2_pos; lia). nia.
Qed.

Lemma dyadic_floor (m e : Z) :
  (e <= 0)%Z -> Qfloor (dyadic m e) = (m / 2 ^ (- e))%Z.
Proof.
  intros H. unfold dyadic. rewrite Z.max_l, Z.max_r by lia.
  assert (0 < 2 ^ (- e))%Z as P by (apply pow2_pos; lia).
  rewrite (Qfloor_comp _ _ (Qred_correct _)). unfold Qfloor.
  rewrite Z2Pos.id by exact P. now rewrite Z.pow_0_r, Z.mul_1_r.
Qed.

(** The binade of a positive integer is its binary logarithm. *)
Lemma binade_integer (z : Z) :
  (0 < z)%Z -> (0 <= binade z 1 /\ 2 ^ binade z 1 <= z < 2 * 2 ^ binade z 1)%Z.
Proof.
  intros Hz. destruct (binade_spec z 1 Hz) as [L U]; [lia |].
  assert (0 <= binade z 1)%Z as B.
  { destruct (Z_lt_le_dec (binade z 1) 0) as [N |]; [| assumption].
    rewrite scaledNum_low, scaledDen_low in U by lia.
    assert (0 < 2 ^ (- (binade z 1 + 1)))%Z by (apply pow2_pos; lia). nia. }
  rewrite scaledNum_high, scaledDen_high in L, U by lia.
  rewrite pow2_succ in U by exact B. lia.
Qed.

Lemma nearestEven_one (n : Z) : nearestEven n 1 = n.
Proof.
  destruct (nearestEven_bounds n 1) as (_ & _ & H); [lia |].
  rewrite H by apply Z.mod_1_r. apply Z.div_1_r.
Qed.

Lemma pow2_le (a b : Z) : (0 <= a <= b)%Z -> (2 ^ a <= 2 ^ b)%Z.
Proof. intros H. apply Z.pow_le_mono_r; lia. Qed.

Lemma pow2_lt (a b : Z) : (0 <= a < b)%Z -> (2 ^ a < 2 ^ b)%Z.
Proof. intros H. apply Z.pow_lt_mono_r; lia. Qed.

(** Integers up to [2 ^ 53] are doubles. *)
Lemma roundPositive_integer (z : Z) :
  (0 < z <= 2 ^ 53)%Z -> roundPositive z 1 = Fin (inject_Z z).
Proof.
  intros Hz. destruct (binade_integer z) as (B & L & U); [lia |].
  unfold roundPositive.
  assert (binade z 1 <= 53)%Z as B53.
  { destruct (Z_lt_le_dec 53 (binade z 1)) as [N |]; [| assumption].
    pose proof (pow2_lt 53 (binade z 1)). lia. }
  rewrite Z.max_r by lia.
  destruct (Z.eq_dec (binade z 1) 53) as [E | N].
  - rewrite E in *. assert (z = 2 ^ 53)%Z as -> by lia. reflexivity.
  - set (e := (binade z 1 - 52)%Z) in *.
    rewrite scaledNum_low, scaledDen_low by lia. rewrite nearestEven_one.
    rewrite Z.max_l by lia. rewrite Z.pow_0_r, Z.mul_1_r.
    assert (z * 2 ^ (- e) < 2 ^ 53)%Z as Small.
    { replace 53%Z with (binade z 1 + 1 + - e)%Z by lia.
      rewrite Z.pow_add_r by lia. rewrite pow2_succ by lia.
      assert (0 < 2 ^ (- e))%Z by (apply pow2_pos; lia). nia. }
    destruct (Z.leb_spec (2 ^ 1024) (z * 2 ^ (- e))) as [O | _].
    + pose proof (pow2_lt 53 1024). lia.
    + now rewrite dyadic_exact by lia.
Qed.

Lemma double_integer (z : Z) :
  (Z.abs z <= 2 ^ 53)%Z -> double (inject_Z z) = ofZ z.
Proof.
  intros H. unfold double. rewrite Qred_inject_Z. cbn [Qnum Qden inject_Z].
  destruct z as [| p | p]; [reflexivity | |].
  - apply roundPositive_integer. lia.
  - rewrite roundPositive_integer by lia. unfold neg, fin, ofZ. f_equal.
    apply (Qred_inject_Z (Z.neg p)).
Qed.

(** A double of an integer is an integer, or an infinity. *)
Lemma roundPositive_whole (z : Z) :
  (0 < z)%Z -> roundPositive z 1 = Inf false \/ exists z', (0 < z')%Z /\ roundPositive z 1 = ofZ z'.
Proof.
  intros Hz. destruct (Z_le_gt_dec z (2 ^ 53)) as [S | L].
  - right. exists z. split; [exact Hz |]. apply roundPositive_integer. lia.
  - destruct (binade_integer z Hz) as (B & Lo & Up).
    assert (53 <= binade z 1)%Z as B53.
    { destruct (Z_lt_le_dec (binade z 1) 53) as [N |]; [| assumption].
      pose proof (pow2_le (binade z 1 + 1) 53). rewrite pow2_succ in H by lia. lia. }
    unfold roundPositive. rewrite Z.max_r by lia.
    set (e := (binade z 1 - 52)%Z) in *.
    destruct (Z.leb_spec (2 ^ 1024) (nearestEven (scaledNum z e) (scaledDen 1 e) * 2 ^ Z.max 0 e))
      as [O | O]; [now left | right].
    rewrite dyadic_high by lia. eexists. split; [| reflexivity].
    rewrite scaledNum_high, scaledDen_high by lia.
    assert (0 < 2 ^ e)%Z as P by (apply pow2_pos; lia).
    destruct (nearestEven_bounds z (1 * 2 ^ e)) as ((Lb & _) & _); [lia |].
    assert (1 <= z / (1 * 2 ^ e))%Z.
    { apply Z.div_le_lower_bound; [lia |].
      assert (2 ^ e <= 2 ^ binade z 1)%Z by (apply pow2_le; lia). lia. }
    nia.
Qed.

Lemma double_whole (z : Z) :
  (exists s, double (inject_Z z) = Inf s) \/ exists z', double (inject_Z z) = ofZ z'.
Proof.
  unfold double. rewrite Qred_inject_Z. cbn [Qnum Qden inject_Z].
  destruct z as [| p | p].
  - right. now exists 0%Z.
  - destruct (roundPositive_whole (Z.pos p)) as [-> | (z' & _ & ->)]; [lia | left; eauto | right; eauto].
  - destruct (roundPositive_whole (Z.pos p)) as [-> | (z' & _ & ->)];
      [lia | left; now exists true |].
    right. exists (- z')%Z. unfold neg, fin, ofZ. f_equal.
    rewrite <- (Qred_inject_Z (- z')). apply Qred_complete. now rewrite inject_Z_opp.
Qed.

(** Rounding keeps the sign. *)
Lemma roundPositive_sign (n d : Z) :
  (0 < n)%Z -> (0 < d)%Z ->
  roundPositive n d = Inf false \/ exists r, roundPositive n d = Fin r /\ (0 <= r)%Q.
Proof.
  intros Hn Hd. unfold roundPositive.
  set (e := Z.max (-1074) (binade n d - 52)).
  destruct (scaled_pos n d e Hn Hd) as [Pn Pd].
  destruct (nearestEven_bounds (scaledNum n e) (scaledDen d e) Pd) as ((Lb & _) & _).
  destruct (Z.leb _ _); [now left | right]. eexists. split; [reflexivity |].
  apply dyadic_nonneg. pose proof (Z.div_pos (scaledNum n e) (scaledDen d e)). lia.
Qed.

(** The quotient of two integers up to [2 ^ 53], rounded to a double, has the
    integer quotient as its floor. *)
Lemma roundPositive_floor (n d : Z) :
  (0 < n <= 2 ^ 53)%Z -> (0 < d <= 2 ^ 53)%Z ->
  exists r, roundPositive n d = Fin r /\ Qfloor r = (n / d)%Z.
Proof.
  intros Hn Hd.
  destruct (binade_spec n d) as [Lb Ub]; [lia | lia |].
  set (b := binade n d) in *.
  assert (0 < 2 ^ 53)%Z as P53 by (apply pow2_pos; lia).
  assert (-53 <= b)%Z as Blow.
  { destruct (Z_lt_le_dec b (-53)) as [N |]; [| assumption].
    rewrite scaledNum_low, scaledDen_low in Ub by lia.
    assert (2 ^ 53 <= 2 ^ (- (b + 1)))%Z by (apply pow2_le; lia). nia. }
  assert (b <= 53)%Z as Bhigh.
  { destruct (Z_lt_le_dec 53 b) as [N |]; [| assumption].
    rewrite scaledNum_high, scaledDen_high in Lb by lia.
    assert (2 ^ 53 < 2 ^ b)%Z by (apply pow2_lt; lia). nia. }
  destruct (Z.eq_dec b 53) as [E53 | N53].
  - rewrite E53 in Lb. rewrite scaledNum_high, scaledDen_high in Lb by lia.
    assert (d = 1)%Z as -> by nia.
    exists (inject_Z n). split; [apply roundPositive_integer; lia |].
    rewrite Z.div_1_r. apply Qfloor_Z.
  - unfold roundPositive. fold b. rewrite Z.max_r by lia.
    set (e := (b - 52)%Z) in *.
    pose proof (scaled_shift n d e 52) as S52.
    pose proof (scaled_shift n d e 53) as S53.
    replace (e + 52)%Z with b in S52 by lia.
    replace (e + 53)%Z with (b + 1)%Z in S53 by lia.
    specialize (S52 ltac:(lia)). specialize (S53 ltac:(lia)).
    destruct (scaled_pos n d b) as [Pnb Pdb]; [lia | lia |].
    destruct (scaled_pos n d (b + 1)) as [Pnb1 Pdb1]; [lia | lia |].
    assert (scaledDen d e = d) as De by (apply scaledDen_low; lia).
    assert (scaledNum n e = n * 2 ^ (- e))%Z as Ne by (apply scaledNum_low; lia).
    rewrite De, Ne in S52, S53. rewrite De, Ne.
    set (E := (2 ^ (- e))%Z) in *.
    assert (0 < E)%Z as PE by (apply pow2_pos; lia).
    assert (0 < 2 ^ 52)%Z as P52 by (apply pow2_pos; lia).
    assert (2 ^ 53 = 2 * 2 ^ 52)%Z as E5352 by reflexivity.
    assert (2 ^ 52 * d <= n * E)%Z as Lo.
    { apply (Z.mul_le_mono_pos_r _ _ (scaledDen d b) Pdb). rewrite S52.
      rewrite <- Z.mul_assoc. apply Z.mul_le_mono_nonneg_l; [lia |]. nia. }
    assert (n * E < 2 ^ 53 * d)%Z as Hi.
    { apply (Z.mul_lt_mono_pos_r (scaledDen d (b + 1)) _ _ Pdb1). rewrite S53.
      rewrite <- Z.mul_assoc. apply Z.mul_lt_mono_pos_l; [lia |]. nia. }
    destruct (nearestEven_bounds (n * E) d) as ((Lm & Um) & Tie & _); [lia |].
    set (m := nearestEven (n * E) d) in *.
    pose proof (Z.div_mod (n * E) d ltac:(lia)) as DM.
    pose proof (Z.mod_pos_bound (n * E) d ltac:(lia)) as MB.
    pose proof (Z.div_mod n d ltac:(lia)) as DMn.
    pose proof (Z.mod_pos_bound n d ltac:(lia)) as MBn.
    set (F := (n * E / d)%Z) in *. set (rho := ((n * E) mod d)%Z) in *.
    set (k := (n / d)%Z) in *. set (r0 := (n mod d)%Z) in *.
    assert (F < 2 ^ 53)%Z as F53 by nia.
    rewrite Z.max_l by lia. rewrite Z.pow_0_r, Z.mul_1_r.
    destruct (Z.leb_spec (2 ^ 1024) m) as [O | _].
    { assert (2 ^ 53 < 2 ^ 1024)%Z by (apply pow2_lt; lia). lia. }
    eexists. split; [reflexivity |]. rewrite dyadic_floor by lia. fold E.
    assert (0 <= k)%Z as Pk by (apply Z.div_pos; lia).
    assert (k * E <= F)%Z as LF.
    { apply Z.div_le_lower_bound; [lia |]. nia. }
    assert (m < (k + 1) * E)%Z as UM.
    { destruct (Z_lt_le_dec m ((k + 1) * E)) as [Y | No]; [exact Y | exfalso].
      assert (F < (k + 1) * E)%Z as FU.
      { apply Z.div_lt_upper_bound; [lia |]. nia. }
      assert (m = F + 1)%Z as Em by lia.
      specialize (Tie Em).
      assert (F = (k + 1) * E - 1)%Z as EF by lia.
      assert (2 * E <= d)%Z as DE by nia.
      assert (n = 2 ^ 53)%Z as En by nia.
      assert (d = 2 * E)%Z as Ed by nia.
      assert (rho = 0)%Z as R0.
      { unfold rho. rewrite En, Ed. rewrite E5352.
        replace (2 * 2 ^ 52 * E)%Z with (2 ^ 52 * (2 * E))%Z by ring.
        apply Z.mod_mul. lia. }
      lia. }
    symmetry. apply (Z.div_unique_pos m E k (m - k * E)); nia.
Qed.

Lemma Qred_bounds (q : Q) :
  (0 < Qnum q)%Z ->
  (0 < Qnum (Qred q) <= Qnum q)%Z /\ (Z.pos (Qden (Qred q)) <= Z.pos (Qden q))%Z.
Proof.
  intros H. destruct q as [n d]. cbn [Qnum Qden] in *. unfold Qred.
  pose proof (Z.ggcd_correct_divisors n (Z.pos d)) as C.
  pose proof (Z.ggcd_gcd n (Z.pos d)) as G.
  pose proof (Z.gcd_nonneg n (Z.pos d)) as N.
  destruct (Z.ggcd n (Z.pos d)) as [g [a b]]. cbn [fst snd] in *.
  destruct C as [Cn Cd]. cbn [Qnum Qden].
  rewrite <- G in N. clear G.
  assert (0 < g)%Z as Pg.
  { destruct (Z.eq_dec g 0) as [Z0 | NZ]; [| lia]. rewrite Z0 in Cd. simpl in Cd. lia. }
  assert (0 < b)%Z as Pb.
  { destruct (Z_lt_le_dec 0 b) as [Y | No]; [exact Y | exfalso].
    assert (g * b <= 0)%Z by (apply Z.mul_nonneg_nonpos; lia). lia. }
  assert (0 < a)%Z as Pa.
  { destruct (Z_lt_le_dec 0 a) as [Y | No]; [exact Y | exfalso].
    assert (g * a <= 0)%Z by (apply Z.mul_nonneg_nonpos; lia). lia. }
  rewrite Z2Pos.id by assumption. nia.
Qed.

(** An integer of at most 308 digits rounds to a finite double. *)
Lemma roundPositive_finite (z : Z) :
  (0 < z < 10 ^ 308)%Z -> exists r, roundPositive z 1 = Fin r.
Proof.
  intros Hz. destruct (Z_le_gt_dec z (2 ^ 53)) as [S | L].
  - eexists. apply roundPositive_integer. lia.
  - destruct (binade_integer z) as (B & Lo & Up); [lia |].
    assert (53 <= binade z 1)%Z as B53.
    { destruct (Z_lt_le_dec (binade z 1) 53) as [N |]; [| assumption].
      pose proof (pow2_le (binade z 1 + 1) 53). rewrite pow2_succ in H by lia. lia. }
    assert (binade z 1 <= 1023)%Z as B1023.
    { destruct (Z_lt_le_dec 1023 (binade z 1)) as [N |]; [| assumption].
      assert (2 ^ 1024 <= 2 ^ binade z 1)%Z by (apply pow2_le; lia).
      assert (10 ^ 308 < 2 ^ 1024)%Z by reflexivity. lia. }
    unfold roundPositive. rewrite Z.max_r by lia.
    set (e := (binade z 1 - 52)%Z) in *.
    rewrite scaledNum_high, scaledDen_high by lia. rewrite Z.max_r by lia.
    assert (0 < 2 ^ e)%Z as P by (apply pow2_pos; lia).
    destruct (nearestEven_bounds z (1 * 2 ^ e)) as ((_ & Um) & _); [lia |].
    pose proof (Z.mul_div_le z (1 * 2 ^ e) ltac:(lia)) as DL.
    assert (2 ^ e <= 2 ^ 971)%Z as E971 by (apply pow2_le; lia).
    assert (10 ^ 308 + 2 ^ 971 < 2 ^ 1024)%Z as Num by reflexivity.
    destruct (Z.leb_spec (2 ^ 1024) (nearestEven z (1 * 2 ^ e) * 2 ^ e)) as [O | _];
      [exfalso; nia | eauto].
Qed.

Lemma double_finite (z : Z) :
  (Z.abs z < 10 ^ 308)%Z -> exists r, double (inject_Z z) = Fin r.
Proof.
  intros H. unfold double. rewrite Qred_inject_Z. cbn [Qnum Qden inject_Z].
  destruct z as [| p | p]; [eauto | |].
  - apply roundPositive_finite. lia.
  - destruct (roundPositive_finite (Z.pos p)) as [r ->]; [lia |]. unfold neg, fin. eauto.
Qed.

End Rounding.

(** Equal rationals have the same double. *)
Lemma double_compat (q q' : Q) : (q == q')%Q -> double q = double q'.
Proof. intros H. unfold double. now rewrite (Qred_complete _ _ H). Qed.

Lemma double_not_NaN (q : Q) : isNaN (double q) = false.
Proof.
  unfold double. destruct (Qnum (Qred q)); [reflexivity | |];
    unfold roundPositive; now destruct (Z.leb _ _).
Qed.

Lemma double_nonneg (q : Q) :
  (0 <= q)%Q -> double q = Inf false \/ exists r, double q = Fin r /\ (0 <= r)%Q.
Proof.
  intros H. unfold double.
  assert (0 <= Qnum (Qred q))%Z as N.
  { rewrite <- (Qred_correct q) in H. unfold Qle in H. cbn [Qnum Qden] in H. lia. }
  destruct (Qnum (Qred q)) as [| n | n]; [| | lia].
  - right. exists 0%Q. split; [reflexivity | apply Qle_refl].
  - apply roundPositive_sign; lia.
Qed.

Lemma double_whole_value (q : Q) (z : Z) :
  (q == inject_Z z)%Q ->
  (exists s, double q = Inf s) \/ exists z', double q = ofZ z'.
Proof. intros H. rewrite (double_compat _ _ H). apply double_whole. Qed.

(** ** Integers *)

Lemma add_integers (a b : Z) :
  (Z.abs (a + b) <= 2 ^ 53)%Z -> add (ofZ a) (ofZ b) = ofZ (a + b).
Proof.
  intros H. unfold add, ofZ. rewrite (double_compat _ (inject_Z (a + b))).
  - now apply double_integer.
  - now rewrite inject_Z_plus.
Qed.

Lemma mul_integers (a b : Z) :
  (Z.abs (a * b) <= 2 ^ 53)%Z -> mul (ofZ a) (ofZ b) = ofZ (a * b).
Proof.
  intros H. unfold mul, ofZ. rewrite (double_compat _ (inject_Z (a * b))).
  - now apply double_integer.
  - now rewrite inject_Z_mult.
Qed.

Lemma Qeq_bool_inject_Z (a b : Z) : Qeq_bool (inject_Z a) (inject_Z b) = (a =? b)%Z.
Proof.
  destruct (Z.eqb_spec a b) as [-> | H].
  - apply Qeq_bool_iff. reflexivity.
  - destruct (Qeq_bool (inject_Z a) (inject_Z b)) eqn:E; [| reflexivity].
    apply Qeq_bool_iff in E. unfold Qeq in E. simpl in E. lia.
Qed.

Lemma sub_integers (a b : Z) : sub (ofZ a) (ofZ b) = ofZ (a - b).
Proof.
  unfold sub, ofZ. apply fin_integer.
  unfold Z.sub. now rewrite inject_Z_plus, inject_Z_opp.
Qed.

(** On integers whose difference is at most [2 ^ 53] in size, as the
    readings of the clock are, the difference kept exact is the rounded one. *)
Lemma sub_rounded (a b : Z) :
  (Z.abs (a - b) <= 2 ^ 53)%Z -> add (ofZ a) (neg (ofZ b)) = sub (ofZ a) (ofZ b).
Proof.
  intros H. rewrite sub_integers.
  assert (neg (ofZ b) = ofZ (- b)) as ->
    by (unfold neg, ofZ; apply fin_integer; now rewrite inject_Z_opp).
  now apply add_integers.
Qed.

Lemma ltb_integers (a b : Z) : ltb (ofZ a) (ofZ b) = (a <? b)%Z.
Proof.
  destruct (Z.ltb_spec a b) as [H | H].
  - apply ltb_Fin. now rewrite <- Zlt_Qlt.
  - destruct (ltb (ofZ a) (ofZ b)) eqn:E; [| reflexivity].
    apply ltb_Fin in E. rewrite <- Zlt_Qlt in E. lia.
Qed.

Lemma geb_integers (a b : Z) : geb (ofZ a) (ofZ b) = (b <=? a)%Z.
Proof.
  unfold geb. rewrite ltb_integers. unfold strictEq, ofZ. rewrite Qeq_bool_inject_Z.
  destruct (Z.ltb_spec b a), (Z.eqb_spec a b), (Z.leb_spec b a); try reflexivity; lia.
Qed.

Lemma max_integers (a b : Z) : max (ofZ a) (ofZ b) = ofZ (Z.max a b).
Proof.
  unfold max. change (ltb (Fin (inject_Z a)) (Fin (inject_Z b))) with (ltb (ofZ a) (ofZ b)).
  rewrite ltb_integers. unfold ofZ.
  destruct (Z.ltb_spec a b); f_equal; f_equal; lia.
Qed.

(** The clamp of the two count updates, on integers up to [2 ^ 53]. *)
Lemma clamp_integers (count delta : Z) :
  (Z.abs (count + delta) <= 2 ^ 53)%Z ->
  max (ofZ 0) (add (ofZ count) (ofZ delta)) = ofZ (Z.max 0 (count + delta)).
Proof. intros H. now rewrite add_integers, max_integers. Qed.

Lemma signValue_integer (sign : Sign) : signValue sign = ofZ (signed sign 1).
Proof. now destruct sign. Qed.

Lemma mul_sign_integer (sign : Sign) (z : Z) :
  (Z.abs z <= 2 ^ 53)%Z -> mul (signValue sign) (ofZ z) = ofZ (signed sign z).
Proof.
  intros H. rewrite signValue_integer, mul_integers; destruct sign; cbn [signed];
    try (f_equal; lia); lia.
Qed.

(** ** What [parseInt] returns *)

(** A number without fraction: [NaN], an infinity or an integer. *)
Lemma parseInt_integral (s : string) (radix : option Z) :
  integral (parseInt s radix).
Proof.
  unfold parseInt, integral. destruct (readSign (trimStart s)) as [negative s1].
  destruct (_ || _)%bool; [now left |].
  match goal with |- context [let '(_, _) := ?x in _] => destruct x as [R s2] end.
  destruct (readDigits R s2 0 0%Z) as [[count value] rest].
  destruct count; [now left | right]. apply double_whole.
Qed.

(** ** The counts of a session are never negative *)

Lemma updateSingleCount_counts (productId : string) (delta : number) (d : Draft) :
  currentCounts (state (updateSingleCount productId delta d)) =
  map (fun item =>
         if String.eqb (CountItem.productId item) productId
         then withSingleCount item (max (ofZ 0) (add (CountItem.singleCount item) delta))
         else item) (currentCounts (state d)).
Proof. open_draft d. reflexivity. Qed.

Lemma updatePackageCount_counts (productId : string) (delta : number) (d : Draft) :
  currentCounts (state (updatePackageCount productId delta d)) =
  map (fun item =>
         if String.eqb (CountItem.productId item) productId
         then withPackageCount item (max (ofZ 0) (add (CountItem.packageCount item) delta))
         else item) (currentCounts (state d)).
Proof. open_draft d. reflexivity. Qed.

(** C1.  The clamp of the two updates does not keep a count at zero or
    above when the numbers stop being finite.  An entry of 400 nines in the
    number dialog is read by [parseInt] as [Infinity]; applied on a plus
    button it makes the count [Infinity]; a second such entry on the minus
    button of the same count gives [Math.max(0, Infinity - Infinity)], which
    is [NaN], and [NaN >= 0] is false. *)
Theorem huge_entries_make_a_count_NaN :
  parseInt (nines 400) (Some 10%Z) = Infinity
  /\ map CountItem.singleCount
       (currentCounts (fst (run examplePlatform enterHugeOnPlus mountedEmpty)))
     = [Infinity]
  /\ map CountItem.singleCount
       (currentCounts
          (fst (run examplePlatform (enterHugeOnPlus ++ enterHugeOnMinus) mountedEmpty)))
     = [NaN]
  /\ geb NaN (ofZ 0) = false.
Proof. vm_compute. repeat split. Qed.

(** ** The stored session mirrors the session in memory *)

Lemma sessionEffect_lookup (platform : Platform) (s : AppState) (ls : gmap string string) :
  sessionEffect platform s ls !! sessionKey = expectedSession platform s.
Proof.
  unfold sessionEffect, expectedSession.
  destruct (currentForm s); [| apply lookup_delete_eq].
  destruct (currentCounts s); simpl; [apply lookup_delete_eq | apply lookup_insert_eq].
Qed.

Lemma otherEffects_lookup (platform : Platform) (d : Draft) :
  (if savedCountsSet d
   then savedCountsEffect platform (state d)
          (if templatesSet d then templatesEffect platform (state d) (storage d) else storage d)
   else if templatesSet d then templatesEffect platform (state d) (storage d) else storage d)
    !! sessionKey = storage d !! sessionKey.
Proof.
  unfold savedCountsEffect, templatesEffect.
  destruct (savedCountsSet d), (templatesSet d);
    repeat (rewrite lookup_insert_ne by discriminate); reflexivity.
Qed.

Lemma commit_set (platform : Platform) (d : Draft) :
  sessionSet d = true -> sessionMirrored platform (commit platform d).
Proof.
  intros H. unfold sessionMirrored, commit. rewrite H. simpl. apply sessionEffect_lookup.
Qed.

Lemma commit_not_set (platform : Platform) (d : Draft) :
  sessionSet d = false ->
  snd (commit platform d) !! sessionKey = storage d !! sessionKey.
Proof.
  intros H. unfold commit. rewrite H. simpl. apply otherEffects_lookup.
Qed.

Lemma handle_session (platform : Platform) (e : Event) (d : Draft) :
  sessionSet d = false ->
  sessionSet (handle platform e d) = true \/ sessionUntouched d (handle platform e d).
Proof.
  intros H. unfold sessionUntouched.
  open_draft d. simpl in H. subst.
  destruct e; simpl;
    unfold handleFileImport, addProductToTemplate, saveTemplate, deleteTemplate,
      deleteSavedCount, startCounting, handleCountButtonUp, handleNumberDialogSubmit,
      submitCount, handleResumeSession;
    simpl; repeat case_match; simpl; auto.
Qed.

Lemma step_mirrored (platform : Platform) (e : Event) (w : AppState * gmap string string) :
  sessionMirrored platform w -> sessionMirrored platform (step platform e w).
Proof.
  intros H. unfold step.
  destruct (handle_session platform e (begin (fst w) (snd w)) eq_refl)
    as [Hset | (Hno & Hform & Hcounts & Hls)].
  - now apply commit_set.
  - unfold sessionMirrored. rewrite (commit_not_set _ _ Hno), Hls. simpl.
    unfold expectedSession. unfold commit. simpl. rewrite Hform, Hcounts. exact H.
Qed.

Lemma loadEffect_session (platform : Platform) (ls : gmap string string) (d : Draft) :
  loadEffect platform (begin initialState ls) = Normal d ->
  sessionSet d = true
  \/ (sessionSet d = false /\ currentForm (state d) = None /\ currentCounts (state d) = []).
Proof.
  unfold loadEffect. simpl.
  destruct (getItem templatesKey ls) as [t |];
    [destruct (parseTemplates platform t); [| discriminate] |];
    (destruct (getItem countsKey ls) as [c |];
      [destruct (parseSavedCounts platform c) |]);
    (destruct (getItem sessionKey ls) as [text |];
      [destruct (parseSession platform text) as [[form counts] |] |]);
    intros [= <-]; simpl; auto.
Qed.

Lemma mount_mirrored (platform : Platform) (ls : gmap string string) w :
  mount platform ls = Normal w -> sessionMirrored platform w.
Proof.
  unfold mount. destruct (loadEffect platform (begin initialState ls)) as [d |] eqn:E;
    [| discriminate].
  intros [= <-].
  destruct (loadEffect_session platform ls d E) as [S | (S & F & C)].
  - apply commit_set. now open_draft d.
  - unfold sessionMirrored. rewrite commit_not_set by now open_draft d.
    open_draft d. simpl in *. subst. unfold expectedSession, sessionEffect. simpl.
    apply lookup_delete_eq.
Qed.

Lemma reachable_mirrored (platform : Platform) (w : AppState * gmap string string) :
  reachable platform w -> sessionMirrored platform w.
Proof.
  induction 1 as [ls w Hmount | e w _ IH].
  - now apply (mount_mirrored platform ls).
  - now apply step_mirrored.
Qed.

Lemma step_not_set (platform : Platform) (e : Event) (s : AppState) (ls : gmap string string) :
  handle platform e (begin s ls) = begin s ls -> step platform e (s, ls) = (s, ls).
Proof. intros H. unfold step. simpl. rewrite H. reflexivity. Qed.

Lemma submitCount_clears (platform : Platform) (now : Z) (w : AppState * gmap string string) :
  sessionMirrored platform w ->
  snd (step platform (SubmitCount now) w) !! sessionKey = None.
Proof.
  intros H. pose proof (step_mirrored platform (SubmitCount now) w H) as M.
  unfold sessionMirrored in M. rewrite M. unfold expectedSession, step, commit. simpl.
  unfold submitCount. simpl. destruct w as [s ls]. simpl in *.
  destruct (currentForm s) eqn:F; simpl; [now destruct s | now rewrite F].
Qed.

Lemma cancelCount_clears (platform : Platform) (w : AppState * gmap string string) :
  snd (step platform CancelCount w) !! sessionKey = None.
Proof.
  destruct w as [s ls]. unfold step, commit. destruct s. simpl.
  rewrite sessionEffect_lookup. reflexivity.
Qed.

Lemma discard_clears (platform : Platform) (w : AppState * gmap string string) :
  snd (step platform (ResumeSession false) w) !! sessionKey = None.
Proof.
  destruct w as [s ls]. unfold step, commit. destruct s. simpl.
  rewrite sessionEffect_lookup. reflexivity.
Qed.

(** C9.  In every state the component reaches from a mount, whatever the
    events, the session key of the storage holds the text of the whole
    session (template and count records) exactly when a template is selected
    and the list of count records is not empty, and holds nothing otherwise.
    In particular it holds nothing after a submit, after the Cancel of the
    count screen and after the Discard of the resume dialog. *)
Theorem session_key_mirrors_session (platform : Platform)
    (w : AppState * gmap string string) :
  reachable platform w ->
  ((exists form, currentForm (fst w) = Some form /\ currentCounts (fst w) <> []
                 /\ snd w !! sessionKey
                    = Some (stringifySession platform form (currentCounts (fst w))))
   \/ ((currentForm (fst w) = None \/ currentCounts (fst w) = [])
       /\ snd w !! sessionKey = None))
  /\ (forall now, snd (step platform (SubmitCount now) w) !! sessionKey = None)
  /\ snd (step platform CancelCount w) !! sessionKey = None
  /\ snd (step platform (ResumeSession false) w) !! sessionKey = None.
Proof.
  intros R. pose proof (reachable_mirrored platform w R) as M.
  split; [| split; [| split]].
  - unfold sessionMirrored, expectedSession in M.
    destruct (currentForm (fst w)) as [form |] eqn:F.
    + destruct (currentCounts (fst w)) as [| item rest] eqn:C.
      * right. split; [now right | exact M].
      * left. exists form. repeat split; [discriminate | exact M].
    + right. split; [now left | exact M].
  - intros now. now apply submitCount_clears.
  - apply cancelCount_clears.
  - apply discard_clears.
Qed.

(** ** Submitting *)

(** C2, as the code has it.  Without a selected template [submitCount] does
    nothing at all: it returns the draft it was given (no state is set,
    nothing is alerted, no error is raised) and the step leaves state and
    storage as they were.  With a selected template it puts a new entry in
    front of the archive, made of the template's name, the clock's timestamp
    and the list of count records as it is, empties the session (no
    template, no count records), goes back to the start view; the step then
    stores the new archive and removes the stored session. *)
Theorem submit_archives_or_does_nothing (platform : Platform) (now : Z)
    (s : AppState) (ls : gmap string string) :
  (currentForm s = None ->
     submitCount platform now (begin s ls) = begin s ls
     /\ step platform (SubmitCount now) (s, ls) = (s, ls))
  /\ (forall form, currentForm s = Some form ->
        let entry :=
          {| SavedCount.id := Z_to_string now;
             SavedCount.formName := FormTemplate.name form;
             SavedCount.timestamp := toISOString platform now;
             SavedCount.items := currentCounts s |} in
        let w' := step platform (SubmitCount now) (s, ls) in
        savedCounts (fst w') = entry :: savedCounts s
        /\ currentForm (fst w') = None
        /\ currentCounts (fst w') = []
        /\ view (fst w') = ViewStart
        /\ templates (fst w') = templates s
        /\ snd w' !! countsKey
           = Some (stringifySavedCounts platform (entry :: savedCounts s))
        /\ snd w' !! sessionKey = None).
Proof.
  split.
  - intros F. assert (submitCount platform now (begin s ls) = begin s ls) as E.
    { unfold submitCount. simpl. now rewrite F. }
    split; [exact E | now apply step_not_set].
  - intros form F entry w'. subst w'. unfold step. simpl. unfold submitCount. simpl.
    rewrite F. destruct s. simpl in *. subst.
    repeat split.
    + unfold commit, savedCountsEffect, sessionEffect. simpl.
      rewrite lookup_delete_ne by discriminate. apply lookup_insert_eq.
    + unfold commit, sessionEffect. simpl. apply lookup_delete_eq.
Qed.

(** ** The number dialog *)

Lemma strictEq_ofZ_zero (z : Z) : strictEq (ofZ z) (ofZ 0) = (z =? 0)%Z.
Proof.
  unfold strictEq, ofZ. destruct (Z.eqb_spec z 0) as [-> | H]; [reflexivity |].
  destruct (Qeq_bool (inject_Z z) (inject_Z 0)) eqn:E; [| reflexivity].
  apply Qeq_bool_iff in E. unfold Qeq in E. simpl in E. lia.
Qed.

(** The digits read are below the power of ten of their number. *)
Lemma digitValue_nonneg (c : ascii) (k : Z) : digitValue c = Some k -> (0 <= k)%Z.
Proof.
  unfold digitValue. repeat case_match; intros [= <-]; try discriminate;
    repeat match goal with
           | H : (_ && _)%bool = true |- _ => apply andb_prop in H as [? ?]
           | H : (_ <=? _)%nat = true |- _ => apply Nat.leb_le in H
           end; lia.
Qed.

Lemma readDigits_bound (s : string) :
  forall count acc, (0 <= acc)%Z ->
    (0 <= snd (fst (readDigits 10 s count acc))
     < (acc + 1) * 10 ^ Z.of_nat (String.length s))%Z.
Proof.
  induction s as [| c r IH]; intros count acc Hacc.
  - cbn. lia.
  - cbn [readDigits String.length]. rewrite Nat2Z.inj_succ, Z.pow_succ_r by lia.
    assert (0 < 10 ^ Z.of_nat (String.length r))%Z as P by (apply Z.pow_pos_nonneg; lia).
    destruct (digitValue c) as [k |] eqn:D; [| cbn; nia].
    destruct (Z.ltb_spec k 10) as [K | K]; [| cbn; nia].
    pose proof (digitValue_nonneg c k D) as K0.
    specialize (IH (S count) (acc * 10 + k)%Z ltac:(lia)). nia.
Qed.

Lemma trimStart_length (s : string) : (String.length (trimStart s) <= String.length s)%nat.
Proof.
  induction s as [| c r IH]; [reflexivity |]. cbn [trimStart String.length].
  destruct (isWhiteSpace c); cbn [String.length]; lia.
Qed.

Lemma readSign_length (s : string) :
  (String.length (snd (readSign s)) <= String.length s)%nat.
Proof.
  unfold readSign. repeat case_match; subst; cbn [snd String.length]; lia.
Qed.

(** With the radix 10, what is read is the double of an integer of no more
    digits than the text has characters. *)
Lemma parseInt_value (s : string) :
  parseInt s (Some 10%Z) = NaN
  \/ exists v, (Z.abs v < 10 ^ Z.of_nat (String.length s))%Z
               /\ parseInt s (Some 10%Z) = double (inject_Z v).
Proof.
  unfold parseInt.
  pose proof (trimStart_length s) as L1.
  pose proof (readSign_length (trimStart s)) as L2.
  destruct (readSign (trimStart s)) as [negative s1]. cbn [snd] in L2.
  cbn [Z.ltb Z.compare Pos.compare Pos.compare_cont orb Z.eqb Pos.eqb andb].
  assert ((let '(R, s2) :=
             match s1 with
             | String "0"%char (String x r) => (10%Z, s1)
             | _ => (10%Z, s1)
             end in
           let '(count, value, _) := readDigits R s2 0 0%Z in
           match count with
           | O => NaN
           | S _ => double (inject_Z (applySign negative value))
           end)
          = (let '(count, value, _) := readDigits 10 s1 0 0%Z in
             match count with
             | O => NaN
             | S _ => double (inject_Z (applySign negative value))
             end)) as E.
  { destruct s1 as [| c [| x r]]; [reflexivity | |]; repeat case_match; congruence. }
  match goal with |- ?lhs = NaN \/ _ => assert (lhs = _) as -> by exact E end.
  pose proof (readDigits_bound s1 0 0%Z ltac:(lia)) as B.
  destruct (readDigits 10 s1 0 0%Z) as [[count value] rest]. cbn [fst snd] in B.
  destruct count; [now left | right].
  exists (applySign negative value). split; [| reflexivity].
  assert (10 ^ Z.of_nat (String.length s1) <= 10 ^ Z.of_nat (String.length s))%Z
    by (apply Z.pow_le_mono_r; lia).
  unfold applySign. destruct negative; lia.
Qed.

(** A text of at most 308 characters is read as a finite number, if it is
    read at all. *)
Lemma parseInt_short (s : string) :
  (String.length s <= 308)%nat ->
  parseInt s (Some 10%Z) = NaN \/ exists z, parseInt s (Some 10%Z) = ofZ z.
Proof.
  intros L. destruct (parseInt_value s) as [E | (v & B & E)]; [now left | right].
  rewrite E.
  assert (Z.abs v < 10 ^ 308)%Z as Small.
  { assert (10 ^ Z.of_nat (String.length s) <= 10 ^ 308)%Z
      by (apply Z.pow_le_mono_r; lia). lia. }
  destruct (double_finite _ Small) as [r Hr].
  destruct (double_whole v) as [[sg Hs] | [z Hz]]; [congruence | eauto].
Qed.

(** A text of at most 15 characters is read as the integer it spells. *)
Lemma parseInt_small (s : string) :
  (String.length s <= 15)%nat ->
  parseInt s (Some 10%Z) = NaN
  \/ exists z, (Z.abs z < 10 ^ 15)%Z /\ parseInt s (Some 10%Z) = ofZ z.
Proof.
  intros L. destruct (parseInt_value s) as [E | (v & B & E)]; [now left | right].
  assert (Z.abs v < 10 ^ 15)%Z as Small.
  { assert (10 ^ Z.of_nat (String.length s) <= 10 ^ 15)%Z
      by (apply Z.pow_le_mono_r; lia). lia. }
  exists v. split; [exact Small |]. rewrite E. apply double_integer.
  assert (10 ^ 15 < 2 ^ 53)%Z by reflexivity. lia.
Qed.

(** C5, as the code has it.  On Apply, with a target selected, the text of
    the dialog (what was typed, less everything but digits and minus signs)
    is read by [parseInt]: the result is [NaN], an integer, or an infinity
    for a text too long to be a finite number (a text of at most 308
    characters is never read as an infinity).  When it is [NaN] or zero (the
    empty text, the text 0, a text without a leading number) the dialog
    closes and no count record changes.  In every other case the dialog
    closes and the count of the target is adjusted by the sign of the button
    times the number read, which for an integer [z] up to [2 ^ 53] in size,
    negative ones included, is [z] or [- z]. *)
Theorem number_dialog_applies_nonzero (d : Draft) (target : DialogTarget) :
  numberDialogProduct (state d) = Some target ->
  let n := enteredNumber (state d) in
  let d' := handleNumberDialogSubmit d in
  integral n
  /\ ((String.length (numberDialogValue (state d)) <= 308)%nat ->
        n = NaN \/ exists z, n = ofZ z)
  /\ (n = NaN \/ n = ofZ 0 ->
        d' = setNumberDialogOpen false d
        /\ currentCounts (state d') = currentCounts (state d)
        /\ sessionSet d' = sessionSet d)
  /\ (n <> NaN -> n <> ofZ 0 ->
        d' = setNumberDialogOpen false
               (match DialogTarget.field target with
                | FieldSingle =>
                    updateSingleCount (DialogTarget.productId target)
                      (mul (signValue (DialogTarget.sign target)) n) d
                | FieldPackage =>
                    updatePackageCount (DialogTarget.productId target)
                      (mul (signValue (DialogTarget.sign target)) n) d
                end))
  /\ (forall z, n = ofZ z -> (Z.abs z <= 2 ^ 53)%Z ->
        mul (signValue (DialogTarget.sign target)) n
        = ofZ (signed (DialogTarget.sign target) z))
  /\ numberDialogOpen (state d') = false.
Proof.
  intros T n d'. subst n d'. unfold handleNumberDialogSubmit, enteredNumber. rewrite T.
  set (text := if nonEmpty (numberDialogValue (state d)) then numberDialogValue (state d) else "0").
  pose proof (parseInt_integral text (Some 10%Z)) as I.
  split; [exact I |]. split; [| split; [| split; [| split]]].
  - intros L. apply parseInt_short. unfold text.
    destruct (nonEmpty (numberDialogValue (state d))); [exact L | cbn; lia].
  - intros [E | E]; rewrite E.
    + simpl. split; [reflexivity |]. now open_draft d.
    + rewrite strictEq_ofZ_zero. simpl. split; [reflexivity |]. now open_draft d.
  - intros N0 N1. destruct I as [E | [[sg E] | [z E]]]; [contradiction | |]; rewrite E in *.
    + reflexivity.
    + rewrite strictEq_ofZ_zero. cbn [isNaN orb].
      destruct (Z.eqb_spec z 0) as [-> | _]; [contradiction | reflexivity].
  - intros z E B. rewrite E. now apply mul_sign_integer.
  - destruct (isNaN _ || strictEq _ _)%bool; [now open_draft d |].
    destruct (DialogTarget.field target); now open_draft d.
Qed.

(** ** Migration of legacy records *)

(** The floor of a rounded quotient of two integers up to [2 ^ 53] is the
    floor of the exact quotient. *)
Lemma double_floor (q : Q) :
  (0 <= q)%Q -> (Qnum q <= 2 ^ 53)%Z -> (Z.pos (Qden q) <= 2 ^ 53)%Z ->
  floor (double q) = ofZ (Qfloor q).
Proof.
  intros H Hn Hd. unfold double.
  rewrite <- (Qfloor_comp _ _ (Qred_correct q)).
  destruct (Qnum (Qred q)) as [| n | n] eqn:E.
  - cbn [floor]. f_equal. destruct (Qred q) as [n' d']. cbn [Qnum] in E. subst n'.
    reflexivity.
  - assert (0 < Qnum q)%Z as P.
    { assert (0 < Qred q)%Q as R by (unfold Qlt; cbn [Qnum Qden]; lia).
      rewrite Qred_correct in R. unfold Qlt in R. cbn [Qnum Qden] in R. lia. }
    destruct (Qred_bounds q P) as [Bn Bd]. rewrite E in Bn.
    destruct (roundPositive_floor (Z.pos n) (Z.pos (Qden (Qred q)))) as (r & -> & F);
      [lia | lia |].
    cbn [floor]. f_equal. rewrite F. destruct (Qred q) as [n' d']. cbn [Qnum Qden] in *.
    now subst n'.
  - exfalso. assert (Qred q < 0)%Q as R by (unfold Qlt; cbn [Qnum Qden]; lia).
    rewrite Qred_correct in R. apply (Qlt_not_le _ _ R H).
Qed.

(** Floor of the quotient of two integers up to [2 ^ 53]. *)
Lemma floor_div_integers (t p : Z) :
  (0 <= t <= 2 ^ 53)%Z -> (0 < p <= 2 ^ 53)%Z ->
  floor (div (ofZ t) (ofZ p)) = ofZ (t / p).
Proof.
  intros Ht Hp. unfold div, ofZ. change 0%Q with (inject_Z 0). rewrite Qeq_bool_inject_Z.
  destruct (Z.eqb_spec p 0) as [-> | _]; [lia |].
  rewrite (Zdiv_Qdiv t p). destruct p as [| p | p]; try lia.
  apply double_floor.
  - apply Qle_shift_div_l; [reflexivity |]. rewrite Qmult_0_l.
    change 0%Q with (inject_Z 0). rewrite <- Zle_Qle. lia.
  - cbn. lia.
  - cbn. lia.
Qed.

(** Remainder of two integers, the dividend not negative and the divisor
    positive. *)
Lemma rem_integers (t p : Z) :
  (0 <= t)%Z -> (0 < p)%Z -> rem (ofZ t) (ofZ p) = ofZ (t mod p).
Proof.
  intros Ht Hp. unfold rem, ofZ. change 0%Q with (inject_Z 0). rewrite Qeq_bool_inject_Z.
  destruct (Z.eqb_spec p 0) as [-> | _]; [lia |].
  apply fin_integer. unfold Qtrunc.
  assert (isNegative (inject_Z t / inject_Z p) = false) as ->.
  { destruct (isNegative _) eqn:E; [| reflexivity]. apply isNegative_spec in E.
    exfalso. apply (Qlt_not_le _ _ E). apply Qle_shift_div_l.
    - change 0%Q with (inject_Z 0). rewrite <- Zlt_Qlt. exact Hp.
    - rewrite Qmult_0_l. change 0%Q with (inject_Z 0). rewrite <- Zle_Qle. exact Ht. }
  rewrite <- Zdiv_Qdiv. rewrite Z.mod_eq by lia.
  unfold Z.sub. rewrite inject_Z_plus, inject_Z_opp, inject_Z_mult. ring.
Qed.

Lemma truthy_ofZ (p : Z) : truthy (ofZ p) = negb (p =? 0)%Z.
Proof. unfold truthy, ofZ. change 0%Q with (inject_Z 0). now rewrite Qeq_bool_inject_Z. Qed.



Lemma migrateItem_idempotent (it : StoredItem) :
  migrateItem (migrateItem it) = migrateItem it.
Proof.
  destruct it as [productId productName size [pc |] [sc |] count]; reflexivity.
Qed.

Lemma migrateCount_idempotent (sc : StoredCount) :
  migrateCount (migrateCount sc) = migrateCount sc.
Proof.
  unfold migrateCount. simpl. f_equal. rewrite map_map.
  apply map_ext. apply migrateItem_idempotent.
Qed.

(** C4.  Migrating a migrated archive changes nothing, and a record that has
    both a package count and a single count is returned as it is. *)
Theorem migrateLegacy_idempotent :
  (forall parsed : list StoredCount,
     migrateLegacy (migrateLegacy parsed) = migrateLegacy parsed)
  /\ (forall productId productName size pc sc count,
        let it := StoredItem.mk productId productName size (Some pc) (Some sc) count in
        migrateItem it = it)
  /\ (forall id formName timestamp items,
        Forall (fun it => exists pc sc, StoredItem.packageCount it = Some pc
                                        /\ StoredItem.singleCount it = Some sc) items ->
        migrateCount (StoredCount.mk id formName timestamp items)
        = StoredCount.mk id formName timestamp items).
Proof.
  split; [| split].
  - intros parsed. unfold migrateLegacy. rewrite map_map.
    apply map_ext. apply migrateCount_idempotent.
  - reflexivity.
  - intros id formName timestamp items H. unfold migrateCount. simpl. f_equal.
    induction H as [| it items (pc & sc & Hp & Hs) _ IH]; simpl; [reflexivity |].
    rewrite IH. f_equal. unfold migrateItem. now rewrite Hp, Hs.
Qed.

(** A finite total divided by a divisor that is neither zero nor [NaN]
    gives a quotient and a remainder that are numbers. *)
Lemma div_rem_not_NaN (total : Q) (size : number) :
  truthy size = true ->
  isNaN (floor (div (Fin total) size)) = false
  /\ isNaN (rem (Fin total) size) = false.
Proof.
  destruct size as [| s | y]; [discriminate | now split |].
  unfold truthy, div, rem. intros H. destruct (Qeq_bool y 0); [discriminate |].
  split; [| reflexivity].
  pose proof (double_not_NaN (total / y)) as N.
  now destruct (double (total / y)).
Qed.

(** C10, as the code has it.  The divisor of the reconstruction is never zero
    and never [NaN]: a packaging size that is missing, zero or [NaN] is
    replaced by 1 and every other packaging size is used as it is (also one
    below 1, or a negative one).  With a finite total the quotient and the
    remainder are therefore numbers, never [NaN]. *)
Theorem migration_divisor_never_zero (it : StoredItem) :
  truthy (packagingSizeOr1 it) = true
  /\ strictEq (packagingSizeOr1 it) (ofZ 0) = false
  /\ isNaN (packagingSizeOr1 it) = false
  /\ (StoredItem.packagingSize it = None -> packagingSizeOr1 it = ofZ 1)
  /\ (forall v, StoredItem.packagingSize it = Some v ->
                packagingSizeOr1 it = if truthy v then v else ofZ 1)
  /\ (forall total : Q,
        isNaN (floor (div (Fin total) (packagingSizeOr1 it))) = false
        /\ isNaN (rem (Fin total) (packagingSizeOr1 it)) = false).
Proof.
  assert (truthy (packagingSizeOr1 it) = true) as T.
  { unfold packagingSizeOr1. destruct (StoredItem.packagingSize it) as [v |]; [| reflexivity].
    destruct (truthy v) eqn:E; [exact E | reflexivity]. }
  split; [exact T |]. split; [| split; [| split; [| split]]].
  - destruct (packagingSizeOr1 it) as [| s | q]; try reflexivity.
    unfold truthy in T. unfold strictEq, ofZ. change (inject_Z 0) with 0%Q.
    now destruct (Qeq_bool q 0).
  - now destruct (packagingSizeOr1 it).
  - unfold packagingSizeOr1. now intros ->.
  - unfold packagingSizeOr1. now intros v ->.
  - intros total. now apply div_rem_not_NaN.
Qed.

(** ** Import: the rows that fail and the rows that are skipped *)

Lemma parseRows_cons (i : nat) (line : string) (rest : list string) (products : list Product) :
  parseRows i (line :: rest) products =
  if offending line
  then Throw (invalidPackagingSize i (field 2 (cleanValuesOf line)))
  else parseRows (S i) rest (products ++ rowProducts line).
Proof.
  cbn [parseRows]. unfold offending, rowProducts.
  destruct (3 <=? List.length (cleanValuesOf line))%nat; cbn [andb].
  - now destruct (isNaN (parseFloat (field 2 (cleanValuesOf line)))).
  - now rewrite app_nil_r.
Qed.

Lemma parseRows_Normal (lines : list string) :
  forall i products result,
    parseRows i lines products = Normal result ->
    Forall (fun line => offending line = false) lines
    /\ result = products ++ flat_map rowProducts lines.
Proof.
  induction lines as [| line rest IH]; intros i products result.
  - intros [= <-]. split; [constructor | now rewrite app_nil_r].
  - rewrite parseRows_cons. destruct (offending line) eqn:O; [discriminate |].
    intros H. apply IH in H as [F ->]. split; [now constructor |].
    cbn [flat_map]. now rewrite <- app_assoc.
Qed.

Lemma parseRows_clean (lines : list string) :
  forall i products,
    Forall (fun line => offending line = false) lines ->
    parseRows i lines products = Normal (products ++ flat_map rowProducts lines).
Proof.
  induction lines as [| line rest IH]; intros i products H.
  - cbn. now rewrite app_nil_r.
  - inversion H as [| ? ? Hline Hrest]; subst. rewrite parseRows_cons, Hline.
    rewrite IH by exact Hrest. cbn [flat_map]. now rewrite <- app_assoc.
Qed.

Lemma parseRows_Throw (lines : list string) :
  forall i products message,
    parseRows i lines products = Throw message ->
    exists k line,
      nth_error lines k = Some line
      /\ offending line = true
      /\ (forall j l, (j < k)%nat -> nth_error lines j = Some l -> offending l = false)
      /\ message = invalidPackagingSize (i + k) (field 2 (cleanValuesOf line)).
Proof.
  induction lines as [| line rest IH]; intros i products message; [discriminate |].
  rewrite parseRows_cons. destruct (offending line) eqn:O.
  - intros [= <-]. exists 0%nat, line. repeat split; auto.
    + intros j l Hj. lia.
    + now rewrite Nat.add_0_r.
  - intros H. apply IH in H as (k & l & Hk & Ho & Hfirst & ->).
    exists (S k), l. repeat split; auto.
    + intros j l' Hj. destruct j as [| j]; cbn [nth_error].
      * now intros [= <-].
      * apply Hfirst. lia.
    + f_equal. lia.
Qed.

(** C6.  [parseCSV] throws exactly when one of the rows (the non-blank lines
    of the text) has at least three fields and a third field that
    [parseFloat] does not read as a number.  The error then names the first
    such row by its position among the rows, counted from 1, and quotes the
    field.  Rows with fewer than three fields are skipped: they never make
    the import fail and contribute no product. *)
Theorem parseCSV_fails_on_bad_packaging_size (text : string) :
  ((exists message, parseCSV text = Throw message)
   <-> Exists (fun line => offending line = true) (linesOf text))
  /\ (forall message, parseCSV text = Throw message ->
        exists i line,
          nth_error (linesOf text) i = Some line
          /\ (3 <= List.length (cleanValuesOf line))%nat
          /\ isNaN (parseFloat (field 2 (cleanValuesOf line))) = true
          /\ (forall j l, (j < i)%nat -> nth_error (linesOf text) j = Some l ->
                          offending l = false)
          /\ message = ("Invalid packaging size at row " ++ Z_to_string (Z.of_nat i + 1)
                          ++ ": " ++ String DQUOTE (field 2 (cleanValuesOf line)
                          ++ String DQUOTE EmptyString))%string)
  /\ (Forall (fun line => offending line = false) (linesOf text) ->
        parseCSV text = Normal (sortProducts (flat_map rowProducts (linesOf text))))
  /\ (forall line, (List.length (cleanValuesOf line) < 3)%nat ->
        offending line = false /\ rowProducts line = []).
Proof.
  unfold parseCSV. split; [| split; [| split]].
  - split.
    + intros [message H].
      destruct (parseRows 0 (linesOf text) []) as [products | m] eqn:E; [discriminate |].
      apply parseRows_Throw in E as (k & line & Hk & Ho & _).
      apply List.Exists_exists. exists line. split; [| exact Ho].
      eapply nth_error_In. exact Hk.
    + intros H. destruct (parseRows 0 (linesOf text) []) as [products | m] eqn:E; [| eauto].
      exfalso. apply parseRows_Normal in E as [F _].
      apply List.Exists_exists in H as (line & Hin & Ho).
      rewrite List.Forall_forall in F. specialize (F line Hin). congruence.
  - intros message H.
    destruct (parseRows 0 (linesOf text) []) as [products | m] eqn:E; [discriminate |].
    injection H as ->.
    apply parseRows_Throw in E as (k & line & Hk & Ho & Hfirst & ->).
    exists k, line. unfold offending in Ho. apply andb_prop in Ho as [O1 O2].
    repeat split; auto.
    + now apply Nat.leb_le.
    + unfold invalidPackagingSize. do 2 f_equal. f_equal. lia.
  - intros H. now rewrite (parseRows_clean _ 0%nat [] H).
  - intros line H. unfold offending, rowProducts.
    destruct (Nat.leb_spec 3 (List.length (cleanValuesOf line))); [lia | now split].
Qed.

(** ** Sorting *)

Section SortFacts.
Context {A : Type} (comparefn : A -> A -> number) (ok : A -> Prop).

(** The comparator is consistent on the elements that are [ok]. *)
Hypothesis before_asym :
  forall a b, ok a -> ok b ->
    before comparefn a b = true -> before comparefn b a = false.
Hypothesis before_negtrans :
  forall a b c, ok a -> ok b -> ok c ->
    before comparefn b a = false -> before comparefn c b = false ->
    before comparefn c a = false.

Lemma insertSorted_perm (x : A) (s : list A) :
  Permutation (x :: s) (insertSorted comparefn x s).
Proof.
  induction s as [| y rest IH]; cbn [insertSorted]; [reflexivity |].
  destruct (before comparefn y x); [| reflexivity].
  rewrite perm_swap. now constructor.
Qed.

Lemma sort_perm (l : list A) : Permutation l (sort comparefn l).
Proof.
  induction l as [| x l IH]; cbn [sort fold_right]; [constructor |].
  rewrite <- insertSorted_perm. now constructor.
Qed.






End SortFacts.










(** ** Import, count nothing, submit, export *)

Lemma append_cons (c : ascii) (s t : string) :
  (String c s ++ t)%string = String c (s ++ t)%string.
Proof. reflexivity. Qed.

Lemma append_nil_r (s : string) : (s ++ EmptyString)%string = s.
Proof. induction s as [| c s IH]; [reflexivity |]. rewrite append_cons. now f_equal. Qed.

Lemma append_assoc (s t u : string) : ((s ++ t) ++ u)%string = (s ++ (t ++ u))%string.
Proof. induction s as [| c s IH]; [reflexivity |]. rewrite !append_cons. now f_equal. Qed.

Lemma exportCount_rows (platform : Platform) (count : SavedCount) :
  exportCount platform count
  = (exportHeader ++ joinRows (map (exportRow platform) (SavedCount.items count)))%string.
Proof.
  unfold exportCount. generalize exportHeader as header.
  induction (SavedCount.items count) as [| item items IH]; intros header; cbn [fold_left map].
  - cbn. now rewrite append_nil_r.
  - rewrite IH. cbn [joinRows fold_right]. now rewrite append_assoc.
Qed.

Lemma getTotal_zeroCount (p : Product) :
  isFinite (Product.packagingSize p) = true -> getTotal (zeroCount p) = ofZ 0.
Proof.
  unfold getTotal, zeroCount. cbn [CountItem.packageCount CountItem.packagingSize
                                    CountItem.singleCount].
  destruct (Product.packagingSize p) as [| s | q]; try discriminate. intros _.
  assert (mul (ofZ 0) (Fin q) = ofZ 0) as ->.
  { unfold mul, ofZ. rewrite (double_compat _ (inject_Z 0)); [reflexivity | ring]. }
  reflexivity.
Qed.

Lemma find_appended (id : string) (ts : list FormTemplate) (t : FormTemplate) :
  Forall (fun t' => FormTemplate.id t' <> id) ts -> FormTemplate.id t = id ->
  List.find (fun t' => String.eqb (FormTemplate.id t') id) (ts ++ [t]) = Some t.
Proof.
  intros H E. induction H as [| t' ts Ht' _ IH]; cbn [List.app List.find].
  - apply String.eqb_eq in E. now rewrite E.
  - apply String.eqb_neq in Ht'. now rewrite Ht'.
Qed.

Lemma import_step (platform : Platform) (fileName text : string) (now : Z)
    (w : AppState * gmap string string) (p : Product) (ps : list Product) :
  parseCSV text = Normal (p :: ps) ->
  let w' := step platform (FileImport (Some (fileName, text)) now) w in
  templates (fst w')
  = templates (fst w)
      ++ [ {| FormTemplate.id := Z_to_string now;
              FormTemplate.name := removeExtension fileName;
              FormTemplate.products := p :: ps;
              FormTemplate.createdAt := toISOString platform now |} ]
  /\ savedCounts (fst w') = savedCounts (fst w).
Proof.
  intros H. destruct w as [s ls]. destruct s.
  unfold step, handle, handleFileImport. rewrite H. split; reflexivity.
Qed.

Lemma select_step (platform : Platform) (id : string) (w : AppState * gmap string string) :
  let w' := step platform (SelectTemplate id) w in
  selectedTemplateId (fst w') = id
  /\ templates (fst w') = templates (fst w)
  /\ savedCounts (fst w') = savedCounts (fst w).
Proof. destruct w as [s ls]. destruct s. repeat split. Qed.

Lemma start_step (platform : Platform) (w : AppState * gmap string string)
    (template : FormTemplate) :
  List.find (fun t => String.eqb (FormTemplate.id t) (selectedTemplateId (fst w)))
            (templates (fst w)) = Some template ->
  let w' := step platform StartCounting w in
  currentForm (fst w') = Some template
  /\ currentCounts (fst w') = map zeroCount (FormTemplate.products template)
  /\ savedCounts (fst w') = savedCounts (fst w).
Proof.
  destruct w as [s ls]. destruct s. cbn [fst templates selectedTemplateId]. intros H.
  unfold step, handle, startCounting. cbn [fst snd begin state templates selectedTemplateId].
  rewrite H. repeat split.
Qed.

Lemma submit_step (platform : Platform) (later : Z) (w : AppState * gmap string string)
    (form : FormTemplate) :
  currentForm (fst w) = Some form ->
  savedCounts (fst (step platform (SubmitCount later) w))
  = {| SavedCount.id := Z_to_string later;
       SavedCount.formName := FormTemplate.name form;
       SavedCount.timestamp := toISOString platform later;
       SavedCount.items := currentCounts (fst w) |} :: savedCounts (fst w).
Proof.
  destruct w as [s ls]. destruct s. cbn [fst currentForm]. intros ->. reflexivity.
Qed.

Lemma importCountSubmit_archive (platform : Platform) (fileName text : string)
    (now later : Z) (s : AppState) (ls : gmap string string) (products : list Product) :
  parseCSV text = Normal products -> products <> [] ->
  Forall (fun t => FormTemplate.id t <> Z_to_string now) (templates s) ->
  savedCounts (fst (run platform (importCountSubmit fileName text now later) (s, ls)))
  = {| SavedCount.id := Z_to_string later;
       SavedCount.formName := removeExtension fileName;
       SavedCount.timestamp := toISOString platform later;
       SavedCount.items := map zeroCount products |} :: savedCounts s.
Proof.
  intros Hparse Hne Hfresh. destruct products as [| p ps]; [contradiction |].
  unfold importCountSubmit, run. cbn [fold_left].
  destruct (import_step platform fileName text now (s, ls) p ps Hparse) as [T1 S1].
  set (w1 := step platform (FileImport (Some (fileName, text)) now) (s, ls)) in *.
  destruct (select_step platform (Z_to_string now) w1) as (I2 & T2 & S2).
  set (w2 := step platform (SelectTemplate (Z_to_string now)) w1) in *.
  cbn [fst] in T1, S1.
  destruct (start_step platform w2
              {| FormTemplate.id := Z_to_string now;
                 FormTemplate.name := removeExtension fileName;
                 FormTemplate.products := p :: ps;
                 FormTemplate.createdAt := toISOString platform now |}) as (F3 & C3 & S3).
  { rewrite I2, T2, T1. now apply find_appended. }
  set (w3 := step platform StartCounting w2) in *.
  rewrite (submit_step platform later w3 _ F3), C3, S3, S2, S1. reflexivity.
Qed.

(** C8.  The export does not quote what the import unquotes.  The import
    reads the row with the quoted name Gizmo, large as the product C with
    that name and the packaging size 6.  After a start and a submit the
    export of the entry has, under its header of six columns, the row
    C,Gizmo, large,6,0,0,0: seven fields, of which the second is Gizmo and
    the third, where the packaging size belongs, is large. *)
Theorem export_does_not_quote :
  let w := run examplePlatform (importCountSubmit "stock.csv" quotedNameFile 1000 2000)
             mountedEmpty in
  map FormTemplate.products (templates (fst w))
  = [[Product.mk "C" "Gizmo, large" (ofZ 6) None]]
  /\ map (exportCount examplePlatform) (savedCounts (fst w))
     = [(exportHeader ++ "C,Gizmo, large,6,0,0,0" ++ String LF EmptyString)%string]
  /\ map cleanValuesOf (linesOf (exportHeader ++ "C,Gizmo, large,6,0,0,0"))
     = [ ["Product ID"; "Product Name"; "Packaging Size"; "Package Count"; "Single Count";
          "Total"];
         ["C"; "Gizmo"; "large"; "6"; "0"; "0"; "0"] ].
Proof. vm_compute. repeat split. Qed.

(** * The properties at work on examples *)

(** The rounding on numbers whose doubles are known: adding 1 to [2 ^ 53]
    changes nothing, 0.1 + 0.2 is 0.30000000000000004, a product and two
    quotients of finite numbers overflow, 1 / 0.1 is 10 although the double
    0.1 is above one tenth, the quotient of [2 ^ 56] by 3 is rounded below
    its integer part, and the decimal texts around the largest double are
    read as they should. *)
Lemma rounding_at_work :
  add (ofZ (2 ^ 53)) (ofZ 1) = ofZ (2 ^ 53)
  /\ add (parseFloat "0.1") (parseFloat "0.2") = parseFloat "0.30000000000000004"
  /\ mul (parseFloat "1e200") (parseFloat "1e200") = Infinity
  /\ div (ofZ 1) (parseFloat "0.1") = ofZ 10
  /\ div (ofZ 1) (parseFloat "5e-324") = Infinity
  /\ div (parseFloat "1e308") (parseFloat "0.1") = Infinity
  /\ floor (div (ofZ (2 ^ 56)) (ofZ 3)) = ofZ 24019198012642644
  /\ (2 ^ 56 / 3 = 24019198012642645)%Z
  /\ parseFloat "1e-400" = ofZ 0
  /\ parseFloat "1.7976931348623157e308" = Fin (inject_Z (2 ^ 1024 - 2 ^ 971))
  /\ parseFloat "1.7976931348623159e308" = Infinity
  /\ parseInt (nines 308) (Some 10%Z) = parseFloat "1e308"
  /\ parseInt (nines 309) (Some 10%Z) = Infinity.
Proof. vm_compute. repeat split. Qed.

(** A submit on the initial state, where no template is selected: the draft
    comes back as it was given, nothing is alerted, and state and storage are
    unchanged; no error is raised. *)
Lemma submit_without_template_is_silent :
  currentForm initialState = None
  /\ submitCount examplePlatform 5000 (begin initialState ∅) = begin initialState ∅
  /\ alerts (submitCount examplePlatform 5000 (begin initialState ∅)) = []
  /\ step examplePlatform (SubmitCount 5000) mountedEmpty = mountedEmpty.
Proof. repeat split. Qed.

Lemma submit_archives_or_does_nothing_witness :
  let w := run examplePlatform enterSeven mountedEmpty in
  let w' := step examplePlatform (SubmitCount 5000) w in
  (exists form, currentForm (fst w) = Some form)
  /\ map SavedCount.formName (savedCounts (fst w')) = ["list"]
  /\ currentForm (fst w') = None
  /\ currentCounts (fst w') = []
  /\ snd w' !! sessionKey = None.
Proof.
  intros w w'.
  assert (exists form, currentForm (fst w) = Some form) as [form F]
    by (eexists; vm_compute; reflexivity).
  split; [now exists form |].
  destruct (proj2 (submit_archives_or_does_nothing examplePlatform 5000 (fst w) (snd w))
              form F) as (S & C & N & _ & _ & _ & K).
  repeat split; auto.
Defined.

(** The entry -5 on a plus button is applied: the count goes from 7 to 2. *)
Lemma negative_entry_is_applied :
  map CountItem.singleCount
      (currentCounts (fst (run examplePlatform enterSeven mountedEmpty))) = [ofZ 7]
  /\ enteredNumber (fst (run examplePlatform (enterSeven ++ typeMinusFive) mountedEmpty))
     = ofZ (-5)
  /\ map CountItem.singleCount
       (currentCounts
          (fst (run examplePlatform (enterSeven ++ typeMinusFive ++ [SubmitNumber])
                  mountedEmpty))) = [ofZ 2].
Proof. repeat split. Qed.

Lemma number_dialog_applies_nonzero_witness :
  let w := run examplePlatform (enterSeven ++ typeMinusFive) mountedEmpty in
  let d := begin (fst w) (snd w) in
  numberDialogProduct (state d) = Some (DialogTarget.mk "A" FieldSingle Plus)
  /\ handleNumberDialogSubmit d
     = setNumberDialogOpen false (updateSingleCount "A" (ofZ (-5)) d).
Proof.
  intros w d. split; [reflexivity |].
  destruct (number_dialog_applies_nonzero d (DialogTarget.mk "A" FieldSingle Plus) eq_refl)
    as (_ & _ & _ & Applied & _).
  apply Applied; vm_compute; discriminate.
Defined.


Lemma migrateLegacy_idempotent_witness :
  migrateCount (StoredCount.mk "1" "list" "2024" [migrateItem legacyDozen])
  = StoredCount.mk "1" "list" "2024" [migrateItem legacyDozen].
Proof.
  apply (proj2 (proj2 migrateLegacy_idempotent)).
  constructor; [| constructor]. eexists. eexists. split; reflexivity.
Defined.

(** A packaging size of one half is used as the divisor: 3 units are 6
    packages.  A negative one is used as well. *)
Lemma migration_divisor_below_one :
  packagingSizeOr1 legacyHalf = Fin (1 # 2)
  /\ ltb (packagingSizeOr1 legacyHalf) (ofZ 1) = true
  /\ StoredItem.packageCount (migrateItem legacyHalf) = Some (ofZ 6)
  /\ packagingSizeOr1 legacyNegative = ofZ (-3)
  /\ ltb (packagingSizeOr1 legacyNegative) (ofZ 1) = true.
Proof. repeat split. Qed.

Lemma migration_divisor_never_zero_witness :
  packagingSizeOr1 legacyHalf = Fin (1 # 2)
  /\ isNaN (floor (div (Fin 3) (packagingSizeOr1 legacyHalf))) = false
  /\ isNaN (rem (Fin 3) (packagingSizeOr1 legacyHalf)) = false.
Proof.
  split; [reflexivity |].
  exact (proj2 (proj2 (proj2 (proj2 (proj2 (migration_divisor_never_zero legacyHalf))))) 3%Q).
Defined.

Lemma parseCSV_fails_on_bad_packaging_size_witness :
  parseCSV badSecondRow
  = Throw ("Invalid packaging size at row 2: "
             ++ String DQUOTE ("dozen" ++ String DQUOTE EmptyString))%string
  /\ exists i line,
       nth_error (linesOf badSecondRow) i = Some line
       /\ (3 <= List.length (cleanValuesOf line))%nat
       /\ isNaN (parseFloat (field 2 (cleanValuesOf line))) = true.
Proof.
  split; [reflexivity |].
  destruct (proj1 (proj2 (parseCSV_fails_on_bad_packaging_size badSecondRow)) _ eq_refl)
    as (i & line & H1 & H2 & H3 & _).
  exists i, line. auto.
Defined.



Lemma session_key_mirrors_session_witness :
  let w := run examplePlatform enterSeven mountedEmpty in
  reachable examplePlatform w
  /\ snd w !! sessionKey = Some "session"
  /\ snd (step examplePlatform (SubmitCount 5000) w) !! sessionKey = None
  /\ snd (step examplePlatform CancelCount w) !! sessionKey = None.
Proof.
  intros w.
  assert (reachable examplePlatform w) as R.
  { subst w. unfold enterSeven, run. cbn [fold_left].
    repeat apply reachable_step. apply (reachable_mount examplePlatform ∅). reflexivity. }
  split; [exact R |].
  destruct (session_key_mirrors_session examplePlatform w R) as (M & S & C & _).
  split; [reflexivity |]. split; [apply S | exact C].
Defined.

(** * Further properties of the code *)

(** ** A press and its release *)

(** X1.  A release that follows a press made at a clock value other than 0:
    when less than 600 ms have passed the count of the button's product is
    adjusted by the button's sign (one unit, clamped at zero) and no dialog
    opens; from 600 ms on no count changes and the number dialog opens, empty,
    for that button.  Either way the press is forgotten, so that a second
    release changes nothing; so does a release without any press. *)
Theorem press_then_release (productId : string) (field : Field) (sign : Sign)
    (pressed released : Z) (d : Draft) :
  pressed <> 0%Z ->
  let up := handleCountButtonUp productId field sign released (handleCountButtonDown pressed d) in
  longPressStart (state up) = None
  /\ ((released - pressed < 600)%Z ->
        up = (match field with
              | FieldSingle => updateSingleCount productId (signValue sign)
              | FieldPackage => updatePackageCount productId (signValue sign)
              end) (setLongPressStart None d)
        /\ numberDialogOpen (state up) = numberDialogOpen (state d)
        /\ numberDialogValue (state up) = numberDialogValue (state d))
  /\ ((600 <= released - pressed)%Z ->
        currentCounts (state up) = currentCounts (state d)
        /\ sessionSet up = sessionSet d
        /\ numberDialogOpen (state up) = true
        /\ numberDialogProduct (state up) = Some (DialogTarget.mk productId field sign)
        /\ numberDialogValue (state up) = EmptyString)
  /\ (forall productId' field' sign' later,
        handleCountButtonUp productId' field' sign' later up = up)
  /\ (longPressStart (state d) = None ->
        forall later, handleCountButtonUp productId field sign later d = d).
Proof.
  intros Hpressed up. subst up. open_draft d.
  unfold handleCountButtonUp, handleCountButtonDown. cbn [setLongPressStart onApp state longPressStart].
  rewrite truthy_ofZ. destruct (Z.eqb_spec pressed 0) as [-> | _]; [contradiction |].
  cbn [negb]. rewrite sub_integers, geb_integers.
  destruct (Z.leb_spec 600 (released - pressed)) as [H | H].
  - split; [reflexivity |]. split; [intros; lia |]. split; [now intros |].
    split; [reflexivity |]. cbn. now intros ->.
  - assert (forall (A : Type) (x y : A), (if negb true then x else y) = y) as K by reflexivity.
    split; [now destruct field |]. split; [intros _; now destruct field |].
    split; [intros; lia |]. split; [now destruct field |]. cbn. now intros ->.
Qed.

(** ** Counts are never negative and never fractions *)

(** The clamp of the two count updates, on a count and a change without
    fraction. *)
Lemma clamp_whole (count delta : number) :
  wholeCount count -> integral delta -> wholeCount (max (ofZ 0) (add count delta)).
Proof.
  intros [-> | [-> | (c & Hc & ->)]] [-> | [[s ->] | [k ->]]];
    try (left; reflexivity).
  - destruct s; [left | right; left]; reflexivity.
  - right; left. reflexivity.
  - destruct s; right; [right; exists 0%Z; split; [lia | reflexivity] | left; reflexivity].
  - right. unfold add, ofZ.
    destruct (double_whole_value (inject_Z c + inject_Z k) (c + k)) as [[s E] | [z E]];
      [now rewrite inject_Z_plus | |]; rewrite E.
    + destruct s; [right; exists 0%Z; split; [lia | reflexivity] | left; reflexivity].
    + right. fold (ofZ 0). rewrite max_integers. exists (Z.max 0 z). split; [lia | reflexivity].
Qed.

Lemma clamp_atLeastZero (count : number) (delta : Z) :
  atLeastZero count -> atLeastZero (max (ofZ 0) (add count (ofZ delta))).
Proof.
  intros H. destruct (clamp_whole count (ofZ delta)) as [E | A];
    [now right | right; right; now exists delta | | exact A].
  exfalso. destruct H as [-> | (c & Hc & ->)]; [discriminate E |].
  unfold add, ofZ in E. pose proof (double_not_NaN (inject_Z c + inject_Z delta)) as N.
  destruct (double (inject_Z c + inject_Z delta)) as [| s | q]; try discriminate N.
  - now destruct s.
  - unfold max in E. now destruct (ltb _ _).
Qed.

Lemma mul_sign_integral (sign : Sign) (n : number) :
  integral n -> integral (mul (signValue sign) n).
Proof.
  intros [-> | [[s ->] | [z ->]]].
  - left. now destruct sign.
  - right; left. destruct sign; eexists; reflexivity.
  - right. rewrite signValue_integer. unfold mul, ofZ.
    apply (double_whole_value _ (signed sign 1 * z)). now rewrite inject_Z_mult.
Qed.

Lemma updateSingleCount_whole (productId : string) (delta : number) (d : Draft) :
  integral delta ->
  Forall itemWhole (currentCounts (state d)) ->
  Forall itemWhole (currentCounts (state (updateSingleCount productId delta d))).
Proof.
  rewrite updateSingleCount_counts.
  intros I H. induction H as [| item l [Hp Hs] _ IH]; cbn [map]; constructor; auto.
  destruct (String.eqb _ _); [| now split]. split; [exact Hp |].
  cbn [withSingleCount CountItem.singleCount]. now apply clamp_whole.
Qed.

Lemma updatePackageCount_whole (productId : string) (delta : number) (d : Draft) :
  integral delta ->
  Forall itemWhole (currentCounts (state d)) ->
  Forall itemWhole (currentCounts (state (updatePackageCount productId delta d))).
Proof.
  rewrite updatePackageCount_counts.
  intros I H. induction H as [| item l [Hp Hs] _ IH]; cbn [map]; constructor; auto.
  destruct (String.eqb _ _); [| now split]. split; [| exact Hs].
  cbn [withPackageCount CountItem.packageCount]. now apply clamp_whole.
Qed.

Lemma updateSingleCount_atLeastZero (productId : string) (delta : Z) (d : Draft) :
  Forall itemAtLeastZero (currentCounts (state d)) ->
  Forall itemAtLeastZero (currentCounts (state (updateSingleCount productId (ofZ delta) d))).
Proof.
  rewrite updateSingleCount_counts.
  intros H. induction H as [| item l [Hp Hs] _ IH]; cbn [map]; constructor; auto.
  destruct (String.eqb _ _); [| now split]. split; [exact Hp |].
  cbn [withSingleCount CountItem.singleCount]. now apply clamp_atLeastZero.
Qed.

Lemma updatePackageCount_atLeastZero (productId : string) (delta : Z) (d : Draft) :
  Forall itemAtLeastZero (currentCounts (state d)) ->
  Forall itemAtLeastZero (currentCounts (state (updatePackageCount productId (ofZ delta) d))).
Proof.
  rewrite updatePackageCount_counts.
  intros H. induction H as [| item l [Hp Hs] _ IH]; cbn [map]; constructor; auto.
  destruct (String.eqb _ _); [| now split]. split; [| exact Hs].
  cbn [withPackageCount CountItem.packageCount]. now apply clamp_atLeastZero.
Qed.

Lemma zeroCount_atLeastZero (products : list Product) :
  Forall itemAtLeastZero (map zeroCount products).
Proof.
  induction products; cbn [map]; constructor; auto.
  split; right; exists 0%Z; split; (lia || reflexivity).
Qed.

Lemma atLeastZero_whole (l : list CountItem) :
  Forall itemAtLeastZero l -> Forall itemWhole l.
Proof.
  intros H. eapply List.Forall_impl; [| exact H]. intros item [Hp Hs]. split; now right.
Qed.

(** Every handler keeps the counts without fraction and not negative. *)
Lemma handle_whole (platform : Platform) (e : Event) (d : Draft) :
  Forall itemWhole (currentCounts (state d)) ->
  Forall itemWhole (currentCounts (state (handle platform e d))).
Proof.
  intros H. destruct e; cbn [handle].
  - now open_draft d.
  - destruct (_ =? _)%nat; now open_draft d.
  - unfold handleFileImport. repeat case_match; now open_draft d.
  - unfold addProductToTemplate. repeat case_match; now open_draft d.
  - now open_draft d.
  - now open_draft d.
  - now open_draft d.
  - unfold saveTemplate. repeat case_match; now open_draft d.
  - unfold deleteTemplate. case_match; now open_draft d.
  - unfold deleteSavedCount. case_match; now open_draft d.
  - now open_draft d.
  - unfold startCounting. case_match; [| exact H].
    open_draft d. apply atLeastZero_whole, zeroCount_atLeastZero.
  - now open_draft d.
  - unfold handleCountButtonUp. repeat case_match; try exact H.
    + now open_draft d.
    + apply updateSingleCount_whole;
        [rewrite signValue_integer; right; right; eauto | now open_draft d].
    + apply updatePackageCount_whole;
        [rewrite signValue_integer; right; right; eauto | now open_draft d].
  - now open_draft d.
  - now open_draft d.
  - unfold handleNumberDialogSubmit.
    destruct (numberDialogProduct (state d)) as [target |]; [| exact H].
    pose proof (parseInt_integral
                  (if nonEmpty (numberDialogValue (state d))
                   then numberDialogValue (state d) else "0") (Some 10%Z)) as I.
    destruct (isNaN _ || strictEq _ _)%bool; [now open_draft d |].
    assert (forall d', Forall itemWhole (currentCounts (state d')) ->
                       Forall itemWhole (currentCounts (state (setNumberDialogOpen false d')))) as K
      by (intros d'; now open_draft d').
    apply K. destruct (DialogTarget.field target).
    + apply updateSingleCount_whole; [now apply mul_sign_integral | exact H].
    + apply updatePackageCount_whole; [now apply mul_sign_integral | exact H].
  - open_draft d. constructor.
  - unfold submitCount. case_match; [| exact H]. open_draft d. constructor.
  - unfold handleResumeSession. destruct resume; [now open_draft d |].
    open_draft d. constructor.
  - now open_draft d.
Qed.

Lemma keepDigitsAndMinus_length (typed : string) :
  (String.length (keepDigitsAndMinus typed) <= String.length typed)%nat.
Proof.
  induction typed as [| c r IH]; [reflexivity |]. cbn [keepDigitsAndMinus].
  destruct (_ || _)%bool; cbn [String.length]; lia.
Qed.

(** With short entries every handler keeps the counts at zero or above, and
    the text of the dialog short. *)
Lemma handle_atLeastZero (platform : Platform) (e : Event) (d : Draft) :
  shortEntry e ->
  Forall itemAtLeastZero (currentCounts (state d))
  /\ (String.length (numberDialogValue (state d)) <= 15)%nat ->
  Forall itemAtLeastZero (currentCounts (state (handle platform e d)))
  /\ (String.length (numberDialogValue (state (handle platform e d))) <= 15)%nat.
Proof.
  intros S [H L]. destruct e; cbn [handle].
  - now open_draft d.
  - destruct (_ =? _)%nat; now open_draft d.
  - unfold handleFileImport. repeat case_match; now open_draft d.
  - unfold addProductToTemplate. repeat case_match; now open_draft d.
  - now open_draft d.
  - now open_draft d.
  - now open_draft d.
  - unfold saveTemplate. repeat case_match; now open_draft d.
  - unfold deleteTemplate. case_match; now open_draft d.
  - unfold deleteSavedCount. case_match; now open_draft d.
  - now open_draft d.
  - unfold startCounting. case_match; [| now split].
    open_draft d. split; [apply zeroCount_atLeastZero | exact L].
  - now open_draft d.
  - unfold handleCountButtonUp. repeat case_match; try (now split).
    + open_draft d. split; [exact H | cbn; lia].
    + rewrite signValue_integer. split;
        [apply updateSingleCount_atLeastZero | ]; now open_draft d.
    + rewrite signValue_integer. split;
        [apply updatePackageCount_atLeastZero | ]; now open_draft d.
  - cbn [shortEntry] in S. pose proof (keepDigitsAndMinus_length typed) as K.
    open_draft d. split; [exact H | cbn in *; lia].
  - now open_draft d.
  - unfold handleNumberDialogSubmit.
    destruct (numberDialogProduct (state d)) as [target |]; [| now split].
    assert (String.length (if nonEmpty (numberDialogValue (state d))
                           then numberDialogValue (state d) else "0") <= 15)%nat as L'
      by (destruct (nonEmpty _); [exact L | cbn; lia]).
    assert (forall d', Forall itemAtLeastZero (currentCounts (state d'))
                       /\ (String.length (numberDialogValue (state d')) <= 15)%nat ->
              Forall itemAtLeastZero (currentCounts (state (setNumberDialogOpen false d')))
              /\ (String.length (numberDialogValue (state (setNumberDialogOpen false d')))
                  <= 15)%nat) as K
      by (intros d'; now open_draft d').
    destruct (parseInt_small _ L') as [-> | (z & B & ->)]; [now apply K |].
    destruct (isNaN _ || strictEq _ _)%bool; [now apply K |].
    assert (10 ^ 15 < 2 ^ 53)%Z as P by reflexivity.
    rewrite mul_sign_integer by lia.
    apply K. destruct (DialogTarget.field target); split;
      try (now apply updateSingleCount_atLeastZero);
      try (now apply updatePackageCount_atLeastZero); now open_draft d.
  - open_draft d. split; [constructor | exact L].
  - unfold submitCount. case_match; [| now split]. open_draft d. split; [constructor | exact L].
  - unfold handleResumeSession. destruct resume; [now open_draft d |].
    open_draft d. split; [constructor | exact L].
  - now open_draft d.
Qed.

Lemma run_whole (platform : Platform) (events : list Event) :
  forall w, Forall itemWhole (currentCounts (fst w)) ->
            Forall itemWhole (currentCounts (fst (run platform events w))).
Proof.
  induction events as [| e events IH]; intros w H; cbn [run fold_left]; [exact H |].
  apply IH. unfold step, commit. cbn [fst]. now apply handle_whole.
Qed.

Lemma run_atLeastZero (platform : Platform) (events : list Event) :
  Forall shortEntry events ->
  forall w,
    Forall itemAtLeastZero (currentCounts (fst w))
    /\ (String.length (numberDialogValue (fst w)) <= 15)%nat ->
    Forall itemAtLeastZero (currentCounts (fst (run platform events w))).
Proof.
  induction 1 as [| e events S _ IH]; intros w H; cbn [run fold_left]; [apply H |].
  apply IH. unfold step, commit. cbn [fst]. now apply handle_atLeastZero.
Qed.

Lemma mount_atLeastZero (platform : Platform) (ls : gmap string string) w :
  storedSessionNatural platform ls ->
  mount platform ls = Normal w ->
  Forall itemAtLeastZero (currentCounts (fst w))
  /\ (String.length (numberDialogValue (fst w)) <= 15)%nat.
Proof.
  intros Hls. unfold mount, loadEffect. simpl.
  assert (forall counts, Forall itemNatural counts -> Forall itemAtLeastZero counts) as W.
  { intros counts H. eapply List.Forall_impl; [| exact H]. intros item [Hp Hs].
    split; now right. }
  destruct (getItem templatesKey ls) as [t |];
    [destruct (parseTemplates platform t); [| discriminate] |];
    (destruct (getItem countsKey ls) as [c |];
      [destruct (parseSavedCounts platform c) |]);
    (destruct (getItem sessionKey ls) as [text |] eqn:E;
      [destruct (parseSession platform text) as [[form counts] |] eqn:P |]);
    intros [= <-]; simpl; (split; [| lia]); try constructor; apply W, (Hls _ _ _ E P).
Qed.

(** X2.  From a mount on a storage whose session (if any) has natural
    numbers as counts, after every sequence of events the package count and
    the single count of every record of the session are [NaN], [Infinity] or
    a natural number: never negative and never a fraction.  When no entry
    typed in the dialog has more than 15 characters they are natural numbers
    or [Infinity], hence at least zero.  Each adjustment replaces the count
    of the records of its product by [Math.max(0, count + delta)] and leaves
    every other field and record as it is. *)
Theorem counts_never_below_zero (platform : Platform) (ls : gmap string string)
    (w : AppState * gmap string string) (events : list Event) :
  storedSessionNatural platform ls ->
  mount platform ls = Normal w ->
  Forall itemWhole (currentCounts (fst (run platform events w)))
  /\ (Forall shortEntry events ->
        Forall (fun item => geb (CountItem.packageCount item) (ofZ 0) = true
                            /\ geb (CountItem.singleCount item) (ofZ 0) = true)
               (currentCounts (fst (run platform events w))))
  /\ (forall productId delta d,
        currentCounts (state (updateSingleCount productId delta d)) =
        map (fun item =>
               if String.eqb (CountItem.productId item) productId
               then CountItem.mk (CountItem.productId item) (CountItem.productName item)
                      (CountItem.packagingSize item) (CountItem.packageCount item)
                      (max (ofZ 0) (add (CountItem.singleCount item) delta))
               else item) (currentCounts (state d)))
  /\ (forall productId delta d,
        currentCounts (state (updatePackageCount productId delta d)) =
        map (fun item =>
               if String.eqb (CountItem.productId item) productId
               then CountItem.mk (CountItem.productId item) (CountItem.productName item)
                      (CountItem.packagingSize item)
                      (max (ofZ 0) (add (CountItem.packageCount item) delta))
                      (CountItem.singleCount item)
               else item) (currentCounts (state d))).
Proof.
  intros Hls Hmount.
  pose proof (mount_atLeastZero platform ls w Hls Hmount) as M.
  split; [apply run_whole, atLeastZero_whole, M |].
  split; [| split; [intros; now open_draft d | intros; now open_draft d]].
  intros S. pose proof (run_atLeastZero platform events S w M) as H.
  eapply List.Forall_impl; [| exact H]. intros item [Hp Hs].
  assert (forall n, atLeastZero n -> geb n (ofZ 0) = true) as G.
  { intros n [-> | (z & Hz & ->)]; [reflexivity |]. rewrite geb_integers.
    now apply Z.leb_le. }
  split; now apply G.
Qed.

(** ** What an adjustment touches *)

(** X3.  A press on plus followed by a press on minus of the same product
    gives back the counts as they were (the counts being natural numbers
    below [2 ^ 53], where adding one is exact), for the singles and for the
    packages.  The other order does not: a count of zero stays zero on minus
    and is one after the plus. *)
Theorem plus_then_minus_restores (productId : string) (d : Draft) :
  Forall itemSafe (currentCounts (state d)) ->
  currentCounts (state (updateSingleCount productId (signValue Minus)
                          (updateSingleCount productId (signValue Plus) d)))
  = currentCounts (state d)
  /\ currentCounts (state (updatePackageCount productId (signValue Minus)
                             (updatePackageCount productId (signValue Plus) d)))
     = currentCounts (state d)
  /\ (forall count : Z, (0 <= count < 2 ^ 53)%Z ->
        max (ofZ 0) (add (max (ofZ 0) (add (ofZ count) (signValue Minus))) (signValue Plus))
        = ofZ (Z.max 1 count)).
Proof.
  intros H. rewrite !updateSingleCount_counts, !updatePackageCount_counts, !map_map.
  split; [| split].
  - induction H as [| item l [_ (z & Hz & Es)] _ IH]; cbn [map]; [reflexivity |].
    rewrite IH. f_equal. destruct item as [id name size packages singles].
    cbn [CountItem.singleCount CountItem.productId] in *. subst singles.
    unfold withSingleCount. cbv beta.
    cbn [CountItem.productId CountItem.productName CountItem.packagingSize
         CountItem.packageCount CountItem.singleCount].
    destruct (String.eqb id productId) eqn:E;
      cbn [CountItem.productId CountItem.productName CountItem.packagingSize
           CountItem.packageCount CountItem.singleCount]; rewrite E; [| reflexivity].
    rewrite !signValue_integer. cbn [signed].
    rewrite (clamp_integers z 1) by lia. rewrite clamp_integers by lia.
    replace (Z.max 0 (Z.max 0 (z + 1) + - (1))) with z by lia. reflexivity.
  - induction H as [| item l [(z & Hz & Ep) _] _ IH]; cbn [map]; [reflexivity |].
    rewrite IH. f_equal. destruct item as [id name size packages singles].
    cbn [CountItem.packageCount CountItem.productId] in *. subst packages.
    unfold withPackageCount. cbv beta.
    cbn [CountItem.productId CountItem.productName CountItem.packagingSize
         CountItem.packageCount CountItem.singleCount].
    destruct (String.eqb id productId) eqn:E;
      cbn [CountItem.productId CountItem.productName CountItem.packagingSize
           CountItem.packageCount CountItem.singleCount]; rewrite E; [| reflexivity].
    rewrite !signValue_integer. cbn [signed].
    rewrite (clamp_integers z 1) by lia. rewrite clamp_integers by lia.
    replace (Z.max 0 (Z.max 0 (z + 1) + - (1))) with z by lia. reflexivity.
  - intros count Hc. rewrite !signValue_integer. cbn [signed].
    rewrite clamp_integers by lia. rewrite clamp_integers by lia.
    f_equal. lia.
Qed.

(** X4.  An adjustment of the singles leaves the number and the order of the
    records, their identifiers, names, packaging sizes and package counts as
    they are, and does not change any record of another product; with an
    identifier that no record has it changes nothing.  The same holds for an
    adjustment of the packages, with the single counts kept. *)
Theorem adjustment_touches_one_product (productId : string) (delta : number) (d : Draft) :
  let single := currentCounts (state (updateSingleCount productId delta d)) in
  let package := currentCounts (state (updatePackageCount productId delta d)) in
  let before := currentCounts (state d) in
  let other := fun item => negb (String.eqb (CountItem.productId item) productId) in
  map (fun item => (CountItem.productId item, CountItem.productName item,
                    CountItem.packagingSize item, CountItem.packageCount item)) single
  = map (fun item => (CountItem.productId item, CountItem.productName item,
                      CountItem.packagingSize item, CountItem.packageCount item)) before
  /\ map (fun item => (CountItem.productId item, CountItem.productName item,
                       CountItem.packagingSize item, CountItem.singleCount item)) package
     = map (fun item => (CountItem.productId item, CountItem.productName item,
                         CountItem.packagingSize item, CountItem.singleCount item)) before
  /\ List.filter other single = List.filter other before
  /\ List.filter other package = List.filter other before
  /\ (Forall (fun item => CountItem.productId item <> productId) before ->
        single = before /\ package = before).
Proof.
  intros single package before other. subst single package before other.
  rewrite updateSingleCount_counts, updatePackageCount_counts.
  induction (currentCounts (state d)) as [| item l (IH1 & IH2 & IH3 & IH4 & IH5)].
  - repeat split.
  - cbn [map List.filter]. rewrite IH1, IH2.
    destruct (String.eqb (CountItem.productId item) productId) eqn:E.
    + unfold withSingleCount, withPackageCount.
      cbn [CountItem.productId CountItem.productName CountItem.packagingSize
           CountItem.packageCount CountItem.singleCount].
      rewrite E. cbn [negb].
      split; [reflexivity |]. split; [reflexivity |]. split; [exact IH3 |].
      split; [exact IH4 |].
      intros F. inversion F as [| ? ? Hne _]; subst.
      apply String.eqb_neq in Hne. congruence.
    + rewrite E. cbn [negb]. rewrite IH3, IH4.
      split; [reflexivity |]. split; [reflexivity |]. split; [reflexivity |].
      split; [reflexivity |].
      intros F. inversion F as [| ? ? _ F']; subst. destruct (IH5 F') as [E1 E2].
      now rewrite E1, E2.
Qed.

(** ** The records of a session follow its template *)

Lemma updateSingleCount_follows (productId : string) (delta : number) (d : Draft) :
  recordsFollow (currentForm (state d)) (currentCounts (state d)) ->
  recordsFollow (currentForm (state (updateSingleCount productId delta d)))
                (currentCounts (state (updateSingleCount productId delta d))).
Proof.
  rewrite updateSingleCount_counts.
  assert (currentForm (state (updateSingleCount productId delta d)) = currentForm (state d)) as ->
    by now open_draft d.
  assert (forall l, map recordIdentity
            (map (fun item => if String.eqb (CountItem.productId item) productId
                              then withSingleCount item
                                     (max (ofZ 0) (add (CountItem.singleCount item) delta))
                              else item) l) = map recordIdentity l) as K.
  { intros l. rewrite map_map. apply map_ext. intros item. now destruct (String.eqb _ _). }
  unfold recordsFollow. destruct (currentForm (state d)).
  - now rewrite K.
  - now intros ->.
Qed.

Lemma updatePackageCount_follows (productId : string) (delta : number) (d : Draft) :
  recordsFollow (currentForm (state d)) (currentCounts (state d)) ->
  recordsFollow (currentForm (state (updatePackageCount productId delta d)))
                (currentCounts (state (updatePackageCount productId delta d))).
Proof.
  rewrite updatePackageCount_counts.
  assert (currentForm (state (updatePackageCount productId delta d)) = currentForm (state d)) as ->
    by now open_draft d.
  assert (forall l, map recordIdentity
            (map (fun item => if String.eqb (CountItem.productId item) productId
                              then withPackageCount item
                                     (max (ofZ 0) (add (CountItem.packageCount item) delta))
                              else item) l) = map recordIdentity l) as K.
  { intros l. rewrite map_map. apply map_ext. intros item. now destruct (String.eqb _ _). }
  unfold recordsFollow. destruct (currentForm (state d)).
  - now rewrite K.
  - now intros ->.
Qed.

Lemma zeroCount_follows (template : FormTemplate) :
  recordsFollow (Some template) (map zeroCount (FormTemplate.products template)).
Proof. unfold recordsFollow. rewrite map_map. now apply map_ext. Qed.

Lemma handle_follows (platform : Platform) (e : Event) (d : Draft) :
  recordsFollow (currentForm (state d)) (currentCounts (state d)) ->
  recordsFollow (currentForm (state (handle platform e d)))
                (currentCounts (state (handle platform e d))).
Proof.
  intros H. destruct e; cbn [handle].
  - now open_draft d.
  - destruct (_ =? _)%nat; now open_draft d.
  - unfold handleFileImport. repeat case_match; now open_draft d.
  - unfold addProductToTemplate. repeat case_match; now open_draft d.
  - now open_draft d.
  - now open_draft d.
  - now open_draft d.
  - unfold saveTemplate. repeat case_match; now open_draft d.
  - unfold deleteTemplate. case_match; now open_draft d.
  - unfold deleteSavedCount. case_match; now open_draft d.
  - now open_draft d.
  - unfold startCounting. case_match; [| exact H].
    open_draft d. apply zeroCount_follows.
  - now open_draft d.
  - unfold handleCountButtonUp. repeat case_match; try exact H.
    + now open_draft d.
    + apply updateSingleCount_follows. now open_draft d.
    + apply updatePackageCount_follows. now open_draft d.
  - now open_draft d.
  - now open_draft d.
  - unfold handleNumberDialogSubmit.
    destruct (numberDialogProduct (state d)) as [target |]; [| exact H].
    assert (forall d', recordsFollow (currentForm (state d')) (currentCounts (state d')) ->
              recordsFollow (currentForm (state (setNumberDialogOpen false d')))
                            (currentCounts (state (setNumberDialogOpen false d')))) as K
      by (intros d'; now open_draft d').
    destruct (_ || _)%bool; [now apply K |].
    apply K. destruct (DialogTarget.field target).
    + now apply updateSingleCount_follows.
    + now apply updatePackageCount_follows.
  - now open_draft d.
  - unfold submitCount. destruct (currentForm (state d)) eqn:F; [now open_draft d |].
    now rewrite F.
  - unfold handleResumeSession. destruct resume; now open_draft d.
  - now open_draft d.
Qed.

Lemma run_follows (platform : Platform) (events : list Event) :
  forall w, recordsFollow (currentForm (fst w)) (currentCounts (fst w)) ->
            recordsFollow (currentForm (fst (run platform events w)))
                          (currentCounts (fst (run platform events w))).
Proof.
  induction events as [| e events IH]; intros w H; cbn [run fold_left]; [exact H |].
  apply IH. unfold step, commit. cbn [fst]. now apply handle_follows.
Qed.

Lemma mount_follows (platform : Platform) (ls : gmap string string) w :
  storedSessionFollows platform ls ->
  mount platform ls = Normal w ->
  recordsFollow (currentForm (fst w)) (currentCounts (fst w)).
Proof.
  intros Hls. unfold mount, loadEffect. simpl.
  destruct (getItem templatesKey ls) as [t |];
    [destruct (parseTemplates platform t); [| discriminate] |];
    (destruct (getItem countsKey ls) as [c |];
      [destruct (parseSavedCounts platform c) |]);
    (destruct (getItem sessionKey ls) as [text |] eqn:E;
      [destruct (parseSession platform text) as [[form counts] |] eqn:P |]);
    intros [= <-]; simpl; try reflexivity; apply (Hls _ _ _ E P).
Qed.

(** X5.  From a mount on a storage whose session (if any) has one record per
    product of its template, after every sequence of events: when no
    template is selected the session has no record, and when one is selected
    the session has exactly one record per product of the template, in the
    template's order, with the product's identifier, name and packaging
    size. *)
Theorem records_follow_template (platform : Platform) (ls : gmap string string)
    (w : AppState * gmap string string) (events : list Event) :
  storedSessionFollows platform ls ->
  mount platform ls = Normal w ->
  let s := fst (run platform events w) in
  (currentForm s = None -> currentCounts s = [])
  /\ (forall template, currentForm s = Some template ->
        List.length (currentCounts s) = List.length (FormTemplate.products template)
        /\ map CountItem.productId (currentCounts s)
           = map Product.id (FormTemplate.products template)
        /\ map CountItem.productName (currentCounts s)
           = map Product.name (FormTemplate.products template)
        /\ map CountItem.packagingSize (currentCounts s)
           = map Product.packagingSize (FormTemplate.products template)).
Proof.
  intros Hls Hmount s.
  pose proof (run_follows platform events w (mount_follows platform ls w Hls Hmount)) as H.
  fold s in H. unfold recordsFollow in H. split.
  - intros E. now rewrite E in H.
  - intros template E. rewrite E in H.
    split; [| split; [| split]].
    + apply (f_equal (@List.length _)) in H. now rewrite !length_map in H.
    + apply (f_equal (map (fun x => fst (fst x)))) in H. now rewrite !map_map in H.
    + apply (f_equal (map (fun x => snd (fst x)))) in H. now rewrite !map_map in H.
    + apply (f_equal (map snd)) in H. now rewrite !map_map in H.
Qed.

(** ** The stored templates and the stored archive mirror the state *)

Lemma sessionEffect_other (platform : Platform) (s : AppState) (ls : gmap string string)
    (key : string) :
  key <> sessionKey -> sessionEffect platform s ls !! key = ls !! key.
Proof.
  intros H. unfold sessionEffect.
  destruct (currentForm s); [destruct (0 <? _)%nat |];
    rewrite ?lookup_insert_ne, ?lookup_delete_ne by congruence; reflexivity.
Qed.

Lemma commit_templates_key (platform : Platform) (d : Draft) :
  snd (commit platform d) !! templatesKey
  = if templatesSet d then Some (stringifyTemplates platform (templates (state d)))
    else storage d !! templatesKey.
Proof.
  unfold commit. cbn [snd].
  assert (forall ls, (if sessionSet d then sessionEffect platform (state d) ls else ls)
                       !! templatesKey = ls !! templatesKey) as ->
    by (intros ls; destruct (sessionSet d); [now apply sessionEffect_other | reflexivity]).
  unfold savedCountsEffect, templatesEffect.
  destruct (savedCountsSet d), (templatesSet d);
    rewrite ?lookup_insert_ne by discriminate; rewrite ?lookup_insert_eq; reflexivity.
Qed.

Lemma commit_counts_key (platform : Platform) (d : Draft) :
  snd (commit platform d) !! countsKey
  = if savedCountsSet d then Some (stringifySavedCounts platform (savedCounts (state d)))
    else storage d !! countsKey.
Proof.
  unfold commit. cbn [snd].
  assert (forall ls, (if sessionSet d then sessionEffect platform (state d) ls else ls)
                       !! countsKey = ls !! countsKey) as ->
    by (intros ls; destruct (sessionSet d); [now apply sessionEffect_other | reflexivity]).
  unfold savedCountsEffect, templatesEffect.
  destruct (savedCountsSet d), (templatesSet d);
    rewrite ?lookup_insert_eq; rewrite ?lookup_insert_ne by discriminate; reflexivity.
Qed.

(** A handler that has not set the templates (the archive) has left them,
    and their stored texts, as they were. *)
Lemma handle_other_keys (platform : Platform) (e : Event) (s : AppState)
    (ls : gmap string string) :
  let d := handle platform e (begin s ls) in
  (templatesSet d = false -> templates (state d) = templates s)
  /\ (savedCountsSet d = false -> savedCounts (state d) = savedCounts s)
  /\ storage d !! templatesKey = ls !! templatesKey
  /\ storage d !! countsKey = ls !! countsKey.
Proof.
  destruct s.
  destruct e; cbn [handle];
    unfold handleFileImport, addProductToTemplate, saveTemplate, deleteTemplate,
      deleteSavedCount, startCounting, handleCountButtonUp, handleNumberDialogSubmit,
      submitCount, handleResumeSession;
    simpl; repeat case_match; simpl;
    rewrite ?lookup_delete_ne by discriminate;
    repeat split; auto; discriminate.
Qed.

Lemma step_other_keys (platform : Platform) (e : Event) (w : AppState * gmap string string) :
  snd w !! templatesKey = Some (stringifyTemplates platform (templates (fst w))) ->
  snd w !! countsKey = Some (stringifySavedCounts platform (savedCounts (fst w))) ->
  let w' := step platform e w in
  snd w' !! templatesKey = Some (stringifyTemplates platform (templates (fst w')))
  /\ snd w' !! countsKey = Some (stringifySavedCounts platform (savedCounts (fst w'))).
Proof.
  intros HT HC w'. subst w'. unfold step.
  destruct (handle_other_keys platform e (fst w) (snd w)) as (T & C & KT & KC).
  rewrite commit_templates_key, commit_counts_key.
  assert (forall d, fst (commit platform d) = state d) as -> by reflexivity.
  split.
  - destruct (templatesSet _) eqn:E; [reflexivity |]. now rewrite KT, (T eq_refl).
  - destruct (savedCountsSet _) eqn:E; [reflexivity |]. now rewrite KC, (C eq_refl).
Qed.

Lemma mount_other_keys (platform : Platform) (ls : gmap string string) w :
  mount platform ls = Normal w ->
  snd w !! templatesKey = Some (stringifyTemplates platform (templates (fst w)))
  /\ snd w !! countsKey = Some (stringifySavedCounts platform (savedCounts (fst w))).
Proof.
  unfold mount. destruct (loadEffect platform (begin initialState ls)) as [d |] eqn:E;
    [| discriminate].
  intros [= <-]. rewrite commit_templates_key, commit_counts_key.
  assert (forall d, fst (commit platform d) = state d) as -> by reflexivity.
  revert E. unfold loadEffect. simpl.
  destruct (getItem templatesKey ls) as [t |];
    [destruct (parseTemplates platform t); [| discriminate] |];
    (destruct (getItem countsKey ls) as [c |];
      [destruct (parseSavedCounts platform c) |]);
    (destruct (getItem sessionKey ls) as [text |];
      [destruct (parseSession platform text) as [[form counts] |] |]);
    intros [= <-]; simpl; unfold sessionEffect, savedCountsEffect, templatesEffect; simpl;
    rewrite ?lookup_delete_ne by discriminate;
    rewrite ?lookup_insert_eq; rewrite ?lookup_insert_ne by discriminate;
    rewrite ?lookup_insert_eq; split; reflexivity.
Qed.

(** X6.  In every state the component reaches from a mount, the templates key
    of the storage holds the text of the list of templates of the state and
    the counts key holds the text of the archive of the state: every import,
    save, deletion and submit is stored by the step that makes it. *)
Theorem templates_and_archive_are_stored (platform : Platform)
    (w : AppState * gmap string string) :
  reachable platform w ->
  snd w !! templatesKey = Some (stringifyTemplates platform (templates (fst w)))
  /\ snd w !! countsKey = Some (stringifySavedCounts platform (savedCounts (fst w))).
Proof.
  induction 1 as [ls w Hmount | e w _ [IHT IHC]].
  - now apply (mount_other_keys platform ls).
  - now apply step_other_keys.
Qed.

(** ** Mounting *)

(** X7.  What a mount finds in the session key.  A text that parses is loaded
    as the session and the resume dialog is raised over the start view;
    Resume then shows the count screen with the session untouched, and
    Discard empties the session and removes the stored one.  Without a text,
    or with a text that does not parse, there is no session, no dialog and no
    stored session. *)
Theorem mount_recovers_session (platform : Platform) (ls : gmap string string)
    (w : AppState * gmap string string) :
  mount platform ls = Normal w ->
  (forall text form counts,
     getItem sessionKey ls = Some text ->
     parseSession platform text = Some (form, counts) ->
     currentForm (fst w) = Some form
     /\ currentCounts (fst w) = counts
     /\ resumeSessionDialogOpen (fst w) = true
     /\ view (fst w) = ViewStart
     /\ (let resumed := fst (step platform (ResumeSession true) w) in
         view resumed = ViewCount /\ currentForm resumed = Some form
         /\ currentCounts resumed = counts /\ resumeSessionDialogOpen resumed = false)
     /\ (let discarded := step platform (ResumeSession false) w in
         view (fst discarded) = ViewStart /\ currentForm (fst discarded) = None
         /\ currentCounts (fst discarded) = []
         /\ resumeSessionDialogOpen (fst discarded) = false
         /\ snd discarded !! sessionKey = None))
  /\ (getItem sessionKey ls = None
      \/ (exists text, getItem sessionKey ls = Some text /\ parseSession platform text = None) ->
      currentForm (fst w) = None
      /\ currentCounts (fst w) = []
      /\ resumeSessionDialogOpen (fst w) = false
      /\ snd w !! sessionKey = None).
Proof.
  intros Hmount. pose proof (mount_mirrored platform ls w Hmount) as M.
  revert Hmount M. unfold mount, loadEffect. simpl.
  destruct (getItem templatesKey ls) as [t |];
    [destruct (parseTemplates platform t); [| discriminate] |];
    (destruct (getItem countsKey ls) as [c |];
      [destruct (parseSavedCounts platform c) |]);
    (destruct (getItem sessionKey ls) as [text |];
      [destruct (parseSession platform text) as [[form counts] |] eqn:P |]);
    intros [= <-] M; (split;
      [ intros text' form' counts' [= <-] P'; rewrite P' in P; try discriminate;
        injection P as <- <-; repeat split;
        unfold step, commit; simpl; apply sessionEffect_lookup
      | intros [E | (text' & [= <-] & P')]; try discriminate; try congruence;
        repeat split; exact M ]).
Qed.

(** X8.  A mount throws exactly when the templates key holds a text that does
    not parse.  When it does not throw, a counts key whose text does not parse
    gives an empty archive, one whose text parses gives the migrated records,
    and the templates are those parsed (none without a text). *)
Theorem mount_throws_only_on_templates (platform : Platform) (ls : gmap string string) :
  ((exists message, mount platform ls = Throw message)
   <-> exists text, getItem templatesKey ls = Some text
                    /\ parseTemplates platform text = None)
  /\ (forall w, mount platform ls = Normal w ->
        (forall text, getItem countsKey ls = Some text ->
           savedCounts (fst w)
           = match parseSavedCounts platform text with
             | Some parsed => map asSavedCount (migrateLegacy parsed)
             | None => []
             end)
        /\ (getItem countsKey ls = None -> savedCounts (fst w) = [])
        /\ (forall text ts, getItem templatesKey ls = Some text ->
              parseTemplates platform text = Some ts -> templates (fst w) = ts)
        /\ (getItem templatesKey ls = None -> templates (fst w) = [])).
Proof.
  unfold mount, loadEffect. simpl.
  destruct (getItem templatesKey ls) as [t |];
    [destruct (parseTemplates platform t) eqn:T |];
    (destruct (getItem countsKey ls) as [c |];
      [destruct (parseSavedCounts platform c) eqn:C |]);
    (destruct (getItem sessionKey ls) as [text |];
      [destruct (parseSession platform text) as [[form counts] |] |]);
    (split;
      [ split;
        [ intros [message H]; try discriminate H; eauto
        | intros (text' & H & P); try discriminate H; injection H as <-;
          try congruence; eauto ]
      | intros w H; try discriminate H; injection H as <-; simpl;
        (split;
          [ intros text' H'; try discriminate H'; injection H' as <-; rewrite ?C; reflexivity
          | split;
            [ intros H'; try discriminate H'; reflexivity
            | split;
              [ intros text' ts H' P'; try discriminate H'; injection H' as <-; congruence
              | intros H'; try discriminate H'; reflexivity ] ] ]) ]).
Qed.

(** X9.  No handler opens the resume dialog: once it is closed (it is closed
    by either answer) it stays closed whatever happens next, so that the
    dialog is raised at most once, by the mount. *)
Theorem resume_dialog_never_reopens (platform : Platform) (events : list Event)
    (w : AppState * gmap string string) :
  resumeSessionDialogOpen (fst w) = false ->
  resumeSessionDialogOpen (fst (run platform events w)) = false
  /\ (forall resume w0,
        resumeSessionDialogOpen
          (fst (run platform events (step platform (ResumeSession resume) w0))) = false).
Proof.
  assert (forall e s ls, resumeSessionDialogOpen s = false ->
            resumeSessionDialogOpen (state (handle platform e (begin s ls))) = false) as K.
  { intros e s ls H. destruct s. cbn [resumeSessionDialogOpen] in H. subst.
    destruct e; cbn [handle];
      unfold handleFileImport, addProductToTemplate, saveTemplate, deleteTemplate,
        deleteSavedCount, startCounting, handleCountButtonUp, handleNumberDialogSubmit,
        submitCount, handleResumeSession;
      simpl; repeat case_match; reflexivity. }
  assert (forall evs w', resumeSessionDialogOpen (fst w') = false ->
            resumeSessionDialogOpen (fst (run platform evs w')) = false) as R.
  { induction evs as [| e evs IH]; intros w' H; cbn [run fold_left]; [exact H |].
    apply IH. unfold step, commit. cbn [fst]. now apply K. }
  intros H. split; [now apply R |].
  intros resume [s ls]. apply R. destruct s, resume; reflexivity.
Qed.

(** ** Import *)

Lemma sort_nil_inv {A : Type} (comparefn : A -> A -> number) (l : list A) :
  sort comparefn l = [] -> l = [].
Proof.
  intros H. pose proof (sort_perm comparefn l) as P. rewrite H in P.
  now apply Permutation_sym, Permutation_nil in P.
Qed.



(** ** An export is not an import *)

Lemma linesOf_export (rest : string) :
  exists lines,
    linesOf (exportHeader ++ rest)
    = "Product ID,Product Name,Packaging Size,Package Count,Single Count,Total" :: lines.
Proof.
  unfold linesOf, exportHeader. rewrite append_assoc.
  match goal with |- context [splitLines ?t] =>
    assert (splitLines t
            = "Product ID,Product Name,Packaging Size,Package Count,Single Count,Total"
                :: splitLines rest) as -> by reflexivity end.
  cbn [List.filter]. eexists. reflexivity.
Qed.

(** X11.  The text of an export is never accepted by the import: its first
    row is the header, whose third field is the words Packaging Size, so
    [parseCSV] throws on row 1 for every archive entry, and importing the
    text adds no template. *)
Theorem export_is_not_importable (platform : Platform) (count : SavedCount) :
  parseCSV (exportCount platform count)
  = Throw (invalidPackagingSize 0 "Packaging Size")
  /\ (forall fileName now s ls,
        let d := handleFileImport platform (Some (fileName, exportCount platform count)) now
                   (begin s ls) in
        templates (state d) = templates s
        /\ importError (state d) = invalidPackagingSize 0 "Packaging Size").
Proof.
  assert (parseCSV (exportCount platform count)
          = Throw (invalidPackagingSize 0 "Packaging Size")) as E.
  { rewrite exportCount_rows. unfold parseCSV.
    destruct (linesOf_export (joinRows (map (exportRow platform) (SavedCount.items count))))
      as [lines ->].
    rewrite parseRows_cons. reflexivity. }
  split; [exact E |].
  intros fileName now s ls d. subst d. unfold handleFileImport. rewrite E.
  destruct s. split; reflexivity.
Qed.

(** ** The fields of a line *)

Lemma concat_last_append (sep : string) (l : list string) (x s : string) :
  String.concat sep (l ++ [(x ++ s)%string]) = (String.concat sep (l ++ [x]) ++ s)%string.
Proof.
  induction l as [| y l IH]; [reflexivity |].
  destruct l as [| z l]; cbn [List.app String.concat] in *.
  - now rewrite !append_assoc.
  - rewrite IH. now rewrite !append_assoc.
Qed.

Lemma concat_snoc (sep : string) (l : list string) (x y : string) :
  String.concat sep ((l ++ [x]) ++ [y])
  = (String.concat sep (l ++ [x]) ++ sep ++ y)%string.
Proof.
  induction l as [| z l IH]; [reflexivity |].
  destruct l as [| z' l]; cbn [List.app String.concat] in *.
  - now rewrite !append_assoc.
  - rewrite IH. now rewrite !append_assoc.
Qed.

Lemma scanLine_join (line : string) :
  forall values current inQuotes,
    String.concat "," (scanLine line values current inQuotes)
    = (String.concat "," (values ++ [current]) ++ dropQuotes line)%string.
Proof.
  induction line as [| c rest IH]; intros values current inQuotes; cbn [scanLine dropQuotes].
  - now rewrite append_nil_r.
  - destruct (Ascii.eqb c DQUOTE) eqn:Q; [apply IH |].
    destruct (Ascii.eqb c COMMA && negb inQuotes)%bool eqn:K.
    + apply andb_prop in K as [K _]. apply Ascii.eqb_eq in K. subst c.
      rewrite IH, concat_snoc, !append_assoc. reflexivity.
    + rewrite IH, concat_last_append, !append_assoc. reflexivity.
Qed.

Lemma hasQuote_append (s t : string) :
  hasQuote (s ++ t) = (hasQuote s || hasQuote t)%bool.
Proof.
  induction s as [| c s IH]; [reflexivity |].
  rewrite append_cons. cbn [hasQuote]. now rewrite IH, orb_assoc.
Qed.

Lemma scanLine_no_quote (line : string) :
  forall values current inQuotes,
    Forall (fun v => hasQuote v = false) values -> hasQuote current = false ->
    Forall (fun v => hasQuote v = false) (scanLine line values current inQuotes).
Proof.
  induction line as [| c rest IH]; intros values current inQuotes Hv Hc; cbn [scanLine].
  - apply Forall_app. split; [exact Hv | now constructor].
  - destruct (Ascii.eqb c DQUOTE) eqn:Q; [now apply IH |].
    destruct (Ascii.eqb c COMMA && negb inQuotes)%bool.
    + apply IH; [| reflexivity]. apply Forall_app. split; [exact Hv | now constructor].
    + apply IH; [exact Hv |]. rewrite hasQuote_append, Hc. cbn [hasQuote orb]. now rewrite Q.
Qed.

Lemma trimStart_no_quote (s : string) : hasQuote s = false -> hasQuote (trimStart s) = false.
Proof.
  induction s as [| c s IH]; [reflexivity |]. cbn [trimStart hasQuote].
  intros H. apply orb_false_elim in H as [H1 H2].
  destruct (isWhiteSpace c); [now apply IH |]. cbn [hasQuote]. now rewrite H1, H2.
Qed.

Lemma trimEnd_no_quote (s : string) : hasQuote s = false -> hasQuote (trimEnd s) = false.
Proof.
  induction s as [| c s IH]; [reflexivity |]. cbn [trimEnd hasQuote].
  intros H. apply orb_false_elim in H as [H1 H2]. specialize (IH H2).
  destruct (trimEnd s) as [| c' s'].
  - destruct (isWhiteSpace c); [reflexivity |]. cbn [hasQuote]. now rewrite H1.
  - cbn [hasQuote] in *. now rewrite H1, IH.
Qed.

Lemma dropLastQuote_no_quote (s : string) : hasQuote s = false -> dropLastQuote s = s.
Proof.
  induction s as [| c s IH]; [reflexivity |]. cbn [hasQuote].
  intros H. apply orb_false_elim in H as [H1 H2]. cbn [dropLastQuote].
  destruct s as [| c' s']; [now rewrite H1 |]. now rewrite (IH H2).
Qed.

Lemma stripQuotes_no_quote (s : string) : hasQuote s = false -> stripQuotes s = s.
Proof.
  intros H. destruct s as [| c s]; [reflexivity |]. unfold stripQuotes.
  pose proof H as H'. cbn [hasQuote] in H'. apply orb_false_elim in H' as [H1 _].
  rewrite H1. now apply dropLastQuote_no_quote.
Qed.

(** X12.  The fields that the scan of a line gives: put together again with
    commas they are the line without its double quotes (a comma between
    quotes stays in its field, every other comma separates two fields, and
    every quote is dropped, a doubled one too); no field contains a quote,
    so that the removal of surrounding quotes that follows changes nothing and
    the clean values are the trimmed fields; and there is always at least one
    field. *)
Theorem fields_of_a_line (line : string) :
  String.concat "," (scanLine line [] EmptyString false) = dropQuotes line
  /\ Forall (fun v => hasQuote v = false) (scanLine line [] EmptyString false)
  /\ cleanValuesOf line = map trim (scanLine line [] EmptyString false)
  /\ (1 <= List.length (cleanValuesOf line))%nat.
Proof.
  pose proof (scanLine_no_quote line [] EmptyString false (List.Forall_nil _) eq_refl) as N.
  split; [| split; [exact N | split]].
  - now rewrite scanLine_join.
  - unfold cleanValuesOf. apply map_ext_in. intros v Hv.
    rewrite List.Forall_forall in N. apply stripQuotes_no_quote.
    unfold trim. now apply trimEnd_no_quote, trimStart_no_quote, N.
  - unfold cleanValuesOf. rewrite length_map.
    assert (forall l values current q, (1 <= List.length (scanLine l values current q))%nat) as K.
    { induction l as [| c rest IH]; intros values current q; cbn [scanLine].
      - rewrite length_app. cbn. lia.
      - destruct (Ascii.eqb c DQUOTE); [apply IH |].
        destruct (_ && _)%bool; apply IH. }
    apply K.
Qed.

(** ** Totals *)

(** X13.  The migration keeps the total of a legacy record whose total and
    packaging size are integers up to [2 ^ 53], the total not negative and
    the size positive: the packages times the packaging size plus the singles
    of the rebuilt record are the legacy count.  The same holds with the
    packaging size 1 taken for a missing one.  It does not hold for every
    fraction: with the packaging size 0.1 and the legacy count 1 the
    quotient is rounded up to 10 packages while the remainder is
    0.09999999999999995, and the total of the rebuilt record is
    1.0999999999999999. *)
Theorem migration_keeps_total (productId productName : option string)
    (pc sc : option number) (total size : Z) :
  pc = None \/ sc = None -> (0 <= total <= 2 ^ 53)%Z -> (0 < size <= 2 ^ 53)%Z ->
  getTotal (asCountItem (migrateItem
              (StoredItem.mk productId productName (Some (ofZ size)) pc sc (Some (ofZ total)))))
  = ofZ total
  /\ getTotal (asCountItem (migrateItem
                 (StoredItem.mk productId productName None pc sc (Some (ofZ total)))))
     = ofZ total
  /\ migrateItem legacyTenth
     = StoredItem.mk (Some "SKU004") (Some "Widget D") (Some (parseFloat "0.1"))
         (Some (ofZ 10)) (Some (parseFloat "0.09999999999999995")) None
  /\ getTotal (asCountItem (migrateItem legacyTenth)) = parseFloat "1.0999999999999999"
  /\ getTotal (asCountItem (migrateItem legacyTenth)) <> ofZ 1.
Proof.
  intros H Ht Hs.
  assert (forall s0, migrateItem (StoredItem.mk productId productName s0 pc sc (Some (ofZ total)))
            = StoredItem.mk productId productName
                (Some (packagingSizeOr1 (StoredItem.mk productId productName s0 pc sc (Some (ofZ total)))))
                (Some (floor (div (ofZ total)
                   (packagingSizeOr1 (StoredItem.mk productId productName s0 pc sc (Some (ofZ total)))))))
                (Some (rem (ofZ total)
                   (packagingSizeOr1 (StoredItem.mk productId productName s0 pc sc (Some (ofZ total))))))
                None) as K.
  { intros s0. destruct H as [-> | ->]; [reflexivity | now destruct pc]. }
  assert (forall p : Z, (0 < p <= 2 ^ 53)%Z ->
            add (mul (floor (div (ofZ total) (ofZ p))) (ofZ p)) (rem (ofZ total) (ofZ p))
            = ofZ total) as Total.
  { intros p Hp. rewrite floor_div_integers, rem_integers by lia.
    pose proof (Z.div_mod total p ltac:(lia)) as DM.
    pose proof (Z.mod_pos_bound total p ltac:(lia)) as MB.
    assert (0 <= total / p)%Z by (apply Z.div_pos; lia).
    rewrite mul_integers by nia. rewrite add_integers by nia. f_equal. nia. }
  rewrite !K. unfold packagingSizeOr1. cbn [StoredItem.packagingSize].
  rewrite truthy_ofZ. destruct (Z.eqb_spec size 0) as [-> | _]; [lia |]. cbn [negb].
  unfold getTotal, asCountItem.
  cbn [StoredItem.packagingSize StoredItem.packageCount StoredItem.singleCount default
       CountItem.packageCount CountItem.packagingSize CountItem.singleCount].
  split; [now apply Total |]. split; [apply Total; split; [lia | discriminate] |].
  split; [vm_compute; reflexivity |]. split; [vm_compute; reflexivity |].
  vm_compute. discriminate.
Qed.

Lemma ltb_nonneg (n : number) :
  (n = Inf false \/ exists r, n = Fin r /\ (0 <= r)%Q) ->
  ltb n (ofZ 0) = false /\ isNaN n = false /\ geb n (ofZ 0) = true.
Proof.
  intros [-> | (r & -> & H)]; [now repeat split |].
  assert (ltb (Fin r) (ofZ 0) = false) as L.
  { destruct (ltb (Fin r) (ofZ 0)) eqn:E; [| reflexivity].
    apply ltb_Fin in E. exfalso. apply (Qlt_not_le _ _ E). exact H. }
  split; [exact L |]. split; [reflexivity |].
  unfold geb. destruct (ltb (ofZ 0) (Fin r)) eqn:E; [reflexivity |]. cbn [orb].
  unfold strictEq, ofZ. apply Qeq_bool_iff.
  apply Qle_antisym; [| exact H].
  destruct (Qlt_le_dec 0 r) as [Y | N]; [| exact N].
  apply ltb_Fin in Y. unfold ofZ in E. change (inject_Z 0) with 0%Q in E. congruence.
Qed.

Lemma nonNegative_add_mul (packages size singles : number) :
  nonNegative packages -> nonNegative size -> nonNegative singles ->
  add (mul packages size) singles = Inf false
  \/ exists r, add (mul packages size) singles = Fin r /\ (0 <= r)%Q.
Proof.
  destruct packages as [| |p], size as [| |s], singles as [| |c]; try contradiction.
  cbn [nonNegative]. intros Hp Hs Hc. unfold mul.
  destruct (double_nonneg (p * s)) as [-> | (r & -> & Hr)];
    [now apply Qmult_le_0_compat | now left |].
  unfold add. apply double_nonneg.
  apply Qle_trans with (0 + 0)%Q; [now rewrite Qplus_0_l; apply Qle_refl |].
  now apply Qplus_le_compat.
Qed.

(** X14.  The total shown and exported for a record is never negative and
    never [NaN] when its two counts are not negative and its packaging size
    is a finite number that is not negative. *)
Theorem total_never_negative (item : CountItem) :
  nonNegative (CountItem.packageCount item) ->
  nonNegative (CountItem.singleCount item) ->
  nonNegative (CountItem.packagingSize item) ->
  ltb (getTotal item) (ofZ 0) = false
  /\ isNaN (getTotal item) = false
  /\ geb (getTotal item) (ofZ 0) = true.
Proof.
  intros Hp Hs Hz. apply ltb_nonneg. now apply nonNegative_add_mul.
Qed.

(** ** The text of the number dialog *)

Lemma keepDigitsAndMinus_ok (typed : string) :
  digitsAndMinus (keepDigitsAndMinus typed) = true.
Proof.
  induction typed as [| c rest IH]; [reflexivity |]. cbn [keepDigitsAndMinus].
  destruct (_ || _)%bool eqn:E; [| exact IH]. cbn [digitsAndMinus]. now rewrite E, IH.
Qed.

Lemma keepDigitsAndMinus_fixed (s : string) :
  digitsAndMinus s = true -> keepDigitsAndMinus s = s.
Proof.
  induction s as [| c rest IH]; [reflexivity |]. cbn [digitsAndMinus keepDigitsAndMinus].
  intros H. apply andb_prop in H as [H1 H2]. rewrite H1. now rewrite (IH H2).
Qed.

(** X15.  The text of the number dialog only ever holds digits and minus
    signs: in every state reached from a mount, whatever is typed.  What is
    typed is kept as it is when it is made of such characters, and filtering
    twice is filtering once. *)
Theorem dialog_holds_digits_and_minus (platform : Platform)
    (w : AppState * gmap string string) :
  reachable platform w ->
  digitsAndMinus (numberDialogValue (fst w)) = true
  /\ (forall typed,
        numberDialogValue (fst (step platform (TypeNumber typed) w)) = keepDigitsAndMinus typed
        /\ keepDigitsAndMinus (keepDigitsAndMinus typed) = keepDigitsAndMinus typed
        /\ (digitsAndMinus typed = true -> keepDigitsAndMinus typed = typed)).
Proof.
  intros R. split.
  - induction R as [ls w Hmount | e w _ IH].
    + revert Hmount. unfold mount, loadEffect. simpl.
      destruct (getItem templatesKey ls) as [t |];
        [destruct (parseTemplates platform t); [| discriminate] |];
        (destruct (getItem countsKey ls) as [c |];
          [destruct (parseSavedCounts platform c) |]);
        (destruct (getItem sessionKey ls) as [text |];
          [destruct (parseSession platform text) as [[form counts] |] |]);
        intros [= <-]; reflexivity.
    + destruct w as [s ls]. destruct s. cbn [fst numberDialogValue] in IH.
      unfold step, commit. cbn [fst snd].
      destruct e; cbn [handle];
        unfold handleFileImport, addProductToTemplate, saveTemplate, deleteTemplate,
          deleteSavedCount, startCounting, handleCountButtonUp, handleNumberDialogSubmit,
          submitCount, handleResumeSession, changeNumberDialogValue;
        simpl; repeat case_match; simpl; auto using keepDigitsAndMinus_ok.
  - intros typed. split; [destruct w as [s ls]; now destruct s |].
    split; [apply keepDigitsAndMinus_fixed, keepDigitsAndMinus_ok |].
    apply keepDigitsAndMinus_fixed.
Qed.

(** ** The products of a template made by hand *)

Lemma not_nan_not_below (x : number) :
  isNaN x = false -> leb x (ofZ 0) = false -> ltb (ofZ 0) x = true.
Proof.
  destruct x as [| s | q]; [discriminate | |].
  - destruct s; [discriminate | reflexivity].
  - intros _. unfold leb, strictEq, ofZ. change (inject_Z 0) with 0%Q.
    intros H. apply orb_false_elim in H as [H1 H2].
    apply ltb_Fin. destruct (Qlt_le_dec 0 q) as [L | L]; [exact L |].
    exfalso. apply Qle_lteq in L as [L | L].
    + assert (ltb (Fin q) (Fin 0) = true) by now apply ltb_Fin. congruence.
    + apply Qeq_bool_iff in L. congruence.
Qed.

Lemma removeAt_Forall {A : Type} (P : A -> Prop) (idx : nat) (l : list A) :
  Forall P l -> Forall P (removeAt idx l).
Proof.
  intros H. revert idx. induction H as [| x l Hx Hl IH]; intros idx; [now destruct idx |].
  destruct idx; cbn [removeAt]; [exact Hl | constructor; auto].
Qed.

(** X16.  Every product of the template being made by hand has a packaging
    size above zero, in every state reached from a mount: a size that is no
    number, zero or negative is refused when the product is added. *)
Theorem draft_products_have_positive_size (platform : Platform)
    (w : AppState * gmap string string) :
  reachable platform w ->
  Forall positiveSize (newTemplateProducts (fst w)).
Proof.
  induction 1 as [ls w Hmount | e w _ IH].
  - revert Hmount. unfold mount, loadEffect. simpl.
    destruct (getItem templatesKey ls) as [t |];
      [destruct (parseTemplates platform t); [| discriminate] |];
      (destruct (getItem countsKey ls) as [c |];
        [destruct (parseSavedCounts platform c) |]);
      (destruct (getItem sessionKey ls) as [text |];
        [destruct (parseSession platform text) as [[form counts] |] |]);
      intros [= <-]; constructor.
  - destruct w as [s ls]. destruct s. cbn [fst newTemplateProducts] in IH.
    unfold step, commit. cbn [fst snd].
    destruct e; cbn [handle];
      try (unfold handleFileImport, saveTemplate, deleteTemplate,
             deleteSavedCount, startCounting, handleCountButtonUp, handleNumberDialogSubmit,
             submitCount, handleResumeSession, changeNumberDialogValue;
           simpl; repeat case_match; simpl; auto using removeAt_Forall; fail).
    unfold addProductToTemplate.
    destruct id as [[| c0 id] |]; try exact IH.
    destruct name as [[| c1 name] |]; try exact IH.
    destruct packagingSizeStr as [[| c2 size] |]; try exact IH.
    destruct (isNaN (parseFloat (String c2 size))) eqn:N; [exact IH |].
    destruct (leb (parseFloat (String c2 size)) (ofZ 0)) eqn:L; [exact IH |].
    cbn [orb]. simpl. apply Forall_app. split; [exact IH |].
    constructor; [| constructor]. unfold positiveSize. cbn [Product.packagingSize].
    now apply not_nan_not_below.
Qed.

(** ** The file name of an export *)

Lemma replaceColonsAndDots_append (a b : string) :
  replaceColonsAndDots (a ++ b) = (replaceColonsAndDots a ++ replaceColonsAndDots b)%string.
Proof.
  induction a as [| c a IH]; [reflexivity |].
  rewrite append_cons. cbn [replaceColonsAndDots]. rewrite append_cons. now rewrite IH.
Qed.

Lemma replaceColonsAndDots_plain (a : string) :
  plainText a = true -> replaceColonsAndDots a = a.
Proof.
  induction a as [| c a IH]; [reflexivity |]. cbn [plainText replaceColonsAndDots].
  intros H. apply andb_prop in H as [H1 H2]. apply negb_true_iff in H1.
  apply orb_false_elim in H1 as [H1 _]. rewrite H1. now rewrite (IH H2).
Qed.

Lemma replaceFirstT_plain (a b : string) :
  plainText a = true ->
  replaceFirstT (a ++ String "T" b) = (a ++ String "_" b)%string.
Proof.
  induction a as [| c a IH]; [reflexivity |]. cbn [plainText].
  intros H. apply andb_prop in H as [H1 H2]. apply negb_true_iff in H1.
  apply orb_false_elim in H1 as [_ H1].
  rewrite !append_cons. cbn [replaceFirstT]. rewrite H1. now rewrite (IH H2).
Qed.

Lemma substring_prefix (a b : string) :
  substring 0 (String.length a) (a ++ b) = a.
Proof.
  induction a as [| c a IH]; [now destruct b |].
  rewrite append_cons. cbn [String.length substring]. now rewrite IH.
Qed.

Lemma length_append (a b : string) :
  String.length (a ++ b) = (String.length a + String.length b)%nat.
Proof.
  induction a as [| c a IH]; [reflexivity |].
  rewrite append_cons. cbn [String.length]. now rewrite IH.
Qed.

Lemma substring_length (n : nat) (s : string) :
  (String.length (substring 0 n s) <= n)%nat.
Proof.
  revert s. induction n as [| n IH]; intros s; [now destruct s |].
  destruct s as [| c s]; cbn [substring String.length]; [lia |].
  specialize (IH s). lia.
Qed.

Lemma substring_hasColonOrDot (n : nat) (s : string) :
  hasColonOrDot s = false -> hasColonOrDot (substring 0 n s) = false.
Proof.
  revert s. induction n as [| n IH]; intros s; [now destruct s |].
  destruct s as [| c s]; cbn [substring hasColonOrDot]; [reflexivity |].
  intros H. apply orb_false_elim in H as [H1 H2].
  apply orb_false_elim in H1 as [H0 H1]. now rewrite H0, H1, (IH s H2).
Qed.

Lemma replaceFirstT_hasColonOrDot (s : string) :
  hasColonOrDot s = false -> hasColonOrDot (replaceFirstT s) = false.
Proof.
  induction s as [| c s IH]; [reflexivity |]. cbn [replaceFirstT hasColonOrDot].
  intros H. apply orb_false_elim in H as [H1 H2].
  apply orb_false_elim in H1 as [H0 H1].
  destruct (Ascii.eqb c "T"); cbn [hasColonOrDot]; [exact H2 |].
  now rewrite H0, H1, (IH H2).
Qed.

Lemma replaceColonsAndDots_hasColonOrDot (s : string) :
  hasColonOrDot (replaceColonsAndDots s) = false.
Proof.
  induction s as [| c s IH]; [reflexivity |]. cbn [replaceColonsAndDots hasColonOrDot].
  rewrite IH.
  destruct (Ascii.eqb c ":") eqn:E1; [reflexivity |].
  destruct (Ascii.eqb c ".") eqn:E2; [reflexivity |].
  cbn [orb]. now rewrite E1, E2.
Qed.

(** X17.  The name of the file of an export or a share.  For a time stamp
    whose ISO text is a date of ten characters, a T, and hours, minutes and
    seconds of two characters each separated by colons, whatever follows the
    seconds, the name is the name of the template, an underscore, the date,
    an underscore, the time with minus signs for the colons, and the
    extension csv.  For every text the date part has at most 19 characters
    and neither a colon nor a dot. *)
Theorem export_file_name (formName date hh mm ss rest : string) :
  String.length date = 10%nat -> String.length hh = 2%nat ->
  String.length mm = 2%nat -> String.length ss = 2%nat ->
  plainText date = true -> plainText hh = true ->
  plainText mm = true -> plainText ss = true ->
  exportFileName formName (date ++ "T" ++ hh ++ ":" ++ mm ++ ":" ++ ss ++ rest)
  = (formName ++ "_" ++ date ++ "_" ++ hh ++ "-" ++ mm ++ "-" ++ ss ++ ".csv")%string
  /\ (forall iso,
        (String.length (dateStr iso) <= 19)%nat
        /\ hasColonOrDot (dateStr iso) = false).
Proof.
  intros Ld Lh Lm Ls Pd Ph Pm Ps. split.
  - unfold exportFileName, dateStr. do 2 f_equal.
    rewrite !replaceColonsAndDots_append.
    rewrite (replaceColonsAndDots_plain date Pd), (replaceColonsAndDots_plain hh Ph),
      (replaceColonsAndDots_plain mm Pm), (replaceColonsAndDots_plain ss Ps).
    change (replaceColonsAndDots "T") with "T".
    change (replaceColonsAndDots ":") with "-".
    change ("T" ++ hh ++ "-" ++ mm ++ "-" ++ ss ++ replaceColonsAndDots rest)%string
      with (String "T" (hh ++ "-" ++ mm ++ "-" ++ ss ++ replaceColonsAndDots rest)%string).
    rewrite (replaceFirstT_plain _ _ Pd).
    change (String "_" (hh ++ "-" ++ mm ++ "-" ++ ss ++ replaceColonsAndDots rest))%string
      with ("_" ++ hh ++ "-" ++ mm ++ "-" ++ ss ++ replaceColonsAndDots rest)%string.
    replace (date ++ "_" ++ hh ++ "-" ++ mm ++ "-" ++ ss ++ replaceColonsAndDots rest)%string
      with ((date ++ "_" ++ hh ++ "-" ++ mm ++ "-" ++ ss) ++ replaceColonsAndDots rest)%string
      by now rewrite !append_assoc.
    replace 19%nat with (String.length (date ++ "_" ++ hh ++ "-" ++ mm ++ "-" ++ ss)).
    + rewrite substring_prefix. now rewrite !append_assoc.
    + rewrite !length_append, Ld, Lh, Lm, Ls. reflexivity.
  - intros iso. unfold dateStr. split; [apply substring_length |].
    apply substring_hasColonOrDot, replaceFirstT_hasColonOrDot,
      replaceColonsAndDots_hasColonOrDot.
Qed.

(** ** The name of an imported template *)

Lemma isExtension_cons (c : ascii) (r : string) :
  isExtension (String c r)
  = negb (Ascii.eqb c "/" || Ascii.eqb c ".")
    && match r with EmptyString => true | _ => isExtension r end.
Proof. destruct r; cbn [isExtension]; [now rewrite andb_true_r | reflexivity]. Qed.

Lemma isExtension_dot (a b : string) : isExtension (a ++ String "." b) = false.
Proof.
  induction a as [| c a IH].
  - change (EmptyString ++ String "." b)%string with (String "." b).
    now rewrite isExtension_cons.
  - rewrite append_cons, isExtension_cons, IH.
    destruct (a ++ String "." b)%string eqn:E; [now destruct a |]. apply andb_false_r.
Qed.

Lemma removeExtension_no_dot (name : string) :
  hasDot name = false -> removeExtension name = name.
Proof.
  induction name as [| c name IH]; [reflexivity |]. cbn [hasDot removeExtension].
  intros H. apply orb_false_elim in H as [H1 H2]. rewrite H1. cbn [andb]. now rewrite (IH H2).
Qed.

(** X18.  The name that an import gives to its template: a file name that
    ends in a dot followed by an extension (one character or more, none of
    them a dot or a slash) loses that last dot and the extension, and only
    them, dots further to the left staying; a name without dot is kept as it
    is, and so is a name that ends in a dot; and when the part in front of the
    extension has no dot, removing once more changes nothing. *)
Theorem template_name_of_a_file (base ext : string) :
  isExtension ext = true ->
  removeExtension (base ++ "." ++ ext) = base
  /\ (forall name, hasDot name = false -> removeExtension name = name)
  /\ removeExtension (base ++ ".") = (base ++ ".")%string
  /\ (hasDot base = false ->
        removeExtension (removeExtension (base ++ "." ++ ext)) = base).
Proof.
  intros E.
  assert (removeExtension (base ++ "." ++ ext) = base) as First.
  { induction base as [| c base IH].
    - change (EmptyString ++ "." ++ ext)%string with (String "." ext).
      cbn [removeExtension]. now rewrite E.
    - rewrite append_cons. cbn [removeExtension].
      change ("." ++ ext)%string with (String "." ext).
      rewrite isExtension_dot, andb_false_r.
      change (String "." ext) with ("." ++ ext)%string. now rewrite IH. }
  split; [exact First |]. split; [exact removeExtension_no_dot |]. split.
  - clear First. induction base as [| c base IH]; [reflexivity |].
    rewrite append_cons. cbn [removeExtension].
    change "."%string with (String "." EmptyString) at 1.
    rewrite isExtension_dot, andb_false_r. now rewrite IH.
  - intros D. rewrite First. now apply removeExtension_no_dot.
Qed.


(** ** How the templates and the archive change *)

Lemma step_templates (platform : Platform) (e : Event) (w : AppState * gmap string string) :
  templates (fst (step platform e w)) = templates (fst w)
  \/ (exists t, templates (fst (step platform e w)) = templates (fst w) ++ [t]
                /\ FormTemplate.products t <> []
                /\ ((exists file now, e = FileImport file now) \/ exists now, e = SaveTemplate now))
  \/ (exists id, e = DeleteTemplate id true
                 /\ templates (fst (step platform e w))
                    = List.filter (fun t => negb (String.eqb (FormTemplate.id t) id))
                        (templates (fst w))).
Proof.
  destruct w as [s ls]. unfold step, commit. cbn [fst snd].
  destruct e; cbn [handle];
    try (left; destruct s; unfold addProductToTemplate, deleteSavedCount, startCounting,
           handleCountButtonUp, handleNumberDialogSubmit, submitCount, handleResumeSession,
           changeNumberDialogValue;
         simpl; repeat case_match; reflexivity).
  - unfold handleFileImport. destruct file as [[fileName text] |]; [| now left].
    destruct (parseCSV text) as [products | message]; [| left; now destruct s].
    destruct products as [| p products]; [left; now destruct s |].
    right; left. eexists. split; [destruct s; reflexivity |].
    split; [discriminate | left; eauto].
  - unfold saveTemplate.
    destruct (negb _); [now left |].
    destruct (_ =? 0)%nat eqn:L; [now left |].
    right; left. eexists. split; [destruct s; reflexivity |].
    split; [| right; eauto]. cbn [FormTemplate.products].
    intros E. apply sort_nil_inv in E. destruct s; cbn in *. now rewrite E in L.
  - destruct confirmed; [| now left]. right; right. exists id. split; [reflexivity |].
    now destruct s.
Qed.

Lemma step_savedCounts (platform : Platform) (e : Event) (w : AppState * gmap string string) :
  savedCounts (fst (step platform e w)) = savedCounts (fst w)
  \/ (exists now form,
        e = SubmitCount now /\ currentForm (fst w) = Some form
        /\ savedCounts (fst (step platform e w))
           = {| SavedCount.id := Z_to_string now;
                SavedCount.formName := FormTemplate.name form;
                SavedCount.timestamp := toISOString platform now;
                SavedCount.items := currentCounts (fst w) |} :: savedCounts (fst w))
  \/ (exists id, e = DeleteSavedCount id true
                 /\ savedCounts (fst (step platform e w))
                    = List.filter (fun c => negb (String.eqb (SavedCount.id c) id))
                        (savedCounts (fst w))).
Proof.
  destruct w as [s ls]. unfold step, commit. cbn [fst snd].
  destruct e; cbn [handle];
    try (left; destruct s; unfold handleFileImport, addProductToTemplate, saveTemplate,
           deleteTemplate, startCounting,
           handleCountButtonUp, handleNumberDialogSubmit, handleResumeSession,
           changeNumberDialogValue;
         simpl; repeat case_match; reflexivity).
  - destruct confirmed; [| now left]. right; right. exists id. split; [reflexivity |].
    now destruct s.
  - unfold submitCount. cbn [state begin].
    destruct (currentForm s) as [form |] eqn:F; [| now left].
    right; left. exists now, form. split; [reflexivity |]. split; [reflexivity |].
    now destruct s.
Qed.

(** X19.  What a step can do to the list of templates and to the archive.
    The templates stay as they are, or get one template with at least one
    product behind the others (by an import or a save only), or lose those
    with the identifier of a confirmed deletion.  The archive stays as it is,
    or gets the submitted session in front of the others, or loses the
    entries with the identifier of a confirmed deletion.  So no step edits or
    reorders what is kept, and a deletion that is not confirmed removes
    nothing. *)
Theorem templates_and_archive_evolve (platform : Platform) (e : Event)
    (w : AppState * gmap string string) :
  let s := fst w in
  let s' := fst (step platform e w) in
  (templates s' = templates s
   \/ (exists t, templates s' = templates s ++ [t]
                 /\ FormTemplate.products t <> []
                 /\ ((exists file now, e = FileImport file now)
                     \/ exists now, e = SaveTemplate now))
   \/ (exists id, e = DeleteTemplate id true
                  /\ templates s'
                     = List.filter (fun t => negb (String.eqb (FormTemplate.id t) id))
                         (templates s)))
  /\ (savedCounts s' = savedCounts s
      \/ (exists now form,
            e = SubmitCount now /\ currentForm s = Some form
            /\ savedCounts s'
               = {| SavedCount.id := Z_to_string now;
                    SavedCount.formName := FormTemplate.name form;
                    SavedCount.timestamp := toISOString platform now;
                    SavedCount.items := currentCounts s |} :: savedCounts s)
      \/ (exists id, e = DeleteSavedCount id true
                     /\ savedCounts s'
                        = List.filter (fun c => negb (String.eqb (SavedCount.id c) id))
                            (savedCounts s)))
  /\ (forall id, step platform (DeleteTemplate id false) w = w
                 /\ step platform (DeleteSavedCount id false) w = w).
Proof.
  cbv zeta. split; [apply step_templates |]. split; [apply step_savedCounts |].
  intros id. now destruct w.
Qed.

(** X20.  From a mount on a storage whose templates (if any) have at least
    one product each, every template of every state reached has at least one
    product: an import without product and a save without product add no
    template.  So a session that Start Counting opens has at least one record. *)
Theorem templates_are_never_empty (platform : Platform) (ls : gmap string string)
    (w : AppState * gmap string string) (events : list Event) :
  storedTemplatesFilled platform ls ->
  mount platform ls = Normal w ->
  Forall (fun t => FormTemplate.products t <> [])
         (templates (fst (run platform events w)))
  /\ (forall template,
        List.find (fun t => String.eqb (FormTemplate.id t)
                              (selectedTemplateId (fst (run platform events w))))
                  (templates (fst (run platform events w))) = Some template ->
        currentCounts (fst (step platform StartCounting (run platform events w))) <> []).
Proof.
  intros Stored Hmount.
  assert (Forall (fun t => FormTemplate.products t <> [])
            (templates (fst (run platform events w)))) as Inv.
  { assert (Forall (fun t => FormTemplate.products t <> []) (templates (fst w))) as Start.
    { revert Hmount. unfold mount, loadEffect. simpl.
      unfold storedTemplatesFilled in Stored.
      destruct (getItem templatesKey ls) as [t |];
        [destruct (parseTemplates platform t) eqn:P; [| discriminate] |];
        (destruct (getItem countsKey ls) as [c |];
          [destruct (parseSavedCounts platform c) |]);
        (destruct (getItem sessionKey ls) as [text |];
          [destruct (parseSession platform text) as [[form counts] |] |]);
        intros [= <-]; cbn [fst templates initialState];
        solve [constructor | eapply Stored; eauto]. }
    clear Hmount. revert w Start. unfold run.
    induction events as [| e events IH]; intros w Start; [exact Start |].
    cbn [fold_left]. apply IH.
    destruct (step_templates platform e w) as [E | [[t [E [F _]]] | [id [_ E]]]]; rewrite E.
    - exact Start.
    - apply Forall_app. split; [exact Start |]. constructor; [exact F | constructor].
    - clear E. induction Start as [| t ts Ht _ IHts]; cbn [List.filter]; [constructor |].
      destruct (negb _); [constructor |]; assumption. }
  split; [exact Inv |].
  intros template F. destruct (run platform events w) as [s ls']. cbn [fst] in *.
  unfold step, commit. cbn [fst snd handle]. unfold startCounting.
  cbn [state begin]. rewrite F.
  apply find_some in F as [I _].
  rewrite List.Forall_forall in Inv. specialize (Inv _ I).
  destruct s. simpl. destruct (FormTemplate.products template); [congruence | discriminate].
Qed.

(** ** Integers printed and read back *)


Lemma readDigits_digit (c : ascii) (k : Z) (r : string) (count : nat) (acc : Z) :
  digitValue c = Some k -> (k <? 10)%Z = true ->
  readDigits 10 (String c r) count acc = readDigits 10 r (S count) (acc * 10 + k)%Z.
Proof. intros D K. cbn [readDigits]. now rewrite D, K. Qed.

Lemma readDigits_acc (d : Decimal.uint) (count : nat) (acc : positive) :
  readDigits 10 (NilEmpty.string_of_uint d) count (Z.pos acc)
  = ((count + String.length (NilEmpty.string_of_uint d))%nat,
     Z.pos (Pos.of_uint_acc d acc), EmptyString).
Proof.
  revert count acc.
  induction d; intros count acc; cbn [NilEmpty.string_of_uint String.length Pos.of_uint_acc];
    [ cbn [readDigits]; now rewrite Nat.add_0_r | .. ].
  all: erewrite readDigits_digit by (cbv; reflexivity).
  all: rewrite Nat.add_succ_r, <- Nat.add_succ_l.
  all: match goal with
       | |- readDigits _ _ _ ?v = (_, Z.pos (Pos.of_uint_acc _ ?p), _) =>
           replace v with (Z.pos p) by lia
       end.
  all: apply IHd.
Qed.

Lemma readDigits_uint (d : Decimal.uint) (count : nat) :
  readDigits 10 (NilEmpty.string_of_uint d) count 0
  = ((count + String.length (NilEmpty.string_of_uint d))%nat,
     Z.of_N (Pos.of_uint d), EmptyString).
Proof.
  revert count.
  induction d; intros count; cbn [NilEmpty.string_of_uint String.length Pos.of_uint];
    [ cbn [readDigits]; now rewrite Nat.add_0_r | .. ].
  all: erewrite readDigits_digit by (cbv; reflexivity).
  all: rewrite Nat.add_succ_r, <- Nat.add_succ_l.
  1: apply IHd.
  all: cbn [Z.of_N].
  all: match goal with
       | |- readDigits _ _ _ ?v = _ => let v' := eval cbv in v in change v with v'
       end.
  all: apply readDigits_acc.
Qed.

Lemma parseInt_uint (d : Decimal.uint) (radix : option Z) :
  d <> Decimal.Nil -> radix = None \/ radix = Some 10%Z ->
  parseInt (NilEmpty.string_of_uint d) radix = double (inject_Z (Z.of_N (Pos.of_uint d)))
  /\ parseInt (String "-" (NilEmpty.string_of_uint d)) radix
     = double (inject_Z (- Z.of_N (Pos.of_uint d))).
Proof.
  intros NN R. pose proof (readDigits_uint d 0) as RD.
  assert (forall negative,
            (let '(R, s2) :=
               match NilEmpty.string_of_uint d with
               | String "0"%char (String x r) =>
                   if match radix with None => true | Some r => (r =? 16)%Z end
                      && (Ascii.eqb x "x" || Ascii.eqb x "X")
                   then (16%Z, r) else (10%Z, NilEmpty.string_of_uint d)
               | _ => (10%Z, NilEmpty.string_of_uint d)
               end in
             let '(count, value, _) := readDigits R s2 0 0%Z in
             match count with
             | O => NaN
             | _ => double (inject_Z (applySign negative value))
             end) = double (inject_Z (applySign negative (Z.of_N (Pos.of_uint d))))) as Body.
  { intros negative.
    assert (match NilEmpty.string_of_uint d with
            | String "0"%char (String x r) =>
                if match radix with None => true | Some r => (r =? 16)%Z end
                   && (Ascii.eqb x "x" || Ascii.eqb x "X")
                then (16%Z, r) else (10%Z, NilEmpty.string_of_uint d)
            | _ => (10%Z, NilEmpty.string_of_uint d)
            end = (10%Z, NilEmpty.string_of_uint d)) as ->.
    { destruct d as [| u | u | u | u | u | u | u | u | u | u]; try reflexivity.
      cbn [NilEmpty.string_of_uint].
      destruct u; try reflexivity; cbn [NilEmpty.string_of_uint];
        destruct R as [-> | ->]; reflexivity. }
    rewrite RD.
    destruct d; [congruence | ..]; reflexivity. }
  destruct d as [| u | u | u | u | u | u | u | u | u | u]; [congruence | ..].
  all: split; (etransitivity; [| first [exact (Body false) | exact (Body true)]]).
  all: destruct R as [-> | ->]; reflexivity.
Qed.

Lemma parseInt_reads_back (z : Z) (radix : option Z) :
  radix = None \/ radix = Some 10%Z ->
  parseInt (Z_to_string z) radix = double (inject_Z z).
Proof.
  intros R. destruct z as [| p | p].
  - destruct R as [-> | ->]; reflexivity.
  - unfold Z_to_string. cbn [Z.to_int NilZero.string_of_int].
    pose proof (DecimalPos.Unsigned.to_uint_nonnil p) as NN.
    destruct (parseInt_uint (Pos.to_uint p) radix NN R) as [E _].
    rewrite (DecimalPos.Unsigned.of_to p) in E.
    destruct (Pos.to_uint p); [congruence | ..]; exact E.
  - unfold Z_to_string. cbn [Z.to_int NilZero.string_of_int].
    pose proof (DecimalPos.Unsigned.to_uint_nonnil p) as NN.
    destruct (parseInt_uint (Pos.to_uint p) radix NN R) as [_ E].
    rewrite (DecimalPos.Unsigned.of_to p) in E.
    destruct (Pos.to_uint p); [congruence | ..]; exact E.
Qed.

Lemma digitsAndMinus_uint (d : Decimal.uint) :
  digitsAndMinus (NilEmpty.string_of_uint d) = true.
Proof. induction d; cbn [NilEmpty.string_of_uint digitsAndMinus]; [reflexivity | ..]; exact IHd. Qed.

Lemma digitsAndMinus_Z_to_string (z : Z) : digitsAndMinus (Z_to_string z) = true.
Proof.
  destruct z as [| p | p]; [reflexivity | |]; unfold Z_to_string;
    cbn [Z.to_int NilZero.string_of_int];
    pose proof (digitsAndMinus_uint (Pos.to_uint p)) as D;
    destruct (Pos.to_uint p); try exact D; reflexivity.
Qed.

(** X21.  The decimal text of an integer up to [2 ^ 53] in size is read
    back as that integer by [parseInt], with the radix 10 and without radix,
    negative integers included.  So typing the digits of such an integer in
    the number dialog enters that integer, a sort index written as such an
    integer in a file is read as that integer, and such an integer printed
    in an export line reads back as itself.  A larger integer is read as the
    double nearest to it: 9007199254740993 is read as 9007199254740992. *)
Theorem printed_integers_are_read_back (platform : Platform) (z : Z)
    (w : AppState * gmap string string) :
  (Z.abs z <= 2 ^ 53)%Z ->
  parseInt (Z_to_string z) None = ofZ z
  /\ parseInt (Z_to_string z) (Some 10%Z) = ofZ z
  /\ enteredNumber (fst (step platform (TypeNumber (Z_to_string z)) w)) = ofZ z
  /\ (forall id name size, sortIndexOf [id; name; size; Z_to_string z] = Some (ofZ z))
  /\ parseInt (numberToString platform (ofZ z)) None = ofZ z
  /\ (forall big radix, radix = None \/ radix = Some 10%Z ->
        parseInt (Z_to_string big) radix = double (inject_Z big))
  /\ parseInt (Z_to_string 9007199254740993) (Some 10%Z) = ofZ 9007199254740992.
Proof.
  intros B.
  pose proof (parseInt_reads_back z None (or_introl eq_refl)) as N.
  pose proof (parseInt_reads_back z (Some 10%Z) (or_intror eq_refl)) as T.
  rewrite (double_integer z B) in N, T.
  split; [exact N |]. split; [exact T |]. split; [| split; [| split; [| split]]].
  - destruct w as [s ls]. unfold step, commit. cbn [fst snd handle].
    unfold changeNumberDialogValue, enteredNumber.
    replace (numberDialogValue _) with (Z_to_string z).
    + destruct (Z_to_string z) eqn:E; [discriminate T | exact T].
    + destruct s. simpl. symmetry. apply keepDigitsAndMinus_fixed, digitsAndMinus_Z_to_string.
  - intros id name size. unfold sortIndexOf. cbn [nth_error].
    destruct (Z_to_string z) eqn:E; [discriminate N |]. cbn [nonEmpty]. now rewrite N.
  - unfold numberToString, ofZ. rewrite Qred_inject_Z. cbn [inject_Z Qden Qnum].
    apply Z.leb_le in B. rewrite B. exact N.
  - intros big radix R. now apply parseInt_reads_back.
  - vm_compute. reflexivity.
Qed.

(** ** Import, start, submit *)

(** X22.  Take a text that [parseCSV] reads into a non-empty list of
    products, and a state in which no template has the identifier the clock
    gives to the imported one.  Importing the text, selecting the imported
    template, starting a count and submitting it at once puts in front of
    the archive an entry named after the file, with one record per product in
    template order: the product's identifier, name and packaging size, 0
    packages and 0 singles; the total of a record with a finite packaging
    size is 0.  No session is left, in the state or in the storage. *)
Theorem import_start_submit_archives (platform : Platform) (fileName text : string)
    (now later : Z) (s : AppState) (ls : gmap string string) (products : list Product) :
  parseCSV text = Normal products -> products <> [] ->
  Forall (fun t => FormTemplate.id t <> Z_to_string now) (templates s) ->
  let w := run platform (importCountSubmit fileName text now later) (s, ls) in
  savedCounts (fst w)
  = {| SavedCount.id := Z_to_string later;
       SavedCount.formName := removeExtension fileName;
       SavedCount.timestamp := toISOString platform later;
       SavedCount.items :=
         map (fun p => CountItem.mk (Product.id p) (Product.name p)
                         (Product.packagingSize p) (ofZ 0) (ofZ 0)) products |}
    :: savedCounts s
  /\ (forall p, In p products -> isFinite (Product.packagingSize p) = true ->
        getTotal (CountItem.mk (Product.id p) (Product.name p)
                    (Product.packagingSize p) (ofZ 0) (ofZ 0)) = ofZ 0)
  /\ currentForm (fst w) = None
  /\ currentCounts (fst w) = []
  /\ snd w !! sessionKey = None.
Proof.
  intros Hparse Hne Hfresh w.
  split; [exact (importCountSubmit_archive platform fileName text now later s ls products
                   Hparse Hne Hfresh) |].
  split; [intros p _ F; exact (getTotal_zeroCount p F) |].
  subst w. unfold importCountSubmit, run. cbn [fold_left].
  destruct products as [| p ps]; [contradiction |].
  destruct (import_step platform fileName text now (s, ls) p ps Hparse) as [T1 S1].
  set (w1 := step platform (FileImport (Some (fileName, text)) now) (s, ls)) in *.
  destruct (select_step platform (Z_to_string now) w1) as (I2 & T2 & S2).
  set (w2 := step platform (SelectTemplate (Z_to_string now)) w1) in *.
  cbn [fst] in T1, S1.
  destruct (start_step platform w2
              {| FormTemplate.id := Z_to_string now;
                 FormTemplate.name := removeExtension fileName;
                 FormTemplate.products := p :: ps;
                 FormTemplate.createdAt := toISOString platform now |}) as (F3 & _).
  { rewrite I2, T2, T1. now apply find_appended. }
  set (w3 := step platform StartCounting w2) in *. clearbody w3.
  destruct w3 as [s3 ls3]. cbn [fst] in F3.
  unfold step, commit. cbn [fst snd handle]. unfold submitCount. cbn [state begin].
  rewrite F3. destruct s3. simpl. repeat split.
  unfold sessionEffect. simpl. apply lookup_delete_eq.
Qed.

(** ** The further properties at work on examples *)

Lemma mount_stored : mount restoringPlatform storedSession = Normal mountedStored.
Proof. reflexivity. Qed.

Lemma widgetSession_natural : Forall itemNatural widgetSession.
Proof.
  constructor; [| constructor].
  split; [exists 2%Z | exists 3%Z]; (split; [lia | reflexivity]).
Qed.

Lemma widgetSession_safe : Forall itemSafe widgetSession.
Proof.
  constructor; [| constructor].
  split; [exists 2%Z | exists 3%Z]; (split; [split; [lia | reflexivity] | reflexivity]).
Qed.

Lemma storedSessionNatural_stored : storedSessionNatural restoringPlatform storedSession.
Proof. intros text form counts _ [= _ <-]. exact widgetSession_natural. Qed.

Lemma storedSessionFollows_stored : storedSessionFollows restoringPlatform storedSession.
Proof. intros text form counts _ [= <- <-]. reflexivity. Qed.

Lemma storedTemplatesFilled_stored : storedTemplatesFilled restoringPlatform storedSession.
Proof. intros text ts _ [= <-]. constructor; [discriminate | constructor]. Qed.

(** A press of 700 ms on the plus of the singles of product A. *)
Lemma press_then_release_witness :
  2000%Z <> 0%Z
  /\ longPressStart
       (state (handleCountButtonUp "A" FieldSingle Plus 2700
                 (handleCountButtonDown 2000 (begin (fst mountedStored) ∅)))) = None.
Proof.
  assert (2000 <> 0)%Z as N by lia. split; [exact N |].
  exact (proj1 (press_then_release "A" FieldSingle Plus 2000 2700
                  (begin (fst mountedStored) ∅) N)).
Defined.

(** A mount on the stored session, Resume, and a press on minus. *)
Lemma counts_never_below_zero_witness :
  storedSessionNatural restoringPlatform storedSession
  /\ mount restoringPlatform storedSession = Normal mountedStored
  /\ Forall itemWhole
       (currentCounts (fst (run restoringPlatform resumeAndPress mountedStored))).
Proof.
  split; [exact storedSessionNatural_stored |]. split; [exact mount_stored |].
  exact (proj1 (counts_never_below_zero restoringPlatform storedSession mountedStored
                  resumeAndPress storedSessionNatural_stored mount_stored)).
Defined.

Lemma plus_then_minus_restores_witness :
  Forall itemSafe (currentCounts (state (begin (fst mountedStored) ∅)))
  /\ currentCounts (state (updateSingleCount "A" (signValue Minus)
                             (updateSingleCount "A" (signValue Plus)
                                (begin (fst mountedStored) ∅))))
     = widgetSession.
Proof.
  split; [exact widgetSession_safe |].
  exact (proj1 (plus_then_minus_restores "A" (begin (fst mountedStored) ∅)
                  widgetSession_safe)).
Defined.

Lemma records_follow_template_witness :
  storedSessionFollows restoringPlatform storedSession
  /\ mount restoringPlatform storedSession = Normal mountedStored
  /\ map CountItem.productId
       (currentCounts (fst (run restoringPlatform resumeAndPress mountedStored)))
     = map Product.id (FormTemplate.products widgetTemplate).
Proof.
  split; [exact storedSessionFollows_stored |]. split; [exact mount_stored |].
  exact (proj1 (proj2 (proj2 (records_follow_template restoringPlatform storedSession
                                mountedStored resumeAndPress
                                storedSessionFollows_stored mount_stored)
                         widgetTemplate eq_refl))).
Defined.

Lemma templates_and_archive_are_stored_witness :
  reachable restoringPlatform mountedStored
  /\ snd mountedStored !! templatesKey = Some "templates"
  /\ snd mountedStored !! countsKey = Some "counts".
Proof.
  split; [exact (reachable_mount restoringPlatform storedSession mountedStored mount_stored) |].
  exact (templates_and_archive_are_stored restoringPlatform mountedStored
           (reachable_mount restoringPlatform storedSession mountedStored mount_stored)).
Defined.

Lemma mount_recovers_session_witness :
  mount restoringPlatform storedSession = Normal mountedStored
  /\ currentForm (fst mountedStored) = Some widgetTemplate
  /\ currentCounts (fst mountedStored) = widgetSession
  /\ resumeSessionDialogOpen (fst mountedStored) = true.
Proof.
  split; [exact mount_stored |].
  pose proof (proj1 (mount_recovers_session restoringPlatform storedSession mountedStored
                       mount_stored)
                "session" widgetTemplate widgetSession eq_refl eq_refl) as H.
  split; [exact (proj1 H) |]. split; [exact (proj1 (proj2 H)) |].
  exact (proj1 (proj2 (proj2 H))).
Defined.

Lemma resume_dialog_never_reopens_witness :
  resumeSessionDialogOpen (fst mountedEmpty) = false
  /\ resumeSessionDialogOpen (fst (run examplePlatform enterSeven mountedEmpty)) = false.
Proof.
  split; [reflexivity |].
  exact (proj1 (resume_dialog_never_reopens examplePlatform enterSeven mountedEmpty eq_refl)).
Defined.

(** The legacy count 29 of a product sold by the dozen. *)
Lemma migration_keeps_total_witness :
  (0 <= 29 <= 2 ^ 53)%Z /\ (0 < 12 <= 2 ^ 53)%Z
  /\ getTotal (asCountItem (migrateItem
                 (StoredItem.mk (Some "SKU001") (Some "Widget A") (Some (ofZ 12))
                    None None (Some (ofZ 29)))))
     = ofZ 29.
Proof.
  assert (0 <= 29 <= 2 ^ 53)%Z as T by (split; [lia | vm_compute; discriminate]).
  assert (0 < 12 <= 2 ^ 53)%Z as S by (split; [lia | vm_compute; discriminate]).
  split; [exact T |]. split; [exact S |].
  exact (proj1 (migration_keeps_total (Some "SKU001") (Some "Widget A") None None 29 12
                  (or_introl eq_refl) T S)).
Defined.

Lemma total_never_negative_witness :
  nonNegative (ofZ 2) /\ nonNegative (ofZ 3) /\ nonNegative (ofZ 12)
  /\ geb (getTotal (CountItem.mk "A" "Widget" (ofZ 12) (ofZ 2) (ofZ 3))) (ofZ 0) = true.
Proof.
  assert (nonNegative (ofZ 2)) as P by (unfold nonNegative, ofZ, Qle; simpl; lia).
  assert (nonNegative (ofZ 3)) as S by (unfold nonNegative, ofZ, Qle; simpl; lia).
  assert (nonNegative (ofZ 12)) as Z by (unfold nonNegative, ofZ, Qle; simpl; lia).
  split; [exact P |]. split; [exact S |]. split; [exact Z |].
  exact (proj2 (proj2 (total_never_negative (CountItem.mk "A" "Widget" (ofZ 12) (ofZ 2) (ofZ 3))
                         P S Z))).
Defined.

(** The largest integer that is read back as itself. *)
Lemma printed_integers_are_read_back_witness :
  (Z.abs 9007199254740992 <= 2 ^ 53)%Z
  /\ parseInt (Z_to_string 9007199254740992) (Some 10%Z) = ofZ 9007199254740992.
Proof.
  assert (Z.abs 9007199254740992 <= 2 ^ 53)%Z as B by (vm_compute; discriminate).
  split; [exact B |].
  exact (proj1 (proj2 (printed_integers_are_read_back examplePlatform 9007199254740992
                         mountedEmpty B))).
Defined.

Lemma dialog_holds_digits_and_minus_witness :
  reachable examplePlatform (run examplePlatform (enterSeven ++ typeMinusFive) mountedEmpty)
  /\ digitsAndMinus
       (numberDialogValue
          (fst (run examplePlatform (enterSeven ++ typeMinusFive) mountedEmpty))) = true.
Proof.
  assert (reachable examplePlatform
            (run examplePlatform (enterSeven ++ typeMinusFive) mountedEmpty)) as R.
  { unfold run, enterSeven, typeMinusFive. cbn [List.app fold_left].
    repeat apply reachable_step. now apply (reachable_mount examplePlatform ∅). }
  split; [exact R |].
  exact (proj1 (dialog_holds_digits_and_minus examplePlatform _ R)).
Defined.

Lemma draft_products_have_positive_size_witness :
  reachable examplePlatform
    (step examplePlatform (AddProduct (Some "A") (Some "Widget") (Some "12") None)
       mountedEmpty)
  /\ Forall positiveSize
       (newTemplateProducts
          (fst (step examplePlatform (AddProduct (Some "A") (Some "Widget") (Some "12") None)
                  mountedEmpty))).
Proof.
  assert (reachable examplePlatform
            (step examplePlatform (AddProduct (Some "A") (Some "Widget") (Some "12") None)
               mountedEmpty)) as R.
  { apply reachable_step. now apply (reachable_mount examplePlatform ∅). }
  split; [exact R |].
  exact (draft_products_have_positive_size examplePlatform _ R).
Defined.

Lemma export_file_name_witness :
  exportFileName "list" ("2024-01-01" ++ "T" ++ "09" ++ ":" ++ "30" ++ ":" ++ "05" ++ ".000Z")
  = "list_2024-01-01_09-30-05.csv".
Proof.
  exact (proj1 (export_file_name "list" "2024-01-01" "09" "30" "05" ".000Z"
                  eq_refl eq_refl eq_refl eq_refl eq_refl eq_refl eq_refl eq_refl)).
Defined.

Lemma templates_are_never_empty_witness :
  storedTemplatesFilled restoringPlatform storedSession
  /\ mount restoringPlatform storedSession = Normal mountedStored
  /\ Forall (fun t => FormTemplate.products t <> [])
       (templates (fst (run restoringPlatform resumeAndPress mountedStored))).
Proof.
  split; [exact storedTemplatesFilled_stored |]. split; [exact mount_stored |].
  exact (proj1 (templates_are_never_empty restoringPlatform storedSession mountedStored
                  resumeAndPress storedTemplatesFilled_stored mount_stored)).
Defined.

Lemma template_name_of_a_file_witness :
  isExtension "csv" = true
  /\ removeExtension ("stock.2024" ++ "." ++ "csv") = "stock.2024".
Proof.
  split; [reflexivity |]. exact (proj1 (template_name_of_a_file "stock.2024" "csv" eq_refl)).
Defined.

Lemma import_start_submit_archives_witness :
  parseCSV goodFile
  = Normal [ Product.mk "B" "Gadget" (parseFloat "2.5") (Some (ofZ 1));
             Product.mk "A" "Widget" (ofZ 12) (Some (ofZ 2));
             Product.mk "C" "Gizmo, large" (ofZ 6) None ]
  /\ map SavedCount.formName
       (savedCounts (fst (run examplePlatform (importCountSubmit "stock.csv" goodFile 1000 2000)
                            mountedEmpty))) = ["stock"].
Proof.
  split; [vm_compute; reflexivity |].
  exact (f_equal (map SavedCount.formName)
           (proj1 (import_start_submit_archives examplePlatform "stock.csv" goodFile 1000 2000
                     initialState (snd mountedEmpty) _ eq_refl ltac:(discriminate)
                     (List.Forall_nil _)))).
Defined.
